(** * A shallow embedding of the training-recommendation engine

    The development follows the two service classes of the repository:
    [RecommendationEngine] (hybrid scoring, weighted combination, diversity
    and completed-course filters, enrichment, caching) and [SkillExtractor]
    (multi-method skill extraction and level inference).

    Conventions of the embedding.
    - A JavaScript number is an exact rational ([Q]), except in the
      module [Doubles], which gives the course similarity and the
      diversity filter in binary64, for the statement that depends on a
      comparison at a bound.  [Math.sqrt] is a field of the [Runtime]
      record, as are the other library primitives the services call.
    - A JavaScript string is a [string] of 8-bit code units: the strings
      whose code units are below 256.  Case mapping acts on the letters
      among them, ASCII and Latin-1, as [String.prototype.toLowerCase]
      and the [i] flag of a regular expression do.
    - An array is a [list]; a [Map] is an association list in insertion
      order (the order [Map.prototype.values] iterates in); a [Set] is used
      through membership only.
    - A thrown exception is the [Throw] constructor of [result]; a
      [try/catch] is a match on it. *)

From Stdlib Require Import List String Ascii Bool Arith ZArith QArith Lia Lqa.
From Stdlib Require Import Permutation DecimalString Qround Sorted.
From Stdlib Require PrimFloat.
Import ListNotations.

Set Warnings "-inexact-float".
Set Implicit Arguments.

(** ** JavaScript primitives used by both services *)

Module JS.

Local Open Scope string_scope.

(** Completion of a call: a value, or a thrown error. *)
Inductive result (A : Type) : Type :=
| Ok (a : A)
| Throw (err : string).
Arguments Ok {A} a.
Arguments Throw {A} err.

Definition bind {A B} (r : result A) (k : A -> result B) : result B :=
  match r with
  | Ok a => k a
  | Throw e => Throw e
  end.

(** [try { body } catch (error) { return handler }]. *)
Definition try_catch {A} (body : result A) (handler : A) : A :=
  match body with
  | Ok a => a
  | Throw _ => handler
  end.

(** A destructured property with its default value. *)
Definition default {A} (d : A) (o : option A) : A :=
  match o with Some a => a | None => d end.

(** A loop whose body may throw and pushes onto one array: the first
    throw leaves the loop. *)
Fixpoint flat_mapM {A B} (f : A -> result (list B)) (l : list A)
  : result (list B) :=
  match l with
  | [] => Ok []
  | x :: l' =>
      bind (f x) (fun ys => bind (flat_mapM f l') (fun zs => Ok (ys ++ zs)%list))
  end.

(** *** Characters and strings *)

Definition is_upper (c : ascii) : bool :=
  let n := nat_of_ascii c in (65 <=? n)%nat && (n <=? 90)%nat.

Definition is_lower (c : ascii) : bool :=
  let n := nat_of_ascii c in (97 <=? n)%nat && (n <=? 122)%nat.

Definition is_digit (c : ascii) : bool :=
  let n := nat_of_ascii c in (48 <=? n)%nat && (n <=? 57)%nat.

(** The regular-expression class [\w]. *)
Definition is_word (c : ascii) : bool :=
  is_upper c || is_lower c || is_digit c || Ascii.eqb c "_"%char.

(** The regular-expression class [\s] on 8-bit code units. *)
Definition is_space (c : ascii) : bool :=
  let n := nat_of_ascii c in
  ((9 <=? n)%nat && (n <=? 13)%nat) || (n =? 32)%nat || (n =? 160)%nat.

(** The capital letters among the 8-bit code units: A-Z and the
    Latin-1 capitals, code units 192 to 222 without the multiplication
    sign 215.  The lower-case form of each is 32 further on; no other
    code unit below 256 changes under [toLowerCase]. *)
Definition is_capital (c : ascii) : bool :=
  let n := nat_of_ascii c in
  is_upper c || ((192 <=? n)%nat && (n <=? 222)%nat && negb (n =? 215)%nat).

Definition lower_char (c : ascii) : ascii :=
  if is_capital c then ascii_of_nat (nat_of_ascii c + 32) else c.

Fixpoint toLowerCase (s : string) : string :=
  match s with
  | EmptyString => EmptyString
  | String c s' => String (lower_char c) (toLowerCase s')
  end.

(** [s.includes(needle)]. *)
Fixpoint includes (s needle : string) : bool :=
  String.prefix needle s ||
  match s with
  | EmptyString => false
  | String _ s' => includes s' needle
  end.

(** [s.trim()]. *)
Fixpoint trimStart (s : string) : string :=
  match s with
  | String c s' => if is_space c then trimStart s' else s
  | EmptyString => EmptyString
  end.

Fixpoint trimEnd (s : string) : string :=
  match s with
  | EmptyString => EmptyString
  | String c s' =>
      match trimEnd s' with
      | EmptyString => if is_space c then EmptyString else String c EmptyString
      | t => String c t
      end
  end.

Definition trim (s : string) : string := trimEnd (trimStart s).

(** [parts.join(sep)]. *)
Fixpoint join (sep : string) (parts : list string) : string :=
  match parts with
  | [] => EmptyString
  | [p] => p
  | p :: rest => p ++ sep ++ join sep rest
  end.

(** *** Arrays *)

Definition str_mem (x : string) (l : list string) : bool :=
  existsb (String.eqb x) l.

(** [[...new Set(l)]]: first occurrences, in order. *)
Fixpoint unique_from (seen l : list string) : list string :=
  match l with
  | [] => []
  | x :: l' =>
      if str_mem x seen then unique_from seen l'
      else x :: unique_from (x :: seen) l'
  end.

Definition unique (l : list string) : list string := unique_from [] l.

(** [l.findIndex(p)], with [None] for [-1]. *)
Fixpoint findIndex {A} (p : A -> bool) (l : list A) : option nat :=
  match l with
  | [] => None
  | x :: l' => if p x then Some O else option_map S (findIndex p l')
  end.

(** [l.slice(0, end)] for an integer [end]: a negative end counts from
    the end of the array. *)
Definition slice0 {A} (l : list A) (e : Z) : list A :=
  if (0 <=? e)%Z then firstn (Z.to_nat e) l
  else firstn (Z.to_nat (Z.of_nat (List.length l) + e)) l.

(** [l.sort((a, b) => key(b) - key(a))]: the specification asks for a
    stable sort, so the result is the one of a stable insertion sort by
    descending key. *)
Section Sort.
Context {A : Type} (key : A -> Q).

Fixpoint insert_desc (x : A) (l : list A) : list A :=
  match l with
  | [] => [x]
  | y :: l' =>
      if Qle_bool (key y) (key x) then x :: y :: l'
      else y :: insert_desc x l'
  end.

Definition sort_desc (l : list A) : list A :=
  fold_right insert_desc [] l.
End Sort.

Definition Qmin (a b : Q) : Q := if Qle_bool a b then a else b.

(** A length or a count as a number. *)
Definition Qnat (n : nat) : Q := inject_Z (Z.of_nat n).

(** [a > b] on numbers. *)
Definition Qgtb (a b : Q) : bool := negb (Qle_bool a b).

(** *** Insertion-ordered [Map] with string keys *)
Section OrderedMap.
Context {V : Type}.

Definition omap := list (string * V).

Fixpoint get (m : omap) (k : string) : option V :=
  match m with
  | [] => None
  | (k', v) :: m' => if String.eqb k k' then Some v else get m' k
  end.

(** [m.set(k, v)]: an existing key keeps its position. *)
Fixpoint set (m : omap) (k : string) (v : V) : omap :=
  match m with
  | [] => [(k, v)]
  | (k', v') :: m' =>
      if String.eqb k k' then (k', v) :: m' else (k', v') :: set m' k v
  end.

Definition values (m : omap) : list V := map snd m.

(** [new Map(entries)]. *)
Definition of_entries (entries : list (string * V)) : omap :=
  fold_left (fun m kv => set m (fst kv) (snd kv)) entries [].
End OrderedMap.
Arguments omap V : clear implicits.

End JS.

(** ** The recommendation engine *)

Module Engine.
Import JS.
Local Open Scope Q_scope.

(** *** Data model *)

(** [status] of a learning-history entry (the schema's enum). *)
Inductive Status : Type :=
| Enrolled | InProgress | Completed | Dropped | Paused.

Definition Status_eqb (a b : Status) : bool :=
  match a, b with
  | Enrolled, Enrolled | InProgress, InProgress | Completed, Completed
  | Dropped, Dropped | Paused, Paused => true
  | _, _ => false
  end.

(** One entry of [user.learningHistory].  [h_difficulty] is read by
    [analyzePreferredDifficulty]; an absent property is [None]. *)
Record HistoryEntry : Type := {
  h_courseId : string;
  h_status : Status;
  h_progress : Q;
  h_timeSpent : Q;
  h_rating : option Q;
  h_category : option string;
  h_provider : option string;
  h_difficulty : option string
}.

Record Skill : Type := { s_name : string; s_level : string }.

Record CareerGoal : Type := {
  g_title : string;
  g_requiredSkills : list string;
  g_status : string
}.

Record Profile : Type := {
  skills : list Skill;
  interests : list string;
  careerGoals : list CareerGoal;
  (** [learningPreferences?.difficulty] *)
  preferredDifficulty : option string
}.

Record User : Type := {
  u_id : string;
  profile : Profile;
  learningHistory : list HistoryEntry
}.

(** Modelled from the spec: the course record, whose schema (the
    [Course] model) is not part of the sources: id, title,
    description, skills, category, provider, difficulty. *)
Record Course : Type := {
  c_id : string;
  title : string;
  description : string;
  c_skills : list string;
  category : string;
  provider : string;
  difficulty : string
}.

(** What the two collections hold at the time of one query. *)
Record Database : Type := { users : list User; courses : list Course }.

(** A candidate as one scorer emits it. *)
Record Rec : Type := { courseId : string; score : Q; reason : string }.

(** One contribution recorded on a merged candidate. *)
Record SourceEntry : Type := {
  src_type : string; src_score : Q; src_reason : string
}.

(** A merged candidate ([combineRecommendations]). *)
Record Combined : Type := {
  m_courseId : string;
  m_score : Q;
  m_sources : list SourceEntry
}.

(** One argument of [combineRecommendations]. *)
Record Source : Type := { recs : list Rec; weight : Q; type : string }.

Record Explanation : Type := {
  primaryReason : string;
  e_sources : list SourceEntry;
  confidence : Q
}.

(** A recommendation as returned to the caller; [r_course = None] is
    [course: null]. *)
Record Recommendation : Type := {
  r_courseId : string;
  r_score : Q;
  r_course : option Course;
  r_explanation : option Explanation
}.

(** The [options] argument of [generateRecommendations]; an absent
    property is [None] and takes the default of the destructuring. *)
Record Options : Type := {
  limit : option Z;
  includeExplanations : option bool;
  filterCompleted : option bool;
  diversityFactor : option Q
}.

(** Library primitives the engine calls. *)
Record Runtime : Type := {
  (** [Math.sqrt] *)
  Math_sqrt : Q -> Q;
  (** [new natural.WordTokenizer().tokenize] *)
  tokenize : string -> list string;
  (** [JSON.stringify] on an options object *)
  JSON_stringify : Options -> string;
  (** [new RegExp(pattern, 'i')]: [None] when the pattern does not
      compile, else the test the store applies to a skill. *)
  RegExp_i : string -> option (string -> bool)
}.

(** Modelled from the spec: the cache manager, whose module is not part
    of the sources; [Cache.get(key)] gives a value or a miss,
    [Cache.set(key, value, ttl)] memoizes it.  Expiry is not modelled. *)
Definition Cache : Type := omap (list Recommendation).

Definition CacheManager_get (c : Cache) (key : string)
  : option (list Recommendation) := get c key.

Definition CacheManager_set (c : Cache) (key : string)
           (v : list Recommendation) : Cache := set c key v.

(** [this.weights], [this.minSimilarityThreshold],
    [this.maxRecommendations]. *)
Definition w_collaborative : Q := 0.35.
Definition w_contentBased : Q := 0.35.
Definition w_marketDriven : Q := 0.20.
Definition w_behavioral : Q := 0.10.
Definition minSimilarityThreshold : Q := 0.1.
Definition maxRecommendations : Z := 50.

(** [Course.find({ _id: { $in: ids } })]. *)
Definition Course_find_by_ids (db : Database) (ids : list string)
  : list Course :=
  filter (fun c => str_mem (c_id c) ids) (courses db).

(** [User.findById(userId)]. *)
Definition User_findById (db : Database) (userId : string) : option User :=
  find (fun u => String.eqb (u_id u) userId) (users db).

(** *** Helper methods *)

Definition sum_sq (v : list Q) : Q :=
  fold_left (fun acc x => acc + x * x) v 0.

Definition dot (a b : list Q) : Q :=
  fold_left (fun acc xy => acc + fst xy * snd xy) (combine a b) 0.

Section WithRuntime.
Variable rt : Runtime.

(** The division [cosineSimilarity] performs, if it reaches one, as
    (dividend, divisor); [None] on the two early returns. *)
Definition cosineDivision (vecA vecB : list Q) : option (Q * Q) :=
  if negb (Nat.eqb (List.length vecA) (List.length vecB)) then None
  else
    let dotProduct := dot vecA vecB in
    let normA := sum_sq vecA in
    let normB := sum_sq vecB in
    if Qeq_bool normA 0 || Qeq_bool normB 0 then None
    else Some (dotProduct, Math_sqrt rt normA * Math_sqrt rt normB).

Definition cosineSimilarity (vecA vecB : list Q) : Q :=
  match cosineDivision vecA vecB with
  | None => 0
  | Some (n, d) => n / d
  end.

Definition calculateSkillSimilarity (userSkills courseSkills : list string)
  : Q :=
  match userSkills, courseSkills with
  | [], _ | _, [] => 0
  | _, _ =>
      let userSkillsLower := map toLowerCase userSkills in
      let courseSkillsLower := map toLowerCase courseSkills in
      let intersection :=
        filter (fun skill =>
                  existsb (fun courseSkill =>
                             includes courseSkill skill
                             || includes skill courseSkill)
                          courseSkillsLower)
               userSkillsLower in
      let union := unique (userSkillsLower ++ courseSkillsLower) in
      Qnat (List.length intersection) / Qnat (List.length union)
  end.

Definition calculateCourseSimilarity (course1 course2 : Course) : Q :=
  let similarity := 0 in
  let similarity :=
    if String.eqb (category course1) (category course2)
    then similarity + 0.4 else similarity in
  let skillSim :=
    calculateSkillSimilarity (c_skills course1) (c_skills course2) in
  let similarity := similarity + skillSim * 0.4 in
  if String.eqb (difficulty course1) (difficulty course2)
  then similarity + 0.2 else similarity.

Definition count_occ_str (l : list string) (t : string) : nat :=
  List.length (filter (String.eqb t) l).

Definition calculateTFIDFSimilarity (text1 text2 : string) : Q :=
  let tokens1 := tokenize rt (toLowerCase text1) in
  let tokens2 := tokenize rt (toLowerCase text2) in
  match tokens1, tokens2 with
  | [], _ | _, [] => 0
  | _, _ =>
      let allTokens := unique (tokens1 ++ tokens2) in
      let vector1 := map (fun t => Qnat (count_occ_str tokens1 t)) allTokens in
      let vector2 := map (fun t => Qnat (count_occ_str tokens2 t)) allTokens in
      cosineSimilarity vector1 vector2
  end.

Definition calculateDifficultyMatch (user : User) (course : Course) : Q :=
  let userPreference :=
    match preferredDifficulty (profile user) with
    | None | Some EmptyString => "mixed"%string
    | Some p => p
    end in
  if String.eqb userPreference "mixed" then 0.5
  else
    let preferredLevels :=
      if String.eqb userPreference "beginner-friendly"
      then ["beginner"%string]
      else if String.eqb userPreference "challenging"
           then ["advanced"%string; "expert"%string]
           else [difficulty course] in
    if str_mem (difficulty course) preferredLevels then 1 else 0.

(** [row[i] = v] on a row that is long enough. *)
Fixpoint set_nth (row : list Q) (i : nat) (v : Q) : list Q :=
  match row, i with
  | [], _ => []
  | _ :: row', O => v :: row'
  | x :: row', S i' => x :: set_nth row' i' v
  end.

Definition interactionWeight (history : HistoryEntry) : Q :=
  let weight := 0 in
  let weight :=
    match h_status history with
    | Completed => weight + 1
    | InProgress => weight + h_progress history / 100
    | _ => weight
    end in
  let weight :=
    match h_rating history with
    | Some rating =>
        if Qeq_bool rating 0 then weight else weight * (rating / 5)
    | None => weight
    end in
  let weight :=
    if Qgtb (h_timeSpent history) 0
    then weight * Qmin (h_timeSpent history / 3600) 2
    else weight in
  Qmin weight 2.

Definition buildInteractionMatrix (users : list User)
           (courses : list Course) : list (list Q) :=
  map (fun user =>
         fold_left
           (fun row history =>
              match findIndex
                      (fun c => String.eqb (c_id c) (h_courseId history))
                      courses with
              | Some courseIndex =>
                  set_nth row courseIndex (interactionWeight history)
              | None => row
              end)
           (learningHistory user)
           (repeat 0 (List.length courses)))
      users.

Definition getRow (matrix : list (list Q)) (i : nat) : list Q :=
  nth i matrix [].

Definition mget (matrix : list (list Q)) (i j : nat) : Q :=
  nth j (getRow matrix i) 0.

Definition calculateUserSimilarities (matrix : list (list Q))
           (userIndex : nat) : list (nat * Q) :=
  let userRow := getRow matrix userIndex in
  let similarities :=
    flat_map
      (fun i =>
         if Nat.eqb i userIndex then []
         else
           let similarity := cosineSimilarity userRow (getRow matrix i) in
           if Qgtb similarity minSimilarityThreshold
           then [(i, similarity)] else [])
      (seq 0 (List.length matrix)) in
  slice0 (sort_desc snd similarities) 20.

Definition generateCollaborativeRecs (matrix : list (list Q))
           (similarities : list (nat * Q)) (userIndex : nat)
           (courses : list Course) : list Rec :=
  let userRow := getRow matrix userIndex in
  flat_map
    (fun courseIndex =>
       if Qgtb (nth courseIndex userRow 0) 0 then []
       else
         let '(weightedSum, similaritySum) :=
           fold_left
             (fun '(ws, ss) '(simUserIndex, similarity) =>
                let rating := mget matrix simUserIndex courseIndex in
                if Qgtb rating 0
                then (ws + similarity * rating, ss + similarity)
                else (ws, ss))
             similarities (0, 0) in
         if Qgtb similaritySum 0 then
           let predictedRating := weightedSum / similaritySum in
           if Qgtb predictedRating minSimilarityThreshold then
             match nth_error courses courseIndex with
             | Some c =>
                 [ {| courseId := c_id c;
                      score := predictedRating;
                      reason := "Users with similar interests also liked this course" |} ]
             | None => []
             end
           else []
         else [])
    (seq 0 (List.length courses)).

(** *** The four scorers *)

Definition collaborativeFiltering (db : Database) (userId : string)
  : list Rec :=
  let users := users db in
  let courses := courses db in
  if (List.length users <? 2)%nat || (List.length courses <? 2)%nat
  then []
  else
    let userItemMatrix := buildInteractionMatrix users courses in
    match findIndex (fun u => String.eqb (u_id u) userId) users with
    | None => []
    | Some userIndex =>
        let userSimilarities :=
          calculateUserSimilarities userItemMatrix userIndex in
        generateCollaborativeRecs
          userItemMatrix userSimilarities userIndex courses
    end.

(** [Math.round] and the decimal rendering of an integer inside a
    template literal. *)
Definition Math_round (q : Q) : Z := Qfloor (q + (1 # 2)).

Definition Z_to_string (z : Z) : string :=
  DecimalString.NilZero.string_of_int (Z.to_int z).

Definition contentBasedFiltering (db : Database) (user : User)
  : list Rec :=
  let courses := courses db in
  match courses with
  | [] => []
  | _ =>
      let userSkills := join " " (map s_name (skills (profile user))) in
      let userInterests := join " " (interests (profile user)) in
      let userGoals :=
        join " "
             (map (fun g =>
                     (g_title g ++ " " ++ join " " (g_requiredSkills g))%string)
                  (careerGoals (profile user))) in
      let userProfile :=
        toLowerCase
          (userSkills ++ " " ++ userInterests ++ " " ++ userGoals)%string in
      let similarities :=
        map (fun course =>
               let courseContent :=
                 toLowerCase
                   (title course ++ " " ++ description course ++ " "
                    ++ join " " (c_skills course))%string in
               let tfidfSim :=
                 calculateTFIDFSimilarity userProfile courseContent in
               let skillSim :=
                 calculateSkillSimilarity
                   (map s_name (skills (profile user))) (c_skills course) in
               let difficultyMatch := calculateDifficultyMatch user course in
               let score :=
                 tfidfSim * 0.4 + skillSim * 0.4 + difficultyMatch * 0.2 in
               {| courseId := c_id course;
                  score := score;
                  reason :=
                    ("Content similarity based on skills and interests ("
                     ++ Z_to_string (Math_round (score * 100))
                     ++ "% match)")%string |})
            courses in
      slice0
        (sort_desc score
           (filter (fun sim => Qgtb (score sim) minSimilarityThreshold)
                   similarities))
        maxRecommendations
  end.

Record Trend : Type := {
  t_skill : string; growthRate : Z; demandLevel : string
}.

(** [getMarketData()]: the mock data of the source. *)
Definition trendingSkills : list Trend :=
  [ {| t_skill := "artificial intelligence"; growthRate := 45; demandLevel := "high" |};
    {| t_skill := "machine learning"; growthRate := 38; demandLevel := "high" |};
    {| t_skill := "cloud computing"; growthRate := 32; demandLevel := "high" |};
    {| t_skill := "data science"; growthRate := 28; demandLevel := "medium" |};
    {| t_skill := "cybersecurity"; growthRate := 25; demandLevel := "high" |} ].

(** [s.split(' ')[0]]. *)
Fixpoint firstWord (s : string) : string :=
  match s with
  | EmptyString => EmptyString
  | String c s' =>
      if Ascii.eqb c " " then EmptyString else String c (firstWord s')
  end.

Definition calculateMarketScore (trend : Trend) (userProfile : Profile)
  : Q :=
  let score := 0 in
  let score := score + inject_Z (growthRate trend) / 100 in
  let score :=
    if String.eqb (demandLevel trend) "high" then score + 0.3
    else if String.eqb (demandLevel trend) "medium" then score + 0.1
         else score in
  let hasRelatedSkill :=
    existsb (fun skill =>
               includes (toLowerCase (s_name skill))
                        (firstWord (toLowerCase (t_skill trend))))
            (skills userProfile) in
  let score := if hasRelatedSkill then score + 0.2 else score in
  Qmin score 1.

(** [Course.find({ skills: { $regex: new RegExp(pattern, 'i') } })]. *)
Definition Course_find_by_skill (db : Database) (pattern : string)
  : result (list Course) :=
  match RegExp_i rt pattern with
  | None => Throw "SyntaxError: Invalid regular expression"
  | Some test =>
      Ok (filter (fun c => existsb test (c_skills c)) (courses db))
  end.

Definition generateSkillGapRecommendations (db : Database) (user : User)
  : result (list Rec) :=
  flat_mapM
    (fun goal =>
       if negb (String.eqb (g_status goal) "active") then Ok []
       else
         let userSkills :=
           map (fun s => toLowerCase (s_name s)) (skills (profile user)) in
         flat_mapM
           (fun requiredSkill =>
              let hasSkill :=
                existsb (fun userSkill =>
                           includes userSkill (toLowerCase requiredSkill)
                           || includes (toLowerCase requiredSkill) userSkill)
                        userSkills in
              if hasSkill then Ok []
              else
                bind (Course_find_by_skill db requiredSkill)
                     (fun courses =>
                        Ok (map (fun course =>
                                   {| courseId := c_id course;
                                      score := 0.8;
                                      reason :=
                                        ("Required for your career goal: "
                                         ++ g_title goal)%string |})
                                courses)))
           (g_requiredSkills goal))
    (careerGoals (profile user)).

Definition marketDrivenRecommendations (db : Database) (user : User)
  : list Rec :=
  try_catch
    (bind
       (flat_mapM
          (fun trend =>
             let skillName := toLowerCase (t_skill trend) in
             let userSkill :=
               find (fun s =>
                       String.eqb (toLowerCase (s_name s)) skillName
                       && str_mem (s_level s) ["advanced"; "expert"]%string)
                    (skills (profile user)) in
             match userSkill with
             | Some _ => Ok []
             | None =>
                 bind (Course_find_by_skill db skillName)
                      (fun courses =>
                         Ok (map (fun course =>
                                    {| courseId := c_id course;
                                       score :=
                                         calculateMarketScore trend (profile user);
                                       reason :=
                                         ("High market demand for "
                                          ++ t_skill trend ++ " ("
                                          ++ Z_to_string (growthRate trend)
                                          ++ "% growth, "
                                          ++ demandLevel trend
                                          ++ " demand)")%string |})
                                 courses))
             end)
          trendingSkills)
       (fun recommendations =>
          bind
            (match careerGoals (profile user) with
             | [] => Ok []
             | _ => generateSkillGapRecommendations db user
             end)
            (fun gapRecommendations =>
               Ok (slice0
                     (sort_desc score
                                (recommendations ++ gapRecommendations)%list)
                     maxRecommendations))))
    [].

(** A counting object [{}] filled by [count[k] = (count[k] || 0) + 1],
    as the map of its own keys in insertion order.  The key
    [__proto__] is never an own key: what is read under it is the
    prototype, and the assignment of a string to it does nothing.
    A key that names a method every object inherits (constructor,
    toString and the like) makes the count a string and the order of
    the sort below a matter of the implementation; such a key is
    counted like any other here. *)
Definition countBy (keys : list string) : omap nat :=
  fold_left (fun count k =>
               if String.eqb k "__proto__" then count
               else set count k (default O (get count k) + 1)%nat)
            keys [].

(** A property that is present and truthy. *)
Definition truthy (o : option string) : list string :=
  match o with
  | Some (String c s) => [String c s]
  | _ => []
  end.

(** The array index a key is, if it is one: the canonical decimal
    of a number below 2^32 - 1. *)
Definition arrayIndex (key : string) : option N :=
  match key with
  | EmptyString => None
  | String c rest =>
      if forallb is_digit (list_ascii_of_string key)
         && (negb (Ascii.eqb c "0")
             || match rest with EmptyString => true | _ => false end)
         && (String.length key <=? 10)%nat
      then
        let v :=
          fold_left (fun acc d => (acc * 10 + (N_of_ascii d - 48))%N)
                    (list_ascii_of_string key) 0%N in
        if (v <=? 4294967294)%N then Some v else None
      else None
  end.

Fixpoint insertIndexed (e : N * (string * nat))
         (l : list (N * (string * nat))) : list (N * (string * nat)) :=
  match l with
  | [] => [e]
  | x :: l' =>
      if (fst e <? fst x)%N then e :: x :: l' else x :: insertIndexed e l'
  end.

(** [Object.entries(count)]: the keys that are array indices first,
    in ascending order, then the other keys in insertion order. *)
Definition Object_entries (count : omap nat) : list (string * nat) :=
  let indexed :=
    flat_map (fun e => match arrayIndex (fst e) with
                       | Some i => [(i, e)]
                       | None => []
                       end) count in
  let others :=
    filter (fun e => match arrayIndex (fst e) with
                     | Some _ => false
                     | None => true
                     end) count in
  (map snd (fold_right insertIndexed [] indexed) ++ others)%list.

Definition sortedEntries (count : omap nat) : list (string * nat) :=
  sort_desc (fun e => Qnat (snd e)) (Object_entries count).

Definition analyzePreferredCategories (completedCourses : list HistoryEntry)
  : list string :=
  let categoryCount :=
    countBy (flat_map (fun course => truthy (h_category course))
                      completedCourses) in
  map fst (slice0 (sortedEntries categoryCount) 3).

Definition analyzePreferredProviders (completedCourses : list HistoryEntry)
  : list string :=
  let providerCount :=
    countBy (flat_map (fun course => truthy (h_provider course))
                      completedCourses) in
  map fst (slice0 (sortedEntries providerCount) 2).

Definition analyzePreferredDifficulty (completedCourses : list HistoryEntry)
  : string :=
  let difficultyCount :=
    countBy (flat_map (fun course => truthy (h_difficulty course))
                      completedCourses) in
  match sortedEntries difficultyCount with
  | e :: _ => fst e
  | [] => "intermediate"%string
  end.

Definition behavioralRecommendations (db : Database) (user : User)
  : list Rec :=
  match learningHistory user with
  | [] => []
  | learningHistory =>
      let completedCourses :=
        filter (fun h => Status_eqb (h_status h) Completed) learningHistory in
      let preferredCategories := analyzePreferredCategories completedCourses in
      let preferredProviders := analyzePreferredProviders completedCourses in
      let preferredDifficulty := analyzePreferredDifficulty completedCourses in
      let courses :=
        filter (fun c =>
                  str_mem (category c) preferredCategories
                  || str_mem (provider c) preferredProviders
                  || String.eqb (difficulty c) preferredDifficulty)
               (courses db) in
      let recommendations :=
        flat_map
          (fun course =>
             let score := 0 in
             let reasons := [] in
             let '(score, reasons) :=
               if str_mem (category course) preferredCategories
               then (score + 0.4,
                     reasons ++ [("matches your preferred category: "
                                  ++ category course)%string])%list
               else (score, reasons) in
             let '(score, reasons) :=
               if str_mem (provider course) preferredProviders
               then (score + 0.3,
                     reasons ++ [("from your preferred provider: "
                                  ++ provider course)%string])%list
               else (score, reasons) in
             let '(score, reasons) :=
               if String.eqb (difficulty course) preferredDifficulty
               then (score + 0.3,
                     reasons ++ ["matches your preferred difficulty level"%string])%list
               else (score, reasons) in
             if Qgtb score 0 then
               [ {| courseId := c_id course;
                    score := score;
                    reason := ("Based on your learning patterns: "
                               ++ join ", " reasons)%string |} ]
             else [])
          courses in
      slice0 (sort_desc score recommendations) maxRecommendations
  end.

(** *** Combination and filters *)

Definition sourceEntry (src : Source) (rec : Rec) : SourceEntry :=
  {| src_type := type src;
     src_score := score rec;
     src_reason := reason rec |}.

(** The body of the inner [forEach] of [combineRecommendations]. *)
Definition combineStep (src : Source) (combined : omap Combined)
           (rec : Rec) : omap Combined :=
  let key := courseId rec in
  match get combined key with
  | Some existing =>
      set combined key
          {| m_courseId := m_courseId existing;
             m_score := m_score existing + score rec * weight src;
             m_sources := m_sources existing ++ [sourceEntry src rec] |}
  | None =>
      set combined key
          {| m_courseId := courseId rec;
             m_score := score rec * weight src;
             m_sources := [sourceEntry src rec] |}
  end.

Definition combineRecommendations (sources : list Source)
  : list Combined :=
  let combined :=
    fold_left (fun combined src => fold_left (combineStep src) (recs src) combined)
              sources [] in
  sort_desc m_score (values combined).

Definition courseMapOf (courses : list Course) : omap Course :=
  of_entries (map (fun c => (c_id c, c)) courses).

(** The test of the inner loop of [applyDiversityFilter]: no selected
    recommendation whose course is found is too similar.  The
    comparison is the one of exact arithmetic here; the module
    [Doubles] has the filter with the numbers of the source, where a
    similarity that equals the bound as a rational can exceed it. *)
Definition isDiverse (courseMap : omap Course) (diversityFactor : Q)
           (candidateCourse : Course) (diverseRecs : list Combined)
  : bool :=
  forallb
    (fun selected =>
       match get courseMap (m_courseId selected) with
       | None => true
       | Some selectedCourse =>
           negb (Qgtb (calculateCourseSimilarity candidateCourse selectedCourse)
                      (1 - diversityFactor))
       end)
    diverseRecs.

(** One iteration of the outer loop of [applyDiversityFilter]. *)
Definition diversityStep (courseMap : omap Course) (diversityFactor : Q)
           (diverseRecs : list Combined) (candidate : Combined)
  : list Combined :=
  match get courseMap (m_courseId candidate) with
  | None => diverseRecs
  | Some candidateCourse =>
      if isDiverse courseMap diversityFactor candidateCourse diverseRecs
      then diverseRecs ++ [candidate]
      else diverseRecs
  end.

Definition applyDiversityFilter (db : Database)
           (recommendations : list Combined) (diversityFactor : Q)
  : list Combined :=
  match recommendations with
  | [] | [_] => recommendations
  | top :: rest =>
      let courses :=
        Course_find_by_ids db (map m_courseId recommendations) in
      let courseMap := courseMapOf courses in
      fold_left (diversityStep courseMap diversityFactor) rest [top]
  end.

Definition completedCourseIds (learningHistory : list HistoryEntry)
  : list string :=
  map h_courseId
      (filter (fun h => Status_eqb (h_status h) Completed) learningHistory).

Definition filterCompletedCourses (recommendations : list Combined)
           (learningHistory : list HistoryEntry) : list Combined :=
  filter (fun rec =>
            negb (str_mem (m_courseId rec) (completedCourseIds learningHistory)))
         recommendations.

(** *** Enrichment and the request *)

Definition enrich (courseMap : omap Course) (includeExplanations : bool)
           (rec : Combined) : Recommendation :=
  {| r_courseId := m_courseId rec;
     r_score := m_score rec;
     r_course := get courseMap (m_courseId rec);
     r_explanation :=
       if includeExplanations then
         Some {| primaryReason :=
                   match m_sources rec with
                   | {| src_reason := String c s |} :: _ => String c s
                   | _ => "Recommended based on your profile"%string
                   end;
                 e_sources := m_sources rec;
                 confidence := Qmin (m_score rec) 1 |}
       else None |}.

Definition hasCourse (rec : Recommendation) : bool :=
  match r_course rec with Some _ => true | None => false end.

Definition enrichRecommendations (db : Database)
           (recommendations : list Combined) (includeExplanations : bool)
  : list Recommendation :=
  let courseIds := map m_courseId recommendations in
  let courses := Course_find_by_ids db courseIds in
  let courseMap := courseMapOf courses in
  filter hasCourse (map (enrich courseMap includeExplanations) recommendations).

(** The store as each group of queries of one request finds it: the
    user lookup, the four scorers (joined by [Promise.all]), the
    diversity filter and the enrichment each read the collections
    anew. *)
Record Reads : Type := {
  atLookup : Database;
  atScoring : Database;
  atDiversity : Database;
  atEnrichment : Database
}.

(** A request during which the store does not change. *)
Definition snapshot (db : Database) : Reads :=
  {| atLookup := db; atScoring := db; atDiversity := db; atEnrichment := db |}.

Definition cacheKeyOf (userId : string) (options : Options) : string :=
  ("recommendations:" ++ userId ++ ":" ++ JSON_stringify rt options)%string.

(** The argument of [combineRecommendations] in
    [generateRecommendations]: the four lists with [this.weights]. *)
Definition weightedSources
           (collaborativeRecs contentRecs marketRecs behavioralRecs : list Rec)
  : list Source :=
  [ {| recs := collaborativeRecs;
       weight := w_collaborative; type := "collaborative" |};
    {| recs := contentRecs;
       weight := w_contentBased; type := "content-based" |};
    {| recs := marketRecs;
       weight := w_marketDriven; type := "market-driven" |};
    {| recs := behavioralRecs;
       weight := w_behavioral; type := "behavioral" |} ].

Definition scorerSources (db : Database) (userId : string) (user : User)
  : list Source :=
  weightedSources (collaborativeFiltering db userId)
                  (contentBasedFiltering db user)
                  (marketDrivenRecommendations db user)
                  (behavioralRecommendations db user).

(** [finalRecs] of [generateRecommendations] just before it is cut to
    [limit]: combined, diversified and, if asked, without the
    completed courses. *)
Definition survivingCandidates (reads : Reads) (userId : string)
           (user : User) (options : Options) : list Combined :=
  let filterCompleted := default true (filterCompleted options) in
  let diversityFactor := default 0.3 (diversityFactor options) in
  let combinedRecs :=
    combineRecommendations (scorerSources (atScoring reads) userId user) in
  let finalRecs :=
    applyDiversityFilter (atDiversity reads) combinedRecs diversityFactor in
  if filterCompleted
  then filterCompletedCourses finalRecs (learningHistory user)
  else finalRecs.

Definition generateRecommendations (reads : Reads) (cache : Cache)
           (userId : string) (options : Options)
  : result (list Recommendation) * Cache :=
  let limit := default 10%Z (limit options) in
  let includeExplanations := default true (includeExplanations options) in
  let cacheKey := cacheKeyOf userId options in
  match CacheManager_get cache cacheKey with
  | Some cachedRecs => (Ok cachedRecs, cache)
  | None =>
      match User_findById (atLookup reads) userId with
      | None => (Throw "User not found", cache)
      | Some user =>
          let finalRecs := survivingCandidates reads userId user options in
          let finalRecs := slice0 finalRecs limit in
          let enrichedRecs :=
            enrichRecommendations (atEnrichment reads) finalRecs
                                  includeExplanations in
          (Ok enrichedRecs, CacheManager_set cache cacheKey enrichedRecs)
      end
  end.

End WithRuntime.

End Engine.

(** ** The regular expressions of the skill extractor

    The patterns of the source use literals, character classes, greedy
    repetition of a class, sequence, alternation, option and one capture
    group; [\b] occurs only around an escaped literal and is handled by
    [wordBounded].  Matching is by backtracking in the priority order of
    ECMAScript. *)

Module Regex.
Import JS.
Local Open Scope string_scope.

Inductive re : Type :=
| Eps
| Lit (s : string)
| Cls (p : ascii -> bool)
| Many (p : ascii -> bool)
| Many1 (p : ascii -> bool)
| Seq (a b : re)
| Alt (a b : re)
| Opt (a : re)
| Cap (a : re).

(** [s.substring(0, n)]. *)
Fixpoint take (n : nat) (s : string) : string :=
  match n, s with
  | S n', String c s' => String c (take n' s')
  | _, _ => EmptyString
  end.

(** [s.substring(n)]. *)
Fixpoint drop (n : nat) (s : string) : string :=
  match n, s with
  | S n', String _ s' => drop n' s'
  | _, _ => s
  end.

Definition substring (s : string) (a b : nat) : string :=
  take (b - a) (drop a s).

(** The rest of [s] after the literal [l]; [ci] is the [i] flag, under
    which two code units match when their lower-case forms agree (the
    flag compares upper-case forms, which agree for the same pairs of
    code units below 256). *)
Fixpoint strip (ci : bool) (l s : string) : option string :=
  match l, s with
  | EmptyString, _ => Some s
  | String a l', String b s' =>
      if (if ci then Ascii.eqb (lower_char a) (lower_char b)
          else Ascii.eqb a b)
      then strip ci l' s' else None
  | String _ _, EmptyString => None
  end.

Section Match.
Context {R : Type}.

(** Greedy [p*] followed by the continuation [k]. *)
Fixpoint many (p : ascii -> bool) (s : string) (k : string -> option R)
  : option R :=
  match s with
  | String c s' =>
      if p c then
        match many p s' k with
        | Some r => Some r
        | None => k s
        end
      else k s
  | EmptyString => k s
  end.

(** [matchre ci r s cap k]: match [r] at the head of [s], then
    continue with [k] on the rest and the capture. *)
Fixpoint matchre (ci : bool) (r : re) (s : string) (cap : option string)
         (k : string -> option string -> option R) : option R :=
  match r with
  | Eps => k s cap
  | Lit l =>
      match strip ci l s with
      | Some s' => k s' cap
      | None => None
      end
  | Cls p =>
      match s with
      | String c s' => if p c then k s' cap else None
      | EmptyString => None
      end
  | Many p => many p s (fun s' => k s' cap)
  | Many1 p =>
      match s with
      | String c s' => if p c then many p s' (fun s'' => k s'' cap) else None
      | EmptyString => None
      end
  | Seq a b => matchre ci a s cap (fun s' cap' => matchre ci b s' cap' k)
  | Alt a b =>
      match matchre ci a s cap k with
      | Some x => Some x
      | None => matchre ci b s cap k
      end
  | Opt a =>
      match matchre ci a s cap k with
      | Some x => Some x
      | None => k s cap
      end
  | Cap a =>
      matchre ci a s cap
              (fun s' _ => k s' (Some (take (String.length s - String.length s') s)))
  end.
End Match.

(** A way to match at one position: given the previous character and
    the rest of the subject, the length of the match and its capture. *)
Definition matcher : Type :=
  option ascii -> string -> option (nat * option string).

Definition reMatcher (ci : bool) (r : re) : matcher :=
  fun _ s =>
    matchre ci r s None
            (fun s' cap => Some (String.length s - String.length s', cap)%nat).

(** [\b] between the previous and the next character. *)
Definition boundary (prev next : option ascii) : bool :=
  let w o := match o with Some c => is_word c | None => false end in
  negb (Bool.eqb (w prev) (w next)).

Definition headOf (s : string) : option ascii :=
  match s with String c _ => Some c | EmptyString => None end.

Fixpoint lastOf (prev : option ascii) (s : string) : option ascii :=
  match s with
  | EmptyString => prev
  | String c s' => lastOf (Some c) s'
  end.

(** [new RegExp(`\\b${escapeRegex(name)}\\b`, 'gi')] at one position. *)
Definition wordBounded (name : string) : matcher :=
  fun prev s =>
    if boundary prev (headOf s) then
      match strip true name s with
      | Some s' =>
          let n := String.length name in
          if boundary (lastOf prev (take n s)) (headOf s')
          then Some (n, None) else None
      | None => None
      end
    else None.

Record Match : Type := {
  index : nat;          (** [match.index] *)
  mlength : nat;        (** [match[0].length] *)
  group1 : option string  (** [match[1]] *)
}.

(** [while ((match = regex.exec(text)) !== null)] on a global regex,
    from the position of [s]: the matches in order, or [None] when a
    match is empty, for then [lastIndex] never moves and the loop
    finds the same match on every turn; what becomes of such a loop
    depends on its body and is said where the loop is used. [skip]
    counts the characters of the previous match still to pass. *)
Fixpoint execLoopFrom (m : matcher) (prev : option ascii) (s : string)
         (idx skip : nat) : option (list Match) :=
  match skip with
  | S skip' =>
      match s with
      | String c s' => execLoopFrom m (Some c) s' (S idx) skip'
      | EmptyString => Some []
      end
  | O =>
      match m prev s with
      | Some (O, _) => None
      | Some (S n, cap) =>
          match s with
          | String c s' =>
              option_map
                (cons {| index := idx; mlength := S n; group1 := cap |})
                (execLoopFrom m (Some c) s' (S idx) n)
          | EmptyString =>
              Some [ {| index := idx; mlength := S n; group1 := cap |} ]
          end
      | None =>
          match s with
          | String c s' => execLoopFrom m (Some c) s' (S idx) O
          | EmptyString => Some []
          end
      end
  end.

Definition execLoop (m : matcher) (text : string) : option (list Match) :=
  execLoopFrom m None text O O.

(** One [regex.exec(text)] with [lastIndex = start]: the index of the
    leftmost match at or after [start]. *)
Fixpoint execFrom (m : matcher) (prev : option ascii) (s : string)
         (idx start : nat) : option nat :=
  match start with
  | S start' =>
      match s with
      | String c s' => execFrom m (Some c) s' (S idx) start'
      | EmptyString => None
      end
  | O =>
      match m prev s with
      | Some _ => Some idx
      | None =>
          match s with
          | String c s' => execFrom m (Some c) s' (S idx) O
          | EmptyString => None
          end
      end
  end.

(** [text.match(regex)] on a global regex: the number of matches
    ([null] is 0); an empty match moves on by one character. *)
Fixpoint countMatchesFrom (m : matcher) (prev : option ascii) (s : string)
         (skip : nat) : nat :=
  match skip with
  | S skip' =>
      match s with
      | String c s' => countMatchesFrom m (Some c) s' skip'
      | EmptyString => O
      end
  | O =>
      match m prev s with
      | Some (n, _) =>
          S (match s with
             | String c s' => countMatchesFrom m (Some c) s' (Nat.pred n)
             | EmptyString => O
             end)
      | None =>
          match s with
          | String c s' => countMatchesFrom m (Some c) s' O
          | EmptyString => O
          end
      end
  end.

Definition countMatches (m : matcher) (text : string) : nat :=
  countMatchesFrom m None text O.

(** [s.split(/[class]/)]. *)
Fixpoint splitOn (p : ascii -> bool) (s : string) : list string :=
  match s with
  | EmptyString => [EmptyString]
  | String c s' =>
      if p c then EmptyString :: splitOn p s'
      else
        match splitOn p s' with
        | w :: ws => String c w :: ws
        | [] => [String c EmptyString]
        end
  end.

(** A lower bound on the length of what [r] matches. *)
Fixpoint minLength (r : re) : nat :=
  match r with
  | Eps | Many _ | Opt _ => O
  | Lit l => String.length l
  | Cls _ | Many1 _ => 1
  | Seq a b => minLength a + minLength b
  | Alt a b => Nat.min (minLength a) (minLength b)
  | Cap a => minLength a
  end.

End Regex.

(** ** The skill extractor *)

Module Extractor.
Import JS Regex.
Local Open Scope string_scope.
Local Open Scope Q_scope.

(** *** The skills database *)

Definition db_programming : list string :=
  [
    "javascript"; "python"; "java"; "c++"; "c#"; "php"; "ruby"; "go";
    "rust"; "swift"; "kotlin"; "scala"; "r"; "matlab"; "perl"; "shell";
    "bash"; "powershell"; "typescript"; "dart"; "elixir"; "haskell";
    "clojure"; "f#"; "objective-c"; "assembly"; "cobol"; "fortran" ].

Definition db_web : list string :=
  [
    "html"; "css"; "sass"; "less"; "bootstrap"; "tailwind"; "react";
    "angular"; "vue"; "svelte"; "jquery"; "node.js"; "express";
    "next.js"; "nuxt.js"; "gatsby"; "webpack"; "vite"; "parcel"; "babel";
    "eslint"; "prettier"; "jest"; "cypress"; "selenium" ].

Definition db_backend : list string :=
  [
    "django"; "flask"; "fastapi"; "spring"; "spring boot"; "laravel";
    "symfony"; "rails"; "asp.net"; "express.js"; "koa"; "nestjs"; "gin";
    "echo"; "fiber"; "actix"; "rocket" ].

Definition db_databases : list string :=
  [
    "mysql"; "postgresql"; "mongodb"; "redis"; "elasticsearch";
    "cassandra"; "dynamodb"; "sqlite"; "oracle"; "sql server"; "mariadb";
    "couchdb"; "neo4j"; "influxdb"; "clickhouse" ].

Definition db_cloud : list string :=
  [
    "aws"; "azure"; "gcp"; "google cloud"; "docker"; "kubernetes";
    "jenkins"; "terraform"; "ansible"; "puppet"; "chef"; "vagrant";
    "helm"; "istio"; "prometheus"; "grafana"; "elk stack"; "datadog";
    "new relic"; "splunk"; "nagios"; "zabbix" ].

Definition db_datascience : list string :=
  [
    "machine learning"; "deep learning"; "artificial intelligence";
    "data analysis"; "data science"; "pandas"; "numpy"; "scipy";
    "scikit-learn"; "tensorflow"; "pytorch"; "keras"; "opencv"; "nltk";
    "spacy"; "matplotlib"; "seaborn"; "plotly"; "tableau"; "power bi";
    "jupyter"; "apache spark"; "hadoop"; "kafka"; "airflow" ].

Definition db_mobile : list string :=
  [
    "ios development"; "android development"; "react native"; "flutter";
    "xamarin"; "ionic"; "cordova"; "phonegap"; "swift"; "objective-c";
    "kotlin"; "java android" ].

Definition db_design : list string :=
  [
    "ui design"; "ux design"; "user experience"; "user interface";
    "figma"; "sketch"; "adobe xd"; "photoshop"; "illustrator";
    "indesign"; "after effects"; "premiere pro"; "blender";
    "3d modeling"; "animation"; "prototyping"; "wireframing";
    "user research" ].

Definition db_management : list string :=
  [
    "project management"; "agile"; "scrum"; "kanban"; "lean";
    "six sigma"; "pmp"; "product management"; "business analysis";
    "requirements gathering"; "stakeholder management";
    "risk management"; "change management"; "team leadership";
    "strategic planning" ].

Definition db_soft : list string :=
  [
    "leadership"; "communication"; "teamwork"; "problem solving";
    "critical thinking"; "creativity"; "adaptability"; "time management";
    "conflict resolution"; "negotiation"; "presentation skills";
    "public speaking"; "emotional intelligence"; "mentoring"; "coaching";
    "decision making"; "analytical thinking"; "attention to detail" ].

Definition db_security : list string :=
  [
    "cybersecurity"; "information security"; "network security";
    "application security"; "penetration testing"; "ethical hacking";
    "vulnerability assessment"; "incident response"; "forensics";
    "compliance"; "risk assessment"; "security architecture";
    "cryptography" ].

Definition db_networking : list string :=
  [
    "networking"; "tcp/ip"; "dns"; "dhcp"; "vpn"; "firewall";
    "load balancing"; "routing"; "switching"; "wireless";
    "network troubleshooting"; "network design"; "network monitoring";
    "network automation"; "sdn"; "network virtualization" ].

(** [Object.values(this.skillsDatabase).flat()]. *)
Definition allSkills : list string :=
  db_programming
  ++ db_web
  ++ db_backend
  ++ db_databases
  ++ db_cloud
  ++ db_datascience
  ++ db_mobile
  ++ db_design
  ++ db_management
  ++ db_soft
  ++ db_security
  ++ db_networking.

(** *** Data model *)

Inductive Level : Type := Beginner | Intermediate | Advanced | Expert.

(** What a method records besides name, confidence and method. *)
Inductive Detail : Type :=
| Occurrences (n : nat)
| MatchedWords (ws : list string)
| PatternSource (src : string)
| OriginalTerm (t : string)
| NoDetail.

(** A candidate pushed by one extraction method. *)
Record Candidate : Type := {
  name : string;
  confidence : Q;
  method : string;
  detail : Detail
}.

(** An entry of the map of [combineAndDeduplicateSkills]: the first
    candidate of the name, its confidence raised in place, and
    [methods]. *)
Record Merged : Type := {
  first : Candidate;
  m_confidence : Q;
  methods : list string
}.

(** A skill as [extractSkills] returns it. *)
Record ExtractedSkill : Type := {
  skill : Merged;
  level : option Level;
  context : option string
}.

Record Options : Type := {
  includeConfidence : option bool;
  includeContext : option bool;
  minConfidence : option Q;
  maxSkills : option Z
}.

(** The [text] argument: a string, or a value with no [replace]
    method. *)
Inductive TextArg : Type :=
| Str (s : string)
| NotAString.

(** An element of the array handed to [combineAndDeduplicateSkills]:
    an array of candidates, or a candidate object. *)
Inductive Element : Type :=
| AnArray (skills : list Candidate)
| AnObject (skill : Candidate).

(** How a call ends: it returns, it throws, or it does not end. *)
Inductive outcome (A : Type) : Type :=
| Return (a : A)
| Raise (err : string)
| Diverge.
Arguments Return {A} a.
Arguments Raise {A} err.
Arguments Diverge {A}.

Definition obind {A B} (o : outcome A) (k : A -> outcome B) : outcome B :=
  match o with
  | Return a => k a
  | Raise e => Raise e
  | Diverge => Diverge
  end.

(** [try { body } catch (error) { return handler }]. *)
Definition catch {A} (body : outcome A) (handler : A) : outcome A :=
  match body with
  | Raise _ => Return handler
  | o => o
  end.

(** The end of an [exec] loop whose body may leave its arrays as they
    are: a loop that stays on an empty match does not end. *)
Definition ofLoop {A} (o : option A) : outcome A :=
  match o with Some a => Return a | None => Diverge end.

(** The end of an [exec] loop whose body pushes onto an array on every
    turn: a loop that stays on an empty match fills the array, and the
    push that finds it full throws. *)
Definition ofPushLoop {A} (o : option A) : outcome A :=
  match o with
  | Some a => Return a
  | None => Raise "RangeError: Invalid array length"
  end.

Fixpoint omap_list {A B} (f : A -> outcome B) (l : list A)
  : outcome (list B) :=
  match l with
  | [] => Return []
  | x :: l' =>
      obind (f x) (fun y => obind (omap_list f l') (fun ys => Return (y :: ys)))
  end.

Definition oflat_map {A B} (f : A -> outcome (list B)) (l : list A)
  : outcome (list B) :=
  obind (omap_list f l) (fun ls => Return (List.concat ls)).

(** The NLP library: the nouns, adjectives and organizations it finds
    in a text, or the error it throws. *)
Definition Compromise : Type := string -> result (list string).

(** *** Character classes *)

Definition nl : ascii := ascii_of_nat 10.

Definition one_of (cs : string) (c : ascii) : bool :=
  existsb (Ascii.eqb c) (list_ascii_of_string cs).

Definition none_of (cs : string) (c : ascii) : bool := negb (one_of cs c).

(** [[^\w\s.,;:()\-+#]] *)
Definition isNoise (c : ascii) : bool :=
  negb (is_word c || is_space c || one_of ".,;:()-+#" c).

(** *** Helper methods *)

Fixpoint replaceNoise (s : string) : string :=
  match s with
  | EmptyString => EmptyString
  | String c s' => String (if isNoise c then " "%char else c) (replaceNoise s')
  end.

(** [s.replace(/\s+/g, ' ')]; [inRun] tells that the previous
    character was white space. *)
Fixpoint collapseFrom (inRun : bool) (s : string) : string :=
  match s with
  | EmptyString => EmptyString
  | String c s' =>
      if is_space c then
        if inRun then collapseFrom true s'
        else String " " (collapseFrom true s')
      else String c (collapseFrom false s')
  end.

Definition collapseSpaces (s : string) : string := collapseFrom false s.

Definition preprocessText (text : TextArg) : outcome string :=
  match text with
  | Str s => Return (trim (collapseSpaces (replaceNoise s)))
  | NotAString => Raise "TypeError: text.replace is not a function"
  end.

(** [calculateStringSimilarity]: Jaccard similarity of the two sets of
    characters.  For two empty strings the source divides 0 by 0 and
    returns NaN; the quotient is 0 here, which like NaN exceeds no
    threshold, so the callers, which only compare the value with
    thresholds, behave as in the source.  A statement about the value
    itself leaves the two empty strings out. *)
Fixpoint uniqueChars (seen : list ascii) (s : string) : list ascii :=
  match s with
  | EmptyString => []
  | String c s' =>
      if existsb (Ascii.eqb c) seen then uniqueChars seen s'
      else c :: uniqueChars (c :: seen) s'
  end.

Definition calculateStringSimilarity (str1 str2 : string) : Q :=
  let set1 := uniqueChars [] str1 in
  let set2 := uniqueChars [] str2 in
  let intersection := filter (fun x => existsb (Ascii.eqb x) set2) set1 in
  let union := uniqueChars [] (str1 ++ str2) in
  Qnat (List.length intersection) / Qnat (List.length union).

(** [findBestSkillMatch]: [Some (skill, similarity)] or [null]. *)
Definition findBestSkillMatch (term : string) : option (string * Q) :=
  fst
    (fold_left
       (fun '(bestMatch, bestSimilarity) skill =>
          let similarity :=
            calculateStringSimilarity term (toLowerCase skill) in
          if Qgtb similarity bestSimilarity && Qgtb similarity 0.7
          then (Some (skill, similarity), similarity)
          else (bestMatch, bestSimilarity))
       allSkills (None, 0)).

Definition nonSkillWords : list string :=
  [ "experience"; "knowledge"; "skills"; "ability"; "years"; "months";
    "project"; "work"; "team"; "company"; "role"; "position"; "job" ].

Definition all_chars (p : ascii -> bool) (s : string) : bool :=
  forallb p (list_ascii_of_string s).

Definition isValidSkill (skill : string) : bool :=
  let skillLower := toLowerCase skill in
  if existsb (fun s => String.eqb (toLowerCase s) skillLower) allSkills
  then true
  else if (String.length skill <? 2)%nat || (50 <? String.length skill)%nat
  then false
  else if (1 <=? String.length skill)%nat && all_chars is_digit skill
  then false
  else if all_chars (fun c => negb (is_upper c || is_lower c)) skill
  then false
  else negb (str_mem skillLower nonSkillWords).

(** [/^(and|or|the|a|an)\s+/i] *)
Definition commonPrefix : re :=
  Seq (Alt (Lit "and") (Alt (Lit "or") (Alt (Lit "the")
      (Alt (Lit "a") (Lit "an")))))
      (Many1 is_space).

(** [s.replace(regex, '')] for a regex anchored at the start. *)
Definition removePrefix (r : re) (s : string) : string :=
  match matchre true r s None (fun s' _ => Some s') with
  | Some s' => s'
  | None => s
  end.

Definition cleanExtractedText (text : string) : list string :=
  filter (fun item => (1 <? String.length item)%nat)
    (map (removePrefix commonPrefix)
       (filter (fun item => (1 <? String.length item)%nat
                            && (String.length item <? 50)%nat)
          (map trim (splitOn (one_of ",;") text)))).

(** *** Method 1: direct database matching *)

Definition extractDirectMatches (text : string) : list Candidate :=
  let textLower := toLowerCase text in
  flat_map
    (fun skill =>
       let skillLower := toLowerCase skill in
       let direct :=
         if includes textLower skillLower then
           match countMatches (wordBounded skillLower) textLower with
           | O => []
           | matches =>
               [ {| name := skill; confidence := 0.9;
                    method := "direct_match";
                    detail := Occurrences matches |} ]
           end
         else [] in
       let partial :=
         if includes skill " " then
           let skillWords := splitOn (Ascii.eqb " ") skill in
           let matchedWords :=
             filter (fun word => includes textLower (toLowerCase word))
                    skillWords in
           if Qle_bool (Qnat (List.length skillWords) * 0.7)
                       (Qnat (List.length matchedWords))
           then
             [ {| name := skill;
                  confidence :=
                    0.7 * (Qnat (List.length matchedWords)
                           / Qnat (List.length skillWords));
                  method := "partial_match";
                  detail := MatchedWords matchedWords |} ]
           else []
         else [] in
       (direct ++ partial)%list)
    allSkills.

(** *** Method 2: patterns *)

Definition words (ws : list string) : re :=
  fold_right (fun w r => match r with Eps => Lit w | _ => Alt (Lit w) r end)
             Eps ws.

Definition sp1 : re := Many1 is_space.
Definition sp0 : re := Many is_space.
Definition seqs (rs : list re) : re := fold_right Seq Eps rs.

(** [this.skillPatterns], each with its [source]; all carry the flags
    [gi]. *)
Definition skillPatterns : list (string * re) :=
  [ ("(?:experience|experienced|worked)\s+(?:with|in|on|using)\s+([^,.;]+)",
     seqs [words ["experience"; "experienced"; "worked"]; sp1;
           words ["with"; "in"; "on"; "using"]; sp1;
           Cap (Many1 (none_of ",.;"))]);
    ("(?:proficient|skilled|expert)\s+(?:in|with|at)\s+([^,.;]+)",
     seqs [words ["proficient"; "skilled"; "expert"]; sp1;
           words ["in"; "with"; "at"]; sp1;
           Cap (Many1 (none_of ",.;"))]);
    ("(?:knowledge|understanding)\s+(?:of|in|with)\s+([^,.;]+)",
     seqs [words ["knowledge"; "understanding"]; sp1;
           words ["of"; "in"; "with"]; sp1;
           Cap (Many1 (none_of ",.;"))]);
    ("(?:familiar|comfortable)\s+(?:with|using)\s+([^,.;]+)",
     seqs [words ["familiar"; "comfortable"]; sp1;
           words ["with"; "using"]; sp1;
           Cap (Many1 (none_of ",.;"))]);
    ("(?:using|utilized|implemented|developed)\s+([^,.;]+)",
     seqs [words ["using"; "utilized"; "implemented"; "developed"]; sp1;
           Cap (Many1 (none_of ",.;"))]);
    ("(?:technologies|tools|frameworks|languages):\s*([^.;]+)",
     seqs [words ["technologies"; "tools"; "frameworks"; "languages"];
           Lit ":"; sp0; Cap (Many1 (none_of ".;"))]);
    ("(?:stack|tech stack):\s*([^.;]+)",
     seqs [words ["stack"; "tech stack"]; Lit ":"; sp0;
           Cap (Many1 (none_of ".;"))]);
    ("(?:built|created|developed|designed)\s+(?:using|with)\s+([^,.;]+)",
     seqs [words ["built"; "created"; "developed"; "designed"]; sp1;
           words ["using"; "with"]; sp1;
           Cap (Many1 (none_of ",.;"))]);
    ("(?:worked on|contributed to)\s+([^,.;]+)\s+(?:projects|applications)",
     seqs [words ["worked on"; "contributed to"]; sp1;
           Cap (Many1 (none_of ",.;")); sp1;
           words ["projects"; "applications"]]);
    ("(?:certified|certification)\s+(?:in|for)\s+([^,.;]+)",
     seqs [words ["certified"; "certification"]; sp1;
           words ["in"; "for"]; sp1;
           Cap (Many1 (none_of ",.;"))]);
    ("(?:trained|training)\s+(?:in|on)\s+([^,.;]+)",
     seqs [words ["trained"; "training"]; sp1;
           words ["in"; "on"]; sp1;
           Cap (Many1 (none_of ",.;"))]) ].

Definition extractWithPatterns (text : string) : outcome (list Candidate) :=
  oflat_map
    (fun '(source, pattern) =>
       obind (ofLoop (execLoop (reMatcher true pattern) text))
             (fun matches =>
                Return
                  (flat_map
                     (fun m =>
                        let extractedText := trim (default "" (group1 m)) in
                        let potentialSkills := cleanExtractedText extractedText in
                        map (fun skill =>
                               {| name := skill; confidence := 0.7;
                                  method := "pattern_match";
                                  detail := PatternSource source |})
                            (filter isValidSkill potentialSkills))
                     matches)))
    skillPatterns.

(** *** Method 3: the NLP library *)

Definition extractWithNLP (compromise : Compromise) (text : string)
  : list Candidate :=
  match compromise text with
  | Throw _ => []
  | Ok potentialSkills =>
      flat_map
        (fun term =>
           let cleanTerm := trim (toLowerCase term) in
           match findBestSkillMatch cleanTerm with
           | Some (skill, similarity) =>
               [ {| name := skill; confidence := similarity * 0.6;
                    method := "nlp_match";
                    detail := OriginalTerm term |} ]
           | None => []
           end)
        potentialSkills
  end.

(** *** Method 4: skill sections *)

Definition colon0 : re := Opt (Lit ":").
Definition plural (stem : string) : re := Seq (Lit stem) (Opt (Lit "s")).

(** [sectionHeaders] of [identifySkillSections]; flags [gi]. *)
Definition sectionHeaders : list re :=
  [ seqs [Opt (Seq (Lit "technical") sp1); plural "skill"; colon0; sp0];
    seqs [plural "technologie"; colon0; sp0];
    seqs [Lit "programming"; sp1; plural "language"; colon0; sp0];
    seqs [plural "tool"; sp1; Opt (Seq (Lit "and") sp1);
          plural "technologie"; colon0; sp0];
    seqs [Lit "expertise"; colon0; sp0];
    seqs [Lit "competencies"; colon0; sp0];
    seqs [Lit "proficiencies"; colon0; sp0] ].

(** [/\n\s*[A-Z][^:\n]*:|\n\s*\n/g] *)
Definition nextSectionRegex : re :=
  Alt (seqs [Cls (Ascii.eqb nl); sp0; Cls is_upper;
             Many (fun c => negb (Ascii.eqb c ":" || Ascii.eqb c nl));
             Lit ":"])
      (seqs [Cls (Ascii.eqb nl); sp0; Cls (Ascii.eqb nl)]).

Definition findSectionEnd (text : string) (start : nat) : nat :=
  match execFrom (reMatcher false nextSectionRegex) None text O start with
  | Some index => index
  | None => Nat.min (start + 500) (String.length text)
  end.

Record Section_ : Type := { content : string; s_confidence : Q }.

Definition identifySkillSections (text : string) : outcome (list Section_) :=
  oflat_map
    (fun headerRegex =>
       obind (ofLoop (execLoop (reMatcher true headerRegex) text))
             (fun matches =>
                Return
                  (flat_map
                     (fun m =>
                        let start := (index m + mlength m)%nat in
                        let end_ := findSectionEnd text start in
                        if (start <? end_)%nat
                        then [ {| content := substring text start end_;
                                  s_confidence := 0.8 |} ]
                        else [])
                     matches)))
    sectionHeaders.

(** [item.replace(/^[-•]\s*/, '')]; the bullet is no 8-bit code unit. *)
Definition removeBullet (item : string) : string :=
  removePrefix (Seq (Cls (Ascii.eqb "-")) sp0) item.

(** [extractFromSection]; its items are split on [[,;•\n]]. *)
Definition extractFromSection (section : Section_) : list Candidate :=
  let items :=
    filter (fun item => (1 <? String.length item)%nat)
           (map trim
                (splitOn (fun c => one_of ",;" c || Ascii.eqb c nl)
                         (content section))) in
  flat_map
    (fun item =>
       let cleanItem := trim (removeBullet item) in
       if isValidSkill cleanItem then
         match findBestSkillMatch (toLowerCase cleanItem) with
         | Some (skill, similarity) =>
             [ {| name := skill;
                  confidence := s_confidence section * similarity;
                  method := "section_extraction";
                  detail := NoDetail |} ]
         | None => []
         end
       else [])
    items.

Definition extractWithContext (text : string) : outcome (list Candidate) :=
  obind (identifySkillSections text)
        (fun sections => Return (flat_map extractFromSection sections)).

(** *** Deduplication *)

(** The body of the inner [forEach] of [combineAndDeduplicateSkills]. *)
Definition mergeSkill (skillMap : omap Merged) (skill : Candidate)
  : omap Merged :=
  let key := toLowerCase (name skill) in
  match get skillMap key with
  | Some existing =>
      set skillMap key
          {| first := first existing;
             m_confidence :=
               if Qle_bool (confidence skill) (m_confidence existing)
               then m_confidence existing else confidence skill;
             methods := methods existing ++ [method skill] |}
  | None =>
      set skillMap key
          {| first := skill;
             m_confidence := confidence skill;
             methods := [method skill] |}
  end.

(** [skills.forEach(...)] on one element of [skillArrays]: a candidate
    object has no [forEach]. *)
Definition forEachSkill (skillMap : omap Merged) (skills : Element)
  : outcome (omap Merged) :=
  match skills with
  | AnArray skills => Return (fold_left mergeSkill skills skillMap)
  | AnObject _ => Raise "TypeError: skills.forEach is not a function"
  end.

Fixpoint forEachElement (skillMap : omap Merged) (skillArrays : list Element)
  : outcome (omap Merged) :=
  match skillArrays with
  | [] => Return skillMap
  | skills :: rest =>
      obind (forEachSkill skillMap skills)
            (fun skillMap' => forEachElement skillMap' rest)
  end.

Definition combineAndDeduplicateSkills (skillArrays : list Element)
  : outcome (list Merged) :=
  obind (forEachElement [] skillArrays)
        (fun skillMap => Return (values skillMap)).

(** *** Level inference *)

Record Indicators : Type := {
  keywords : list string;
  years : list string;
  i_weight : Q
}.

(** [this.levelIndicators], in the order of its keys. *)
Definition levelIndicators : list (Level * Indicators) :=
  [ (Expert,
     {| keywords := ["expert"; "senior"; "lead"; "architect"; "principal";
                     "staff"; "distinguished"; "fellow"];
        years := ["8+"; "9+"; "10+"; "5+ years"; "6+ years"; "7+ years";
                  "8+ years"; "9+ years"; "10+ years"];
        i_weight := 1.0 |});
    (Advanced,
     {| keywords := ["advanced"; "proficient"; "experienced"; "skilled";
                     "strong"; "solid"; "extensive"];
        years := ["4+"; "5+"; "3+ years"; "4+ years"; "5+ years"];
        i_weight := 0.8 |});
    (Intermediate,
     {| keywords := ["intermediate"; "familiar"; "working knowledge";
                     "competent"; "moderate"; "some experience"];
        years := ["2+"; "3+"; "1+ years"; "2+ years"; "3+ years"];
        i_weight := 0.6 |});
    (Beginner,
     {| keywords := ["beginner"; "basic"; "learning"; "novice"; "entry";
                     "junior"; "trainee"; "intern"];
        years := ["<1"; "0-1"; "6 months"; "1 year"];
        i_weight := 0.3 |}) ].

Definition Level_eqb (a b : Level) : bool :=
  match a, b with
  | Beginner, Beginner | Intermediate, Intermediate
  | Advanced, Advanced | Expert, Expert => true
  | _, _ => false
  end.

(** [extractSkillContext]: the windows of 100 characters around each
    mention, joined. *)
Definition extractSkillContext (text skillName : string) : outcome string :=
  obind (ofPushLoop (execLoop (wordBounded skillName) text))
        (fun matches =>
           Return
             (join " ... "
                (map (fun m =>
                        let start := (index m - 100)%nat in
                        let end_ :=
                          Nat.min (String.length text)
                                  (index m + String.length skillName + 100) in
                        substring text start end_)
                     matches))).

(** The [yearRegex] of [analyzeSkillLevel], flags [gi]: a captured run
    of digits, [years?] or [yrs?], then optionally one of
    [of|with|in|using] and [experience] with an optional [with|in];
    white space may stand between any two parts and at the end. *)
Definition yearRegex : re :=
  seqs [Cap (Many1 is_digit); sp0;
        Alt (plural "year") (plural "yr"); sp0;
        Opt (words ["of"; "with"; "in"; "using"]); sp0;
        Opt (seqs [Lit "experience"; sp0; Opt (words ["with"; "in"]); sp0])].

(** [parseInt] on a string of digits. *)
Definition parseInt (digits : string) : N :=
  fold_left (fun acc c => (acc * 10 + (N_of_ascii c - 48))%N)
            (list_ascii_of_string digits) 0%N.

(** The body of the loop over the matches of [yearRegex], for the level
    whose score is being computed. *)
Definition yearStep (level : Level) (score : Q) (years : N) : Q :=
  if (5 <=? years)%N && Level_eqb level Expert then score + 0.8
  else if (3 <=? years)%N && Level_eqb level Advanced then score + 0.8
  else if (1 <=? years)%N && Level_eqb level Intermediate then score + 0.8
  else if (years <? 1)%N && Level_eqb level Beginner then score + 0.8
  else score.

(** The numbers captured by the matches of [yearRegex]. *)
Definition yearMentions (contextLower : string) : outcome (list N) :=
  obind (ofLoop (execLoop (reMatcher true yearRegex) contextLower))
        (fun matches =>
           Return (map (fun m => parseInt (default "" (group1 m))) matches)).

(** The score of the keywords and of the year phrases of one level. *)
Definition phraseScore (indicators : Indicators) (contextLower : string) : Q :=
  let score := 0 in
  let score :=
    fold_left (fun score keyword =>
                 if includes contextLower keyword
                 then score + i_weight indicators else score)
              (keywords indicators) score in
  fold_left (fun score yearPattern =>
               if includes contextLower yearPattern
               then score + i_weight indicators * 0.8 else score)
            (years indicators) score.

Definition levelScore (level : Level) (indicators : Indicators)
           (contextLower : string) : outcome Q :=
  let score := phraseScore indicators contextLower in
  obind (yearMentions contextLower)
        (fun mentions => Return (fold_left (yearStep level) mentions score)).

(** The level returned for the scores of the four levels: the first
    entry after the stable descending sort if its score is positive,
    and intermediate otherwise. *)
Definition bestLevel (levelScores : list (Level * Q)) : Level :=
  match sort_desc snd levelScores with
  | (bestLevel, bestScore) :: _ =>
      if Qgtb bestScore 0 then bestLevel else Intermediate
  | [] => Intermediate
  end.

Definition analyzeSkillLevel (text skillName : string) : outcome Level :=
  obind (extractSkillContext text skillName)
        (fun context =>
           let contextLower := toLowerCase context in
           obind
             (omap_list
                (fun '(level, indicators) =>
                   obind (levelScore level indicators contextLower)
                         (fun score => Return (level, score)))
                levelIndicators)
             (fun levelScores => Return (bestLevel levelScores))).

(** *** The pipeline *)

Definition withLevel (includeContext : bool) (cleanedText : string)
           (skill : Merged) : outcome ExtractedSkill :=
  obind (analyzeSkillLevel cleanedText (name (first skill)))
        (fun level =>
           obind (if includeContext
                  then obind (extractSkillContext cleanedText (name (first skill)))
                             (fun c => Return (Some c))
                  else Return None)
                 (fun context =>
                    Return {| skill := skill;
                              level := Some level;
                              context := context |})).

Definition extractSkills (compromise : Compromise) (text : TextArg)
           (options : Options) : outcome (list ExtractedSkill) :=
  catch
    (let includeConfidence := default true (includeConfidence options) in
     let includeContext := default false (includeContext options) in
     let minConfidence := default 0.3 (minConfidence options) in
     let maxSkills := default 50%Z (maxSkills options) in
     obind (preprocessText text) (fun cleanedText =>
     let directMatches := extractDirectMatches cleanedText in
     obind (extractWithPatterns cleanedText) (fun patternMatches =>
     let nlpMatches := extractWithNLP compromise cleanedText in
     obind (extractWithContext cleanedText) (fun contextMatches =>
     let extractedSkills :=
       (directMatches ++ patternMatches ++ nlpMatches ++ contextMatches)%list in
     obind (combineAndDeduplicateSkills (map AnObject extractedSkills))
           (fun combinedSkills =>
     obind (if includeConfidence
            then omap_list (withLevel includeContext cleanedText) combinedSkills
            else Return (map (fun s => {| skill := s; level := None;
                                          context := None |})
                             combinedSkills))
           (fun finalSkills =>
     Return
       (slice0
          (sort_desc (fun s => m_confidence (skill s))
             (filter (fun s => Qle_bool minConfidence (m_confidence (skill s)))
                     finalSkills))
          maxSkills)))))))
    [].

End Extractor.

(** ** Skill suggestions (the remaining methods of the skill extractor) *)

Module Suggestions.
Import JS Extractor.
Local Open Scope string_scope.
Local Open Scope Q_scope.

(** [this.skillsDatabase], the categories in the order of its keys;
    [allSkills] is the concatenation of its values. *)
Definition skillsDatabase : list (string * list string) :=
  [ ("programming", db_programming); ("web", db_web);
    ("backend", db_backend); ("databases", db_databases);
    ("cloud", db_cloud); ("datascience", db_datascience);
    ("mobile", db_mobile); ("design", db_design);
    ("management", db_management); ("soft", db_soft);
    ("security", db_security); ("networking", db_networking) ].

Definition getSkillCategory (skillName : string) : string :=
  let skillLower := toLowerCase skillName in
  match find (fun entry =>
                existsb (fun skill => String.eqb (toLowerCase skill) skillLower)
                        (snd entry))
             skillsDatabase with
  | Some entry => fst entry
  | None => "other"
  end.

(** The values of [priority] the methods assign. *)
Inductive Priority : Type := Critical | High | Medium | Low.

Record MarketTrend : Type := { t_skill : string; t_growthRate : Q }.

Definition calculatePriority (trend : MarketTrend) : Priority :=
  if Qgtb (t_growthRate trend) 40 then Critical
  else if Qgtb (t_growthRate trend) 25 then High
  else if Qgtb (t_growthRate trend) 15 then Medium
  else Low.

Definition priorityWeight (priority : Priority) : nat :=
  match priority with
  | Critical => 4 | High => 3 | Medium => 2 | Low => 1
  end.

Record LearningPath : Type := {
  prerequisites : list string;
  estimatedTime : string;
  lp_difficulty : string
}.

Definition generateLearningPath (skill : string) (userSkills : list string)
  : LearningPath :=
  {| prerequisites := [];
     estimatedTime := "2-3 months";
     lp_difficulty := "intermediate" |}.

Record Goal : Type := {
  goalTitle : string;
  requiredSkills : list string;
  (** [targetDate], not inspected *)
  targetDate : option string
}.

Record Suggestion : Type := {
  s_skill : string;
  s_reason : string;
  priority : Priority;
  s_category : string;
  learningPath : option LearningPath;
  deadline : option string
}.

Definition skillRelationships : list (string * list string) :=
  [ ("javascript", ["react"; "node.js"; "typescript"; "vue"; "angular"]);
    ("python", ["django"; "flask"; "pandas"; "numpy"; "machine learning"]);
    ("react", ["redux"; "next.js"; "typescript"; "jest"; "webpack"]);
    ("aws", ["docker"; "kubernetes"; "terraform"; "jenkins"]);
    ("machine learning",
     ["python"; "tensorflow"; "pytorch"; "pandas"; "numpy"]) ].

(** [skillRelationships[userSkill]] followed by [related.forEach]: an
    own key gives its array, a missing key nothing; the two lowercase
    names every object inherits give a value that is truthy and has no
    [forEach]. *)
Definition relatedTo (userSkill : string) : result (option (list string)) :=
  match find (fun e => String.eqb (fst e) userSkill) skillRelationships with
  | Some e => Ok (Some (snd e))
  | None =>
      if String.eqb userSkill "constructor" || String.eqb userSkill "__proto__"
      then Throw "TypeError: related.forEach is not a function"
      else Ok None
  end.

(** [userSkills] stands for the names of the user's skills, the one
    property these methods read. *)
Definition findComplementarySkills (userSkills : list string)
  : result (list Suggestion) :=
  let userSkillNames := map toLowerCase userSkills in
  flat_mapM
    (fun userSkill =>
       bind (relatedTo userSkill)
            (fun related =>
               match related with
               | Some related =>
                   Ok (flat_map
                         (fun relatedSkill =>
                            if negb (str_mem (toLowerCase relatedSkill)
                                             userSkillNames)
                            then
                              [ {| s_skill := relatedSkill;
                                   s_reason := "Complements your " ++ userSkill
                                               ++ " skills";
                                   priority := Medium;
                                   s_category := getSkillCategory relatedSkill;
                                   learningPath := None;
                                   deadline := None |} ]
                            else [])
                         related)
               | None => Ok []
               end))
    userSkillNames.

Section WithNumbers.
(** The rendering of a number inside a template literal. *)
Variable Number_toString : Q -> string.

Definition suggestSkillImprovements (userSkills : list string)
           (marketTrends : list MarketTrend) (careerGoals : list Goal)
  : result (list Suggestion) :=
  let currentSkillNames := map toLowerCase userSkills in
  let fromTrends :=
    flat_map
      (fun trend =>
         let trendSkill := toLowerCase (t_skill trend) in
         if negb (existsb (fun skill => includes skill trendSkill)
                          currentSkillNames)
         then
           [ {| s_skill := t_skill trend;
                s_reason := "High market demand with "
                            ++ Number_toString (t_growthRate trend)
                            ++ "% growth";
                priority := calculatePriority trend;
                s_category := getSkillCategory (t_skill trend);
                learningPath :=
                  Some (generateLearningPath (t_skill trend) userSkills);
                deadline := None |} ]
         else [])
      marketTrends in
  let fromGoals :=
    flat_map
      (fun goal =>
         flat_map
           (fun requiredSkill =>
              let hasSkill :=
                existsb (fun skill =>
                           includes skill (toLowerCase requiredSkill)
                           || includes (toLowerCase requiredSkill) skill)
                        currentSkillNames in
              if negb hasSkill then
                [ {| s_skill := requiredSkill;
                     s_reason := "Required for career goal: " ++ goalTitle goal;
                     priority := High;
                     s_category := getSkillCategory requiredSkill;
                     learningPath := None;
                     deadline := targetDate goal |} ]
              else [])
           (requiredSkills goal))
      careerGoals in
  bind (findComplementarySkills userSkills)
       (fun complementarySkills =>
          Ok (slice0
                (sort_desc (fun s => Qnat (priorityWeight (priority s)))
                           (fromTrends ++ fromGoals ++ complementarySkills)%list)
                20)).
End WithNumbers.

End Suggestions.

(** ** The user model *)

Module UserModel.
Import JS Engine.
Local Open Scope Q_scope.

(** The virtual [completionRate] of the user schema. *)
Definition completionRate (learningHistory : list HistoryEntry) : Q :=
  let totalCourses := List.length learningHistory in
  if Nat.eqb totalCourses 0 then 0
  else
    let completedCourses :=
      List.length
        (filter (fun course => Status_eqb (h_status course) Completed)
                learningHistory) in
    Qnat completedCourses / Qnat totalCourses * 100.

End UserModel.

(** ** Notions the properties are stated with *)

Module Spec.
Import JS Engine.
Local Open Scope Q_scope.

(** Every candidate a list of sources holds, with its source. *)
Definition occurrences (sources : list Source) : list (Source * Rec) :=
  flat_map (fun src => map (pair src) (recs src)) sources.

(** What one candidate adds to the score of [id]. *)
Definition contribution (id : string) (o : Source * Rec) : Q :=
  if String.eqb (courseId (snd o)) id
  then score (snd o) * weight (fst o) else 0.

(** The sum of [candidateScore * sourceWeight] over the candidates of
    [id]. *)
Definition weightedSum (sources : list Source) (id : string) : Q :=
  fold_right (fun o acc => contribution id o + acc) 0 (occurrences sources).

(** The course record of an id in the store; of two records with one
    id, a [Map] built from the query keeps the later. *)
Definition courseOf (db : Database) (id : string) : option Course :=
  find (fun c => String.eqb (c_id c) id) (rev (courses db)).

(** The pairwise course similarity of two candidates, where both
    course records are found. *)
Definition similarityOf (db : Database) (a b : Combined) : option Q :=
  match courseOf db (m_courseId a), courseOf db (m_courseId b) with
  | Some ca, Some cb => Some (calculateCourseSimilarity ca cb)
  | _, _ => None
  end.

(** The acceptance test of the diversity filter as the code applies
    it: the candidate's course is found, and it is within the bound
    of every accepted candidate whose course is found. *)
Definition acceptable (db : Database) (diversityFactor : Q)
           (accepted : list Combined) (candidate : Combined) : bool :=
  match courseOf db (m_courseId candidate) with
  | None => false
  | Some candidateCourse =>
      forallb
        (fun selected =>
           match courseOf db (m_courseId selected) with
           | None => true
           | Some selectedCourse =>
               Qle_bool (calculateCourseSimilarity candidateCourse selectedCourse)
                        (1 - diversityFactor)
           end)
        accepted
  end.

(** The acceptance test as the specification reads, taken strictly: the
    similarity to every accepted candidate exists and is within the
    bound. *)
Definition withinBoundOfAll (db : Database) (diversityFactor : Q)
           (accepted : list Combined) (candidate : Combined) : Prop :=
  forall selected, In selected accepted ->
    exists q, similarityOf db candidate selected = Some q
              /\ q <= 1 - diversityFactor.

(** The same test taken loosely: no similarity to an accepted
    candidate exceeds the bound. *)
Definition noneAboveBound (db : Database) (diversityFactor : Q)
           (accepted : list Combined) (candidate : Combined) : Prop :=
  forall selected q, In selected accepted ->
    similarityOf db candidate selected = Some q -> q <= 1 - diversityFactor.

(** A history entry that marks the course of [id] completed. *)
Definition completedIn (learningHistory : list HistoryEntry) (id : string)
  : Prop :=
  exists h, In h learningHistory /\ h_status h = Completed /\ h_courseId h = id.

(** The cache states that requests alone produce, from the empty
    cache on; the store may change between and during requests. *)
Inductive servedBy (rt : Runtime) : Cache -> Prop :=
| served_empty : servedBy rt []
| served_request (cache : Cache) (reads : Reads) (userId : string)
                 (options : Options) :
    servedBy rt cache ->
    servedBy rt (snd (generateRecommendations rt reads cache userId options)).

(** A cache that holds only lists produced by enrichment. *)
Definition cacheEnriched (cache : Cache) : Prop :=
  forall key v, In (key, v) cache -> Forall (fun r => r_course r <> None) v.

Import Extractor.

Definition rank (l : Level) : nat :=
  match l with
  | Beginner => 0 | Intermediate => 1 | Advanced => 2 | Expert => 3
  end.

(** beginner < intermediate < advanced < expert *)
Definition Level_le (a b : Level) : Prop := (rank a <= rank b)%nat.






End Spec.

(** ** A runtime and data to run the model on *)

Module Sample.
Import JS Engine.
Local Open Scope string_scope.
Local Open Scope Q_scope.

(** A rational square root from above: exact on the squares of
    rationals, positive on positive numbers. *)
Definition sqrtUp (x : Q) : Q :=
  match Qnum x with
  | Zpos p => Z.sqrt_up (Zpos p * Zpos (Qden x)) # Qden x
  | _ => 0
  end.

(** Split at the characters that are not [\w]. *)
Fixpoint wordsOf (cur : string) (s : string) : list string :=
  match s with
  | EmptyString => match cur with EmptyString => [] | _ => [cur] end
  | String c s' =>
      if is_word c then wordsOf (cur ++ String c EmptyString) s'
      else match cur with
           | EmptyString => wordsOf EmptyString s'
           | _ => cur :: wordsOf EmptyString s'
           end
  end.

(** A pattern of letters, digits and spaces is a valid regular
    expression and matches as a substring, letter case ignored; this
    runtime compiles no other pattern. *)
Definition plainRegExp (pattern : string) : option (string -> bool) :=
  if forallb (fun c => is_word c || Ascii.eqb c " ")
             (list_ascii_of_string pattern)
  then Some (fun s => includes (toLowerCase s) (toLowerCase pattern))
  else None.

Definition showBool (b : bool) : string := if b then "true" else "false".

Definition showOptions (o : Options) : string :=
  "{" ++ match limit o with
         | Some l => "limit:" ++ Z_to_string l ++ ","
         | None => "" end
      ++ match includeExplanations o with
         | Some b => "includeExplanations:" ++ showBool b ++ ","
         | None => "" end
      ++ match filterCompleted o with
         | Some b => "filterCompleted:" ++ showBool b ++ ","
         | None => "" end
      ++ match diversityFactor o with
         | Some q => "diversityFactor:" ++ Z_to_string (Qnum q) ++ "/"
                     ++ Z_to_string (Zpos (Qden q)) ++ ","
         | None => "" end
      ++ "}".

Definition runtime : Runtime :=
  {| Math_sqrt := sqrtUp;
     tokenize := wordsOf EmptyString;
     JSON_stringify := showOptions;
     RegExp_i := plainRegExp |}.

Definition course (id : string) (skills : list string)
           (category difficulty : string) : Course :=
  {| c_id := id; title := "Course " ++ id; description := "";
     c_skills := skills; category := category;
     provider := "academy"; difficulty := difficulty |}.

Definition c1 : Course := course "c1" ["python"] "programming" "beginner".
Definition c2 : Course := course "c2" ["python"; "java"] "backend" "advanced".

Definition learner : User :=
  {| u_id := "u1";
     profile := {| skills := [ {| s_name := "python"; s_level := "beginner" |} ];
                   interests := [];
                   careerGoals := [];
                   preferredDifficulty := None |};
     learningHistory := [] |}.

Definition candidate (id : string) (s : Q) : Combined :=
  {| m_courseId := id; m_score := s; m_sources := [] |}.

Definition rec_ (id : string) (s : Q) : Rec :=
  {| courseId := id; score := s; reason := "" |}.

Definition storeOfC2 : Database := {| users := []; courses := [c2] |}.

Definition threeCandidates : list Combined :=
  [ candidate "c1" 0.9; candidate "c2" 0.8;
    candidate "c3" 0.7 ].


Definition twoCourses : Database :=
  {| users := [learner]; courses := [c1; c2] |}.

(** A request during which the course of the best candidate is
    removed from the store before the enrichment reads it. *)
Definition topCourseRemoved : Reads :=
  {| atLookup := twoCourses; atScoring := twoCourses;
     atDiversity := twoCourses;
     atEnrichment := {| users := [learner]; courses := [c2] |} |}.

Definition limitOne : Options :=
  {| limit := Some 1%Z; includeExplanations := None;
     filterCompleted := None; diversityFactor := None |}.


Definition noNLP : Extractor.Compromise := fun _ => Ok [].

Definition failingNLP : Extractor.Compromise :=
  fun _ => Throw "Error: compromise failed".

Definition defaults : Extractor.Options :=
  {| Extractor.includeConfidence := None;
     Extractor.includeContext := None;
     Extractor.minConfidence := None;
     Extractor.maxSkills := None |}.





Definition completedEntry (id : string) : HistoryEntry :=
  {| h_courseId := id; h_status := Completed; h_progress := 100;
     h_timeSpent := 0; h_rating := None; h_category := None;
     h_provider := None; h_difficulty := None |}.

Definition learnerWith (id : string) (history : list HistoryEntry) : User :=
  {| u_id := id; profile := profile learner; learningHistory := history |}.

(** Two users: the second completed both courses, the first only c1. *)
Definition twoUsers : Database :=
  {| users := [ learnerWith "u1" [completedEntry "c1"];
                learnerWith "u2" [completedEntry "c1"; completedEntry "c2"] ];
     courses := [c1; c2] |}.



Definition startedEntry (id : string) : HistoryEntry :=
  {| h_courseId := id; h_status := InProgress; h_progress := 40;
     h_timeSpent := 0; h_rating := None; h_category := None;
     h_provider := None; h_difficulty := None |}.

Definition c3 : Course := course "c3" ["sql"] "data" "intermediate".

Definition threeCourses : Database :=
  {| users := [learner]; courses := [c1; c3; c2] |}.

(** A goal whose required skill is not a valid regular expression. *)
Definition cppGoal : CareerGoal :=
  {| g_title := "Systems engineer";
     g_requiredSkills := ["c++"];
     g_status := "active" |}.

Definition learnerWithGoal : User :=
  {| u_id := "u1";
     profile := {| skills := skills (profile learner);
                   interests := [];
                   careerGoals := [cppGoal];
                   preferredDifficulty := None |};
     learningHistory := [] |}.

(** A course of a trending skill, and a store that holds it. *)
Definition c4 : Course :=
  course "c4" ["machine learning"] "ai" "advanced".

Definition marketStore : Database :=
  {| users := [learner]; courses := [c1; c4] |}.

(** A course of the category and difficulty of [c1]. *)
Definition c5 : Course :=
  course "c5" ["python"; "sql"] "programming" "beginner".

End Sample.

(** ** The course similarity and the diversity filter in binary64

    The diversity filter compares a similarity with a bound, and the
    two can be equal as rationals while the doubles the source computes
    differ in the last place.  The definitions of this module follow
    the source with its own numbers: an IEEE 754 binary64 value for
    each number, the operations of the standard, rounding to nearest
    even, for [+], [-], [*], [/] and [>].  These are the primitive
    floats of the kernel. *)

Module Doubles.
Import JS Engine Spec.
Import PrimFloat.
Local Open Scope string_scope.
Local Open Scope float_scope.

(** The number that is the length of an array; exact, an array being
    shorter than 2^32. *)
Fixpoint Number_of_length (n : nat) : float :=
  match n with
  | O => 0
  | S k => Number_of_length k + 1
  end.

Definition calculateSkillSimilarity (userSkills courseSkills : list string)
  : float :=
  match userSkills, courseSkills with
  | [], _ | _, [] => 0
  | _, _ =>
      let userSkillsLower := map toLowerCase userSkills in
      let courseSkillsLower := map toLowerCase courseSkills in
      let intersection :=
        filter (fun skill =>
                  existsb (fun courseSkill =>
                             includes courseSkill skill
                             || includes skill courseSkill)
                          courseSkillsLower)
               userSkillsLower in
      let union := unique (userSkillsLower ++ courseSkillsLower) in
      Number_of_length (List.length intersection)
      / Number_of_length (List.length union)
  end.

Definition calculateCourseSimilarity (course1 course2 : Course) : float :=
  let similarity := 0 in
  let similarity :=
    if String.eqb (category course1) (category course2)
    then similarity + 0.4 else similarity in
  let skillSim :=
    calculateSkillSimilarity (c_skills course1) (c_skills course2) in
  let similarity := similarity + skillSim * 0.4 in
  if String.eqb (difficulty course1) (difficulty course2)
  then similarity + 0.2 else similarity.

(** [similarity > (1 - diversityFactor)] *)
Definition tooSimilar (diversityFactor : float)
           (candidateCourse selectedCourse : Course) : bool :=
  PrimFloat.ltb (1 - diversityFactor)
                (calculateCourseSimilarity candidateCourse selectedCourse).

(** The test of the inner loop of [applyDiversityFilter]: no selected
    recommendation whose course is found is too similar. *)
Definition isDiverse (courseMap : omap Course) (diversityFactor : float)
           (candidateCourse : Course) (diverseRecs : list Combined)
  : bool :=
  forallb
    (fun selected =>
       match get courseMap (m_courseId selected) with
       | None => true
       | Some selectedCourse =>
           negb (tooSimilar diversityFactor candidateCourse selectedCourse)
       end)
    diverseRecs.

(** One iteration of the outer loop of [applyDiversityFilter]. *)
Definition diversityStep (courseMap : omap Course) (diversityFactor : float)
           (diverseRecs : list Combined) (candidate : Combined)
  : list Combined :=
  match get courseMap (m_courseId candidate) with
  | None => diverseRecs
  | Some candidateCourse =>
      if isDiverse courseMap diversityFactor candidateCourse diverseRecs
      then diverseRecs ++ [candidate]
      else diverseRecs
  end.

Definition applyDiversityFilter (db : Database)
           (recommendations : list Combined) (diversityFactor : float)
  : list Combined :=
  match recommendations with
  | [] | [_] => recommendations
  | top :: rest =>
      let courses :=
        Course_find_by_ids db (map m_courseId recommendations) in
      let courseMap := courseMapOf courses in
      fold_left (diversityStep courseMap diversityFactor) rest [top]
  end.

(** The acceptance test of the amended claim: the candidate's course
    record is found, and its similarity to no accepted candidate whose
    course record is found exceeds [1 - diversityFactor], similarity
    and bound being the doubles the source computes. *)
Definition acceptable (db : Database) (diversityFactor : float)
           (accepted : list Combined) (candidate : Combined) : bool :=
  match courseOf db (m_courseId candidate) with
  | None => false
  | Some candidateCourse =>
      forallb
        (fun selected =>
           match courseOf db (m_courseId selected) with
           | None => true
           | Some selectedCourse =>
               negb (PrimFloat.ltb
                       (1 - diversityFactor)
                       (calculateCourseSimilarity candidateCourse
                                                  selectedCourse))
           end)
        accepted
  end.

(** One iteration of the filter over an arbitrary course lookup. *)
Definition stepOver (lookup : string -> option Course) (df : float)
           (acc : list Combined) (candidate : Combined) : list Combined :=
  match lookup (m_courseId candidate) with
  | None => acc
  | Some cc =>
      if forallb
           (fun selected =>
              match lookup (m_courseId selected) with
              | None => true
              | Some sc => negb (tooSimilar df cc sc)
              end)
           acc
      then acc ++ [candidate] else acc
  end.

(** Two courses of one category whose skills overlap in three of
    four: their similarity is 7/10 as a rational and
    0.7000000000000001 as the source computes it. *)
Definition b1 : Course :=
  {| c_id := "b1"; title := "Course b1"; description := "";
     c_skills := ["a"; "b"; "c"; "d"]; category := "data";
     provider := "academy"; difficulty := "beginner" |}.

Definition b2 : Course :=
  {| c_id := "b2"; title := "Course b2"; description := "";
     c_skills := ["a"; "b"; "c"]; category := "data";
     provider := "academy"; difficulty := "advanced" |}.

Definition storeOfB : Database := {| users := []; courses := [b1; b2] |}.

End Doubles.

(** ** Auxiliary notions of the proofs *)

Module Aux.
Import JS Engine Spec.
Local Open Scope Q_scope.

Section Sorted.
Context {A : Type} (key : A -> Q).

(** The head of a sorted list has the greatest key. *)
Definition headMax (l : list A) : Prop :=
  match l with
  | [] => True
  | x :: _ => forall y, In y l -> (key y <= key x)%Q
  end.

End Sorted.

Definition keys {V} (m : omap V) : list string := map fst m.

(** The score the map holds for an id, 0 when it holds none. *)
Definition scoreOf (m : omap Combined) (id : string) : Q :=
  match get m id with Some v => m_score v | None => 0 end.

(** Every entry is filed under its own [courseId]. *)
Definition keyed (m : omap Combined) : Prop :=
  Forall (fun kv => m_courseId (snd kv) = fst kv) m.

Definition foldOccurrences (occ : list (Source * Rec)) (m : omap Combined)
  : omap Combined :=
  fold_left (fun m o => combineStep (fst o) m (snd o)) occ m.

(** The merged map, before sorting. *)
Definition combinedMap (sources : list Source) : omap Combined :=
  foldOccurrences (occurrences sources) [].

Definition sumOf (id : string) (occ : list (Source * Rec)) : Q :=
  fold_right (fun o acc => contribution id o + acc) 0 occ.

Definition sourceOf (i : nat) (a b c d : list Rec) : Source :=
  nth i (weightedSources a b c d) {| recs := []; weight := 0; type := "" |}.

(** One iteration of the filter over an arbitrary course lookup. *)
Definition stepWith (lookup : string -> option Course) (df : Q)
           (acc : list Combined) (candidate : Combined) : list Combined :=
  match lookup (m_courseId candidate) with
  | None => acc
  | Some cc =>
      if forallb
           (fun selected =>
              match lookup (m_courseId selected) with
              | None => true
              | Some sc => Qle_bool (calculateCourseSimilarity cc sc) (1 - df)
              end)
           acc
      then acc ++ [candidate] else acc
  end.

(** A matcher that finds no empty match. *)
Definition productive (m : Regex.matcher) : Prop :=
  forall prev s cap, m prev s <> Some (O, cap).

(** The key under which [combineAndDeduplicateSkills] files a
    candidate and a merged entry. *)
Definition keyOfCandidate (c : Extractor.Candidate) : string :=
  toLowerCase (Extractor.name c).

Definition keyOf (m : Extractor.Merged) : string :=
  keyOfCandidate (Extractor.first m).

(** The candidates of one key, in the order the methods pushed them. *)
Definition candidatesOf (key : string) (all : list Extractor.Candidate)
  : list Extractor.Candidate :=
  filter (fun c => String.eqb (keyOfCandidate c) key) all.

(** What the map holds for [key] once the candidates [seen] are
    merged: nothing if none has the key, else their methods in order
    and the greatest of their confidences. *)
Definition mergedFrom (seen : list Extractor.Candidate) (key : string)
           (entry : option Extractor.Merged) : Prop :=
  match entry with
  | None => candidatesOf key seen = []
  | Some m =>
      keyOf m = key
      /\ Extractor.methods m = map Extractor.method (candidatesOf key seen)
      /\ Forall (fun c => Extractor.confidence c <= Extractor.m_confidence m)
                (candidatesOf key seen)
      /\ Exists (fun c => Extractor.m_confidence m = Extractor.confidence c)
                (candidatesOf key seen)
  end.

(** A confidence in the closed unit interval. *)
Definition unitRange (q : Q) : Prop := 0 <= q <= 1.

(** A list in descending order of a key. *)
Definition descending {A} (key : A -> Q) (l : list A) : Prop :=
  StronglySorted (fun a b => key b <= key a) l.

(** [subseq l1 l2]: [l1] is [l2] with some elements left out, the
    order kept. *)
Inductive subseq {A : Type} : list A -> list A -> Prop :=
| subseq_nil : subseq [] []
| subseq_skip (x : A) (l1 l2 : list A) : subseq l1 l2 -> subseq l1 (x :: l2)
| subseq_keep (x : A) (l1 l2 : list A) :
    subseq l1 l2 -> subseq (x :: l1) (x :: l2).

(** The sources the map records for an id. *)
Definition sourcesOf (m : omap Combined) (id : string) : list SourceEntry :=
  match get m id with Some v => m_sources v | None => [] end.

(** The records of the candidates of an id, in the order of the
    sources. *)
Definition entriesOf (id : string) (occ : list (Source * Rec))
  : list SourceEntry :=
  map (fun o => sourceEntry (fst o) (snd o))
      (filter (fun o => String.eqb (courseId (snd o)) id) occ).

(** The later of two candidates is within the bound of the earlier,
    where both course records are found. *)
Definition withinBound (db : Database) (diversityFactor : Q)
           (earlier later : Combined) : Prop :=
  forall ce cl,
    courseOf db (m_courseId earlier) = Some ce ->
    courseOf db (m_courseId later) = Some cl ->
    calculateCourseSimilarity cl ce <= 1 - diversityFactor.

Definition found (db : Database) (id : string) : bool :=
  match courseOf db id with Some _ => true | None => false end.

(** What the loop over a learning history does to a row. *)
Definition fillRow (courses : list Course) (row : list Q)
           (history : HistoryEntry) : list Q :=
  match findIndex (fun c => String.eqb (c_id c) (h_courseId history))
                  courses with
  | Some courseIndex => set_nth row courseIndex (interactionWeight history)
  | None => row
  end.

(** A neighbour [calculateUserSimilarities] may list. *)
Definition isNeighbour (rt : Runtime) (matrix : list (list Q))
           (userIndex : nat) (p : nat * Q) : Prop :=
  fst p <> userIndex /\ (fst p < List.length matrix)%nat
  /\ 0.1 < snd p
  /\ snd p = cosineSimilarity rt (getRow matrix userIndex)
                              (getRow matrix (fst p)).

(** White space occurs in [s] only as single blanks; [inRun] tells
    that the character before [s] is white space. *)
Fixpoint collapsed (inRun : bool) (s : string) : bool :=
  match s with
  | EmptyString => true
  | String c s' =>
      if is_space c
      then Ascii.eqb c " " && negb inRun && collapsed true s'
      else collapsed false s'
  end.

Definition startsWithSpace (s : string) : bool :=
  match s with
  | String c _ => is_space c
  | EmptyString => false
  end.

Fixpoint endsWithSpace (s : string) : bool :=
  match s with
  | EmptyString => false
  | String c EmptyString => is_space c
  | String _ s' => endsWithSpace s'
  end.

Definition clean (c : ascii) : bool := negb (Extractor.isNoise c).

(** The form of a preprocessed text: no character outside the kept
    classes, white space only as single blanks, none at the ends. *)
Definition normalForm (s : string) : Prop :=
  Extractor.all_chars clean s = true
  /\ collapsed false s = true
  /\ startsWithSpace s = false
  /\ endsWithSpace s = false.

Definition notNewline (c : ascii) : bool := negb (Ascii.eqb c Extractor.nl).

(** The similarity [findBestSkillMatch] computes for a skill. *)
Definition simOf (term skill : string) : Q :=
  Extractor.calculateStringSimilarity term (toLowerCase skill).

(** The body of the loop of [findBestSkillMatch]. *)
Definition bestStep (term : string)
  : option (string * Q) * Q -> string -> option (string * Q) * Q :=
  fun '(bestMatch, bestSimilarity) skill =>
    let similarity :=
      Extractor.calculateStringSimilarity term (toLowerCase skill) in
    if Qgtb similarity bestSimilarity && Qgtb similarity 0.7
    then (Some (skill, similarity), similarity)
    else (bestMatch, bestSimilarity).

(** The state of the loop after the skills [seen]. *)
Definition bestOver (term : string) (seen : list string)
           (st : option (string * Q) * Q) : Prop :=
  (forall s, In s seen -> simOf term s <= snd st \/ simOf term s <= 0.7)
  /\ match fst st with
     | None => snd st = 0
     | Some (k, q) =>
         q = snd st /\ In k seen /\ q = simOf term k /\ 0.7 < q
     end.




End Aux.

(** * Properties *)

Unset Implicit Arguments.

(** ** Facts about the JavaScript primitives *)

Module JSFacts.
Import JS Aux.

Section SortFacts.
Context {A : Type} (key : A -> Q).

Lemma insert_desc_perm (x : A) (l : list A) :
  Permutation (insert_desc key x l) (x :: l).
Proof.
  induction l as [|y l IH]; simpl.
  - apply Permutation_refl.
  - destruct (Qle_bool (key y) (key x)).
    + apply Permutation_refl.
    + eapply perm_trans; [apply perm_skip, IH | apply perm_swap].
Qed.

Lemma sort_desc_perm (l : list A) : Permutation (sort_desc key l) l.
Proof.
  induction l as [|x l IH]; simpl.
  - constructor.
  - eapply perm_trans; [apply insert_desc_perm | apply perm_skip, IH].
Qed.

Lemma sort_desc_In (l : list A) (x : A) :
  In x (sort_desc key l) <-> In x l.
Proof.
  split; apply Permutation_in;
    [apply sort_desc_perm | apply Permutation_sym, sort_desc_perm].
Qed.

Lemma insert_desc_headMax (x : A) (l : list A) :
  headMax key l -> headMax key (insert_desc key x l).
Proof.
  destruct l as [|y l]; simpl.
  - intros _ z [<-|[]]. apply Qle_refl.
  - intros Hy. destruct (Qle_bool (key y) (key x)) eqn:E.
    + apply Qle_bool_iff in E.
      intros z [<-|Hz]; [apply Qle_refl|].
      eapply Qle_trans; [apply Hy, Hz | exact E].
    + intros z [<-|Hz].
      * apply Hy. now left.
      * apply (Permutation_in _ (insert_desc_perm x l)) in Hz.
        destruct Hz as [<-|Hz].
        -- assert (~ (key y <= key x)%Q) as N
             by (rewrite <- Qle_bool_iff, E; discriminate).
           apply Qlt_le_weak, Qnot_le_lt, N.
        -- apply Hy. now right.
Qed.

Lemma sort_desc_headMax (l : list A) : headMax key (sort_desc key l).
Proof.
  induction l as [|x l IH]; simpl; [exact I|].
  now apply insert_desc_headMax.
Qed.
End SortFacts.

Lemma Qle_bool_false (a b : Q) : Qle_bool a b = false -> (b < a)%Q.
Proof.
  intros H. apply Qnot_le_lt. rewrite <- Qle_bool_iff, H. discriminate.
Qed.

Lemma slice0_nil {A} (e : Z) : slice0 (@nil A) e = [].
Proof.
  unfold slice0. destruct (0 <=? e)%Z; apply firstn_nil.
Qed.

Lemma firstn_incl {A} (n : nat) (l : list A) (x : A) :
  In x (firstn n l) -> In x l.
Proof.
  intros H. rewrite <- (firstn_skipn n l). apply in_or_app. now left.
Qed.

Lemma slice0_incl {A} (l : list A) (e : Z) (x : A) :
  In x (slice0 l e) -> In x l.
Proof.
  unfold slice0. destruct (0 <=? e)%Z; apply firstn_incl.
Qed.

Lemma str_mem_In (x : string) (l : list string) :
  str_mem x l = true <-> In x l.
Proof.
  unfold str_mem. rewrite existsb_exists. split.
  - intros (y & Hy & E). apply String.eqb_eq in E. now subst.
  - intros H. exists x. split; [exact H | apply String.eqb_refl].
Qed.

Section MapFacts.
Context {V : Type}.
Implicit Types (m : omap V) (k : string) (v : V).

Lemma get_set_same m k v : get (set m k v) k = Some v.
Proof.
  induction m as [|[k' v'] m IH]; simpl.
  - now rewrite String.eqb_refl.
  - destruct (String.eqb k k') eqn:E; simpl; rewrite E; [reflexivity | exact IH].
Qed.

Lemma get_set_other m k k' v : k <> k' -> get (set m k v) k' = get m k'.
Proof.
  intros N. induction m as [|[k0 v0] m IH]; simpl.
  - destruct (String.eqb k' k) eqn:E; [|reflexivity].
    apply String.eqb_eq in E. congruence.
  - destruct (String.eqb k k0) eqn:E; simpl.
    + apply String.eqb_eq in E. subst k0.
      destruct (String.eqb k' k) eqn:E'; [|reflexivity].
      apply String.eqb_eq in E'. congruence.
    + now rewrite IH.
Qed.

Lemma get_Some_In m k v : get m k = Some v -> In (k, v) m.
Proof.
  induction m as [|[k' v'] m IH]; simpl; [discriminate|].
  destruct (String.eqb k k') eqn:E.
  - apply String.eqb_eq in E. intros [= ->]. subst. now left.
  - intros H. right. now apply IH.
Qed.

Lemma get_None_keys m k : get m k = None -> ~ In k (keys m).
Proof.
  induction m as [|[k' v'] m IH]; simpl; [tauto|].
  destruct (String.eqb k k') eqn:E; [discriminate|].
  apply String.eqb_neq in E. intros H [E'|H']; [congruence | now apply IH].
Qed.

Lemma In_get m k v : NoDup (keys m) -> In (k, v) m -> get m k = Some v.
Proof.
  induction m as [|[k' v'] m IH]; simpl; [tauto|].
  intros ND [E|H].
  - injection E as -> ->. now rewrite String.eqb_refl.
  - inversion ND as [|? ? Hn ND']; subst.
    destruct (String.eqb k k') eqn:E.
    + apply String.eqb_eq in E. subst. exfalso. apply Hn.
      change k' with (fst (k', v)). now apply in_map.
    + now apply IH.
Qed.

Lemma keys_set_present m k v v0 :
  get m k = Some v0 -> keys (set m k v) = keys m.
Proof.
  induction m as [|[k' v'] m IH]; simpl; [discriminate|].
  destruct (String.eqb k k') eqn:E; simpl; [reflexivity|].
  intros H. f_equal. now apply IH.
Qed.

Lemma keys_set_absent m k v :
  get m k = None -> keys (set m k v) = keys m ++ [k].
Proof.
  induction m as [|[k' v'] m IH]; simpl; [reflexivity|].
  destruct (String.eqb k k') eqn:E; simpl; [discriminate|].
  intros H. f_equal. now apply IH.
Qed.

Lemma NoDup_keys_set m k v : NoDup (keys m) -> NoDup (keys (set m k v)).
Proof.
  intros ND. destruct (get m k) as [v0|] eqn:G.
  - now erewrite keys_set_present by eassumption.
  - rewrite keys_set_absent by assumption.
    apply NoDup_app; [exact ND | repeat constructor; simpl; tauto |].
    intros x Hx [<-|[]]. now apply (get_None_keys _ _ G).
Qed.

Lemma Forall_set (P : string * V -> Prop) m k v :
  Forall P m -> P (k, v) -> Forall P (set m k v).
Proof.
  intros F Pk. induction F as [|[k' v'] m Hx F IH]; simpl.
  - now constructor.
  - destruct (String.eqb k k') eqn:E.
    + apply String.eqb_eq in E. subst. now constructor.
    + now constructor.
Qed.

Lemma In_set m k v k' v' :
  In (k', v') (set m k v) -> (k' = k /\ v' = v) \/ In (k', v') m.
Proof.
  induction m as [|[k0 v0] m IH]; simpl.
  - intros [[= <- <-]|[]]. now left.
  - destruct (String.eqb k k0) eqn:E; simpl.
    + apply String.eqb_eq in E. subst.
      intros [[= <- <-]|H]; [now left | right; now right].
    + intros [H|H]; [right; now left|].
      destruct (IH H) as [?|?]; [now left | right; now right].
Qed.
End MapFacts.

End JSFacts.

(** ** The weighted combination *)

Module CombineFacts.
Import JS Aux JSFacts Engine Spec.
Local Open Scope Q_scope.

Lemma fold_sources_occurrences (sources : list Source) (m : omap Combined) :
  fold_left (fun combined src => fold_left (combineStep src) (recs src) combined)
            sources m
  = foldOccurrences (occurrences sources) m.
Proof.
  revert m. induction sources as [|src sources IH]; intros m; simpl.
  - reflexivity.
  - unfold foldOccurrences, occurrences. simpl.
    rewrite fold_left_app. rewrite IH. unfold foldOccurrences, occurrences.
    f_equal. generalize (recs src) m. clear.
    induction l as [|r l IH]; intros m; simpl; [reflexivity | apply IH].
Qed.

Lemma combineStep_keyed src m r : keyed m -> keyed (combineStep src m r).
Proof.
  intros K. unfold combineStep.
  destruct (get m (courseId r)) as [existing|] eqn:G.
  - apply Forall_set; [exact K|]. simpl.
    apply get_Some_In in G. unfold keyed in K.
    rewrite Forall_forall in K. exact (K _ G).
  - apply Forall_set; [exact K | reflexivity].
Qed.

Lemma combineStep_NoDup src m r :
  NoDup (keys m) -> NoDup (keys (combineStep src m r)).
Proof.
  intros ND. unfold combineStep.
  destruct (get m (courseId r)); now apply NoDup_keys_set.
Qed.

Lemma combineStep_score src m r id :
  scoreOf (combineStep src m r) id == scoreOf m id + contribution id (src, r).
Proof.
  unfold scoreOf, contribution, combineStep. simpl.
  destruct (String.eqb (courseId r) id) eqn:E.
  - apply String.eqb_eq in E. subst id.
    destruct (get m (courseId r)) as [existing|] eqn:G;
      rewrite get_set_same; simpl; ring.
  - apply String.eqb_neq in E.
    destruct (get m (courseId r)) as [existing|] eqn:G;
      rewrite (get_set_other _ _ _ _ E); ring.
Qed.

Lemma combineStep_keys src m r id :
  In id (keys (combineStep src m r)) <-> In id (keys m) \/ id = courseId r.
Proof.
  unfold combineStep.
  destruct (get m (courseId r)) as [existing|] eqn:G.
  - erewrite keys_set_present by eassumption. split; [tauto|].
    intros [H| ->]; [exact H|].
    apply get_Some_In in G. change (courseId r) with (fst (courseId r, existing)).
    now apply in_map.
  - rewrite keys_set_absent by assumption. rewrite in_app_iff. simpl.
    intuition congruence.
Qed.

Lemma foldOccurrences_inv occ : forall m,
  keyed m -> NoDup (keys m) ->
  let m' := foldOccurrences occ m in
  keyed m' /\ NoDup (keys m')
  /\ (forall id, scoreOf m' id ==
                 scoreOf m id + fold_right (fun o acc => contribution id o + acc) 0 occ)
  /\ (forall id, In id (keys m') <->
                 In id (keys m) \/ exists o, In o occ /\ courseId (snd o) = id).
Proof.
  induction occ as [|[src r] occ IH]; intros m K ND; simpl.
  - repeat split; try assumption.
    + intros id. ring.
    + now left.
    + intros [H|(o & [] & _)]. exact H.
  - destruct (IH (combineStep src m r)
                 (combineStep_keyed src m r K) (combineStep_NoDup src m r ND))
      as (K' & ND' & S' & I').
    repeat split; try assumption.
    + intros id. rewrite S', combineStep_score. ring.
    + intros H. apply I' in H. destruct H as [H|(o & Ho & E)].
      * apply combineStep_keys in H. destruct H as [H| ->]; [now left|].
        right. exists (src, r). split; [now left | reflexivity].
      * right. exists o. split; [now right | exact E].
    + intros H. apply I'. destruct H as [H|(o & [<-|Ho] & E)].
      * left. apply combineStep_keys. now left.
      * left. apply combineStep_keys. right. now rewrite <- E.
      * right. now exists o.
Qed.

Lemma combineRecommendations_unfold sources :
  combineRecommendations sources = sort_desc m_score (values (combinedMap sources)).
Proof.
  unfold combineRecommendations, combinedMap.
  now rewrite fold_sources_occurrences.
Qed.

Lemma keyed_ids (m : omap Combined) :
  keyed m -> map m_courseId (values m) = keys m.
Proof.
  unfold values, keys. intros K. rewrite map_map.
  apply map_ext_in. intros kv H. unfold keyed in K.
  rewrite Forall_forall in K. now apply K.
Qed.

Lemma combinedMap_inv sources :
  let m := combinedMap sources in
  keyed m /\ NoDup (keys m)
  /\ (forall id, scoreOf m id == weightedSum sources id)
  /\ (forall id, In id (keys m) <->
                 exists src r, In src sources /\ In r (recs src) /\ courseId r = id).
Proof.
  destruct (foldOccurrences_inv (occurrences sources) [])
    as (K & ND & S & I); [constructor | constructor |].
  repeat split; try assumption.
  - intros id. rewrite S. unfold scoreOf, weightedSum. simpl. ring.
  - intros H. apply I in H. destruct H as [[]|([src r] & Ho & E)].
    unfold occurrences in Ho. apply in_flat_map in Ho.
    destruct Ho as (src' & Hs & Hr). apply in_map_iff in Hr.
    destruct Hr as (r' & [= <- <-] & Hr). now exists src', r'.
  - intros (src & r & Hs & Hr & E). apply I. right.
    exists (src, r). split; [|exact E].
    unfold occurrences. apply in_flat_map. exists src. split; [exact Hs|].
    now apply in_map.
Qed.

(** One entry per [courseId]. *)
Lemma combine_NoDup sources :
  NoDup (map m_courseId (combineRecommendations sources)).
Proof.
  rewrite combineRecommendations_unfold.
  destruct (combinedMap_inv sources) as (K & ND & _).
  eapply Permutation_NoDup.
  - apply Permutation_map, Permutation_sym, sort_desc_perm.
  - now rewrite keyed_ids.
Qed.

(** Each entry carries the weighted sum of its candidates. *)
Lemma combine_score sources c :
  In c (combineRecommendations sources) ->
  m_score c == weightedSum sources (m_courseId c).
Proof.
  rewrite combineRecommendations_unfold, sort_desc_In.
  destruct (combinedMap_inv sources) as (K & ND & S & _).
  unfold values. rewrite in_map_iff. intros ([k v] & <- & H). simpl.
  assert (m_courseId v = k) as E
      by (unfold keyed in K; rewrite Forall_forall in K; exact (K _ H)).
  rewrite <- (S (m_courseId v)). unfold scoreOf.
  rewrite E. now rewrite (In_get _ _ _ ND H).
Qed.

Lemma combine_ids sources id :
  In id (map m_courseId (combineRecommendations sources)) <->
  exists src r, In src sources /\ In r (recs src) /\ courseId r = id.
Proof.
  destruct (combinedMap_inv sources) as (K & ND & _ & I).
  rewrite <- I, <- (keyed_ids _ K), combineRecommendations_unfold.
  split; apply Permutation_in; apply Permutation_map;
    [apply sort_desc_perm | apply Permutation_sym, sort_desc_perm].
Qed.

End CombineFacts.

Module CombineClaim.
Import JS Aux JSFacts Engine Spec CombineFacts.
Local Open Scope Q_scope.

Lemma sumOf_app id l1 l2 : sumOf id (l1 ++ l2) == sumOf id l1 + sumOf id l2.
Proof.
  induction l1 as [|o l1 IH]; simpl.
  - ring.
  - unfold sumOf in *. simpl. rewrite IH. ring.
Qed.

Lemma sumOf_absent id src l :
  ~ In id (map courseId l) -> sumOf id (map (pair src) l) == 0.
Proof.
  induction l as [|r l IH]; simpl; intros N.
  - reflexivity.
  - unfold sumOf in *. simpl. unfold contribution at 1. simpl.
    destruct (String.eqb (courseId r) id) eqn:E.
    + apply String.eqb_eq in E. tauto.
    + rewrite IH by tauto. ring.
Qed.

(** A source that lists no course twice adds at most its weight. *)
Lemma sumOf_source_bound id src :
  0 <= weight src ->
  NoDup (map courseId (recs src)) ->
  (forall r, In r (recs src) -> 0 <= score r <= 1) ->
  0 <= sumOf id (map (pair src) (recs src)) <= weight src.
Proof.
  intros W. induction (recs src) as [|r l IH]; simpl; intros ND B.
  - unfold sumOf. simpl. split; [apply Qle_refl | exact W].
  - inversion ND as [|? ? Hn ND']; subst.
    change (sumOf id (map (pair src) (r :: l)))
      with (contribution id (src, r) + sumOf id (map (pair src) l)).
    unfold contribution. cbn [fst snd].
    destruct (String.eqb (courseId r) id) eqn:E.
    + apply String.eqb_eq in E. subst id.
      rewrite (sumOf_absent _ src l Hn).
      destruct (B r (or_introl eq_refl)) as [B0 B1].
      split.
      * rewrite Qplus_0_r. now apply Qmult_le_0_compat.
      * rewrite Qplus_0_r. apply Qle_trans with (1 * weight src).
        -- now apply Qmult_le_compat_r.
        -- rewrite Qmult_1_l. apply Qle_refl.
    + destruct (IH ND' (fun r' H => B r' (or_intror H))) as [I0 I1].
      split; lra.
Qed.

Lemma weightedSum_four id a b c d :
  weightedSum (weightedSources a b c d) id ==
  sumOf id (map (pair (sourceOf 0 a b c d)) a)
  + sumOf id (map (pair (sourceOf 1 a b c d)) b)
  + sumOf id (map (pair (sourceOf 2 a b c d)) c)
  + sumOf id (map (pair (sourceOf 3 a b c d)) d).
Proof.
  change (weightedSum (weightedSources a b c d) id)
    with (sumOf id (map (pair (sourceOf 0 a b c d)) a
                    ++ map (pair (sourceOf 1 a b c d)) b
                    ++ map (pair (sourceOf 2 a b c d)) c
                    ++ map (pair (sourceOf 3 a b c d)) d ++ [])).
  rewrite !sumOf_app. change (sumOf id []) with 0. ring.
Qed.

(** C3 (amended).  [combineRecommendations] keeps one entry per
    courseId, for exactly the courseIds some source lists, and gives
    each the sum of candidateScore x sourceWeight over every candidate
    of that courseId, a source counting once for each time it lists the
    course.  The weights of the engine sum to 1, so when its four
    sources hold scores in [0,1] and none lists a course twice, every
    combined score lies in [0,1]. *)
Theorem combineRecommendations_weighted_sum :
  (forall sources,
      let merged := combineRecommendations sources in
      NoDup (map m_courseId merged)
      /\ (forall id, In id (map m_courseId merged) <->
                     exists src r, In src sources /\ In r (recs src)
                                   /\ courseId r = id)
      /\ (forall m, In m merged ->
                    m_score m == weightedSum sources (m_courseId m)))
  /\ w_collaborative + w_contentBased + w_marketDriven + w_behavioral == 1
  /\ (forall collaborativeRecs contentRecs marketRecs behavioralRecs,
         let sources :=
           weightedSources collaborativeRecs contentRecs marketRecs
                           behavioralRecs in
         Forall (fun src =>
                   NoDup (map courseId (recs src))
                   /\ Forall (fun r => 0 <= score r <= 1) (recs src))
                sources ->
         Forall (fun m => 0 <= m_score m <= 1)
                (combineRecommendations sources)).
Proof.
  split; [|split].
  - intros sources merged. repeat split.
    + apply combine_NoDup.
    + apply combine_ids.
    + apply combine_ids.
    + apply combine_score.
  - reflexivity.
  - intros a b c d sources H. apply Forall_forall. intros m Hm.
    rewrite (combine_score _ _ Hm). unfold sources.
    rewrite weightedSum_four.
    unfold sources, weightedSources in H.
    inversion H as [|? ? [NDa Ba] H1]; subst.
    inversion H1 as [|? ? [NDb Bb] H2]; subst.
    inversion H2 as [|? ? [NDc Bc] H3]; subst.
    inversion H3 as [|? ? [NDd Bd] _]; subst.
    simpl in *. rewrite Forall_forall in Ba, Bb, Bc, Bd.
    pose proof (sumOf_source_bound (m_courseId m) (sourceOf 0 a b c d)
                  ltac:(discriminate) NDa Ba) as Sa.
    pose proof (sumOf_source_bound (m_courseId m) (sourceOf 1 a b c d)
                  ltac:(discriminate) NDb Bb) as Sb.
    pose proof (sumOf_source_bound (m_courseId m) (sourceOf 2 a b c d)
                  ltac:(discriminate) NDc Bc) as Sc.
    pose proof (sumOf_source_bound (m_courseId m) (sourceOf 3 a b c d)
                  ltac:(discriminate) NDd Bd) as Sd.
    change (weight (sourceOf 0 a b c d)) with w_collaborative in Sa.
    change (weight (sourceOf 1 a b c d)) with w_contentBased in Sb.
    change (weight (sourceOf 2 a b c d)) with w_marketDriven in Sc.
    change (weight (sourceOf 3 a b c d)) with w_behavioral in Sd.
    change (recs (sourceOf 0 a b c d)) with a in Sa.
    change (recs (sourceOf 1 a b c d)) with b in Sb.
    change (recs (sourceOf 2 a b c d)) with c in Sc.
    change (recs (sourceOf 3 a b c d)) with d in Sd.
    unfold w_collaborative, w_contentBased, w_marketDriven, w_behavioral in *.
    split; lra.
Qed.

(** The bound at two courses spread over three sources. *)
Lemma combineRecommendations_weighted_sum_witness :
  Forall (fun m => 0 <= m_score m <= 1)
         (combineRecommendations
            (weightedSources [Sample.rec_ "c1" 1] [Sample.rec_ "c1" (1 # 2)]
                             [] [Sample.rec_ "c2" 1])).
Proof.
  apply (proj2 (proj2 combineRecommendations_weighted_sum)).
  repeat constructor; simpl; try tauto; try discriminate.
Defined.

(** C3 as stated fails: with every candidate score in [0,1], a course
    that the market-driven source lists twice (it pushes one candidate
    for each trending skill and each goal skill a course matches) gets
    0.35 + 0.35 + 0.2 + 0.2 + 0.1 = 1.2. *)
Lemma combineRecommendations_repeated_course_exceeds_one :
  let sources :=
    weightedSources [Sample.rec_ "c1" 1] [Sample.rec_ "c1" 1]
                    [Sample.rec_ "c1" 1; Sample.rec_ "c1" 1]
                    [Sample.rec_ "c1" 1] in
  Forall (fun src => Forall (fun r => 0 <= score r <= 1) (recs src)) sources
  /\ Exists (fun m => m_courseId m = "c1"%string /\ m_score m == 12 # 10
                      /\ ~ m_score m <= 1)
            (combineRecommendations sources).
Proof.
  split.
  - repeat constructor; simpl; discriminate.
  - apply Exists_cons_hd. simpl. repeat split. intros H. now apply H.
Qed.

End CombineClaim.

(** ** The diversity filter *)

Module DiversityFacts.
Import JS Aux JSFacts Engine Spec.
Local Open Scope Q_scope.

Lemma of_entries_snoc {V} (l : list (string * V)) k v :
  of_entries (l ++ [(k, v)]) = set (of_entries l) k v.
Proof.
  unfold of_entries. now rewrite fold_left_app.
Qed.

(** A [Map] built from a list of courses returns the last course of an
    id. *)
Lemma courseMapOf_get (l : list Course) (id : string) :
  get (courseMapOf l) id = find (fun c => String.eqb (c_id c) id) (rev l).
Proof.
  induction l as [|x l IH] using rev_ind.
  - reflexivity.
  - unfold courseMapOf in *. rewrite map_app. simpl map at 2.
    rewrite of_entries_snoc, rev_app_distr. simpl.
    destruct (String.eqb (c_id x) id) eqn:E.
    + apply String.eqb_eq in E. subst. apply get_set_same.
    + apply String.eqb_neq in E. rewrite get_set_other by exact E. exact IH.
Qed.

Lemma find_filter {A} (p q : A -> bool) (l : list A) :
  (forall x, p x = true -> q x = true) ->
  find p (filter q l) = find p l.
Proof.
  intros H. induction l as [|x l IH]; simpl; [reflexivity|].
  destruct (q x) eqn:Q; simpl.
  - now rewrite IH.
  - destruct (p x) eqn:P; [|exact IH].
    apply H in P. congruence.
Qed.

(** For the ids of the query, the map of the filter agrees with the
    store. *)
Lemma courseMap_lookup db ids id :
  In id ids ->
  get (courseMapOf (Course_find_by_ids db ids)) id = courseOf db id.
Proof.
  intros H. rewrite courseMapOf_get. unfold Course_find_by_ids, courseOf.
  rewrite <- filter_rev. apply find_filter.
  intros c E. apply String.eqb_eq in E. rewrite E. now apply str_mem_In.
Qed.

Lemma Qgtb_negb a b : negb (Qgtb a b) = Qle_bool a b.
Proof. unfold Qgtb. apply negb_involutive. Qed.

Lemma diversityStep_stepWith cm lookup df acc candidate :
  (forall x, In x (candidate :: acc) -> get cm (m_courseId x) = lookup (m_courseId x)) ->
  diversityStep cm df acc candidate = stepWith lookup df acc candidate.
Proof.
  intros H. unfold diversityStep, stepWith.
  rewrite (H candidate (or_introl eq_refl)).
  destruct (lookup (m_courseId candidate)) as [cc|]; [|reflexivity].
  replace (isDiverse cm df cc acc)
    with (forallb
            (fun selected =>
               match lookup (m_courseId selected) with
               | None => true
               | Some sc => Qle_bool (calculateCourseSimilarity cc sc) (1 - df)
               end) acc); [reflexivity|].
  unfold isDiverse. clear - H.
  induction acc as [|s acc IH]; simpl; [reflexivity|].
  rewrite (H s (or_intror (or_introl eq_refl))).
  rewrite IH.
  - destruct (lookup (m_courseId s)); [now rewrite Qgtb_negb | reflexivity].
  - intros x [<-|Hx]; apply H; [now left | right; now right].
Qed.

Lemma stepWith_incl lookup df acc candidate x :
  In x (stepWith lookup df acc candidate) -> In x acc \/ x = candidate.
Proof.
  unfold stepWith. destruct (lookup (m_courseId candidate)); [|now left].
  match goal with |- context [if ?b then _ else _] => destruct b end;
    [|now left].
  rewrite in_app_iff. simpl. intuition.
Qed.

Lemma fold_stepWith cm lookup df rest : forall acc,
  (forall x, In x (acc ++ rest) -> get cm (m_courseId x) = lookup (m_courseId x)) ->
  fold_left (diversityStep cm df) rest acc = fold_left (stepWith lookup df) rest acc.
Proof.
  induction rest as [|r rest IH]; intros acc H; simpl; [reflexivity|].
  rewrite (diversityStep_stepWith cm lookup).
  - apply IH. intros x Hx. apply H. rewrite in_app_iff in *. simpl.
    destruct Hx as [Hx|Hx]; [|tauto].
    apply stepWith_incl in Hx. destruct Hx as [Hx| ->]; tauto.
  - intros x [<-|Hx]; apply H; rewrite in_app_iff; simpl; tauto.
Qed.

(** The filter is a left fold over the candidates after the first,
    with the course records of the store. *)
Lemma applyDiversityFilter_fold db recs df :
  applyDiversityFilter db recs df =
  match recs with
  | [] => []
  | top :: rest => fold_left (stepWith (courseOf db) df) rest [top]
  end.
Proof.
  destruct recs as [|top [|r rest]]; try reflexivity.
  unfold applyDiversityFilter. apply fold_stepWith.
  intros x Hx. apply courseMap_lookup. apply in_map. exact Hx.
Qed.

Lemma stepWith_acceptable db df acc r :
  stepWith (courseOf db) df acc r =
  acc ++ (if acceptable db df acc r then [r] else []).
Proof.
  unfold stepWith, acceptable.
  destruct (courseOf db (m_courseId r)); [|now rewrite app_nil_r].
  match goal with |- context [if ?b then _ else _] => destruct b end;
    [reflexivity | now rewrite app_nil_r].
Qed.

Lemma fold_stepWith_head lookup df rest : forall top acc,
  exists tail, fold_left (stepWith lookup df) rest (top :: acc) = top :: tail.
Proof.
  induction rest as [|r rest IH]; intros top acc; simpl.
  - now exists acc.
  - unfold stepWith at 2. destruct (lookup (m_courseId r)); [|apply IH].
    match goal with |- context [if ?b then _ else _] => destruct b end;
      apply IH.
Qed.

End DiversityFacts.

(** ** The diversity filter with the numbers of the source *)

Module DiversityClaim.
Import PrimFloat.
Import JS Aux JSFacts Engine Spec DiversityFacts.
Local Open Scope Q_scope.

Lemma diversityStep_stepOver cm lookup df acc candidate :
  (forall x, In x (candidate :: acc) ->
             get cm (m_courseId x) = lookup (m_courseId x)) ->
  Doubles.diversityStep cm df acc candidate
  = Doubles.stepOver lookup df acc candidate.
Proof.
  intros H. unfold Doubles.diversityStep, Doubles.stepOver.
  rewrite (H candidate (or_introl eq_refl)).
  destruct (lookup (m_courseId candidate)) as [cc|]; [|reflexivity].
  replace (Doubles.isDiverse cm df cc acc)
    with (forallb
            (fun selected =>
               match lookup (m_courseId selected) with
               | None => true
               | Some sc => negb (Doubles.tooSimilar df cc sc)
               end) acc); [reflexivity|].
  unfold Doubles.isDiverse. clear - H.
  induction acc as [|s acc IH]; simpl; [reflexivity|].
  rewrite (H s (or_intror (or_introl eq_refl))).
  rewrite IH; [reflexivity|].
  intros x [<-|Hx]; apply H; [now left | right; now right].
Qed.

Lemma stepOver_incl lookup df acc candidate x :
  In x (Doubles.stepOver lookup df acc candidate) ->
  In x acc \/ x = candidate.
Proof.
  unfold Doubles.stepOver.
  destruct (lookup (m_courseId candidate)); [|now left].
  match goal with |- context [if ?b then _ else _] => destruct b end;
    [|now left].
  rewrite in_app_iff. simpl. intuition.
Qed.

Lemma fold_stepOver cm lookup df rest : forall acc,
  (forall x, In x (acc ++ rest) ->
             get cm (m_courseId x) = lookup (m_courseId x)) ->
  fold_left (Doubles.diversityStep cm df) rest acc
  = fold_left (Doubles.stepOver lookup df) rest acc.
Proof.
  induction rest as [|r rest IH]; intros acc H; simpl; [reflexivity|].
  rewrite (diversityStep_stepOver cm lookup).
  - apply IH. intros x Hx. apply H. rewrite in_app_iff in *. simpl.
    destruct Hx as [Hx|Hx]; [|tauto].
    apply stepOver_incl in Hx. destruct Hx as [Hx| ->]; tauto.
  - intros x [<-|Hx]; apply H; rewrite in_app_iff; simpl; tauto.
Qed.

(** The filter is a left fold over the candidates after the first,
    with the course records of the store. *)
Lemma applyDiversityFilter_stepOver db recs df :
  Doubles.applyDiversityFilter db recs df =
  match recs with
  | [] => []
  | top :: rest => fold_left (Doubles.stepOver (courseOf db) df) rest [top]
  end.
Proof.
  destruct recs as [|top [|r rest]]; try reflexivity.
  unfold Doubles.applyDiversityFilter. apply fold_stepOver.
  intros x Hx. apply courseMap_lookup. apply in_map. exact Hx.
Qed.

Lemma stepOver_acceptable db df acc r :
  Doubles.stepOver (courseOf db) df acc r =
  acc ++ (if Doubles.acceptable db df acc r then [r] else []).
Proof.
  unfold Doubles.stepOver, Doubles.acceptable, Doubles.tooSimilar.
  destruct (courseOf db (m_courseId r)); [|now rewrite app_nil_r].
  match goal with |- context [if ?b then _ else _] => destruct b end;
    [reflexivity | now rewrite app_nil_r].
Qed.

Lemma fold_stepOver_head lookup df rest : forall top acc,
  exists tail,
    fold_left (Doubles.stepOver lookup df) rest (top :: acc) = top :: tail.
Proof.
  induction rest as [|r rest IH]; intros top acc; simpl.
  - now exists acc.
  - unfold Doubles.stepOver at 2.
    destruct (lookup (m_courseId r)); [|apply IH].
    match goal with |- context [if ?b then _ else _] => destruct b end;
      apply IH.
Qed.

(** C4 (amended).  The diversity filter keeps the first candidate,
    which is a top-scored one on the list [combineRecommendations]
    returns; it accepts a later candidate exactly when the course
    record of that candidate is found in the store and its pairwise
    course similarity to no already accepted candidate whose course
    record is found exceeds 1 - diversityFactor.  Similarity and bound
    are the doubles the source computes: for the courses b1 and b2,
    whose similarity is 7/10 = 1 - 3/10 as a rational, the source
    computes 0.7000000000000001 against the bound 0.7 and drops b2. *)
Theorem applyDiversityFilter_accepts
        (db : Database) (diversityFactor : PrimFloat.float) :
  (forall top rest,
      exists tail,
        Doubles.applyDiversityFilter db (top :: rest) diversityFactor
        = top :: tail)
  /\ (forall recs r,
         recs <> [] ->
         Doubles.applyDiversityFilter db (recs ++ [r]) diversityFactor =
         Doubles.applyDiversityFilter db recs diversityFactor
         ++ (if Doubles.acceptable
                  db diversityFactor
                  (Doubles.applyDiversityFilter db recs diversityFactor) r
             then [r] else []))
  /\ (forall sources top tail,
         Doubles.applyDiversityFilter db (combineRecommendations sources)
                                      diversityFactor
         = top :: tail ->
         forall m, In m (combineRecommendations sources) ->
                   m_score m <= m_score top)
  /\ (Doubles.applyDiversityFilter
        Doubles.storeOfB
        [Sample.candidate "b1" 0.9; Sample.candidate "b2" 0.8] 0.3%float
      = [Sample.candidate "b1" 0.9]
      /\ Doubles.calculateCourseSimilarity Doubles.b2 Doubles.b1
         = 0.7000000000000001%float
      /\ PrimFloat.sub 1 0.3 = 0.7%float
      /\ calculateCourseSimilarity Doubles.b2 Doubles.b1 == 1 - 0.3).
Proof.
  split; [|split; [|split]].
  - intros top rest. rewrite applyDiversityFilter_stepOver.
    apply fold_stepOver_head.
  - intros [|top rest] r N; [congruence|].
    rewrite !applyDiversityFilter_stepOver. simpl.
    rewrite fold_left_app. simpl. apply stepOver_acceptable.
  - intros sources top tail E m Hm.
    pose proof (sort_desc_headMax m_score
                  (values (fold_left
                             (fun combined src =>
                                fold_left (combineStep src) (recs src) combined)
                             sources []))) as HM.
    fold (combineRecommendations sources) in HM.
    destruct (combineRecommendations sources) as [|x l] eqn:C; [destruct Hm|].
    rewrite applyDiversityFilter_stepOver in E.
    destruct (fold_stepOver_head (courseOf db) diversityFactor l x [])
      as (tail' & E').
    rewrite E' in E. injection E as <- _. now apply HM.
  - repeat split; vm_compute; reflexivity.
Qed.

(** The second candidate of two, whose course differs from the first
    in category and difficulty, is accepted. *)
Lemma applyDiversityFilter_accepts_witness :
  [Sample.candidate "c1" 0.9] <> []
  /\ Doubles.applyDiversityFilter
       {| users := []; courses := [Sample.c1; Sample.c2] |}
       ([Sample.candidate "c1" 0.9] ++ [Sample.candidate "c2" 0.8])
       0.3%float
     = [Sample.candidate "c1" 0.9] ++ [Sample.candidate "c2" 0.8].
Proof.
  split; [discriminate|].
  exact (proj1 (proj2 (applyDiversityFilter_accepts
                         {| users := []; courses := [Sample.c1; Sample.c2] |}
                         0.3%float))
               [Sample.candidate "c1" 0.9] (Sample.candidate "c2" 0.8)
               ltac:(discriminate)).
Defined.

(** C4 as stated fails on candidates whose course record the store
    does not hold.  With only the course of c2 in the store, c2 is
    accepted although it has no similarity to the accepted c1, and c3 is
    rejected although no similarity of c3 exceeds the bound. *)
Lemma applyDiversityFilter_missing_course :
  Doubles.applyDiversityFilter Sample.storeOfC2 Sample.threeCandidates
                               0.3%float
  = [Sample.candidate "c1" 0.9; Sample.candidate "c2" 0.8]
  /\ ~ (In (Sample.candidate "c2" 0.8)
           (Doubles.applyDiversityFilter Sample.storeOfC2
                                         Sample.threeCandidates 0.3%float)
        <-> withinBoundOfAll Sample.storeOfC2 0.3 [Sample.candidate "c1" 0.9]
                             (Sample.candidate "c2" 0.8))
  /\ ~ (In (Sample.candidate "c3" 0.7)
           (Doubles.applyDiversityFilter Sample.storeOfC2
                                         Sample.threeCandidates 0.3%float)
        <-> noneAboveBound Sample.storeOfC2 0.3
                           [Sample.candidate "c1" 0.9; Sample.candidate "c2" 0.8]
                           (Sample.candidate "c3" 0.7)).
Proof.
  assert (E : Doubles.applyDiversityFilter Sample.storeOfC2
                                           Sample.threeCandidates 0.3%float
              = [Sample.candidate "c1" 0.9; Sample.candidate "c2" 0.8])
    by reflexivity.
  rewrite E. split; [reflexivity|]. split.
  - intros [H _].
    destruct (H (or_intror (or_introl eq_refl)) _ (or_introl eq_refl))
      as (q & Eq & _).
    discriminate Eq.
  - intros [_ H].
    assert (In (Sample.candidate "c3" 0.7)
               [Sample.candidate "c1" 0.9; Sample.candidate "c2" 0.8]) as I.
    { apply H. intros sel q _ Eq. unfold similarityOf in Eq.
      simpl in Eq. discriminate Eq. }
    simpl in I. destruct I as [I|[I|[]]]; discriminate I.
Qed.

End DiversityClaim.

(** ** Filters, scorers and the request *)

Module EngineClaims.
Import JS Aux JSFacts Engine Spec.
Local Open Scope Q_scope.

Lemma Status_eqb_eq a b : Status_eqb a b = true <-> a = b.
Proof. destruct a, b; simpl; split; congruence. Qed.

Lemma completedCourseIds_In history id :
  In id (completedCourseIds history) <-> completedIn history id.
Proof.
  unfold completedCourseIds, completedIn. rewrite in_map_iff. split.
  - intros (h & E & H). apply filter_In in H. destruct H as [H S].
    exists h. now rewrite <- Status_eqb_eq.
  - intros (h & H & S & E). exists h. split; [exact E|].
    apply filter_In. now rewrite Status_eqb_eq.
Qed.

(** C5.  The completed-course filter removes a candidate exactly when
    a history entry with status completed carries its courseId: what
    it returns are the candidates with no such entry, all of them. *)
Theorem filterCompletedCourses_exact
        (recommendations : list Combined) (learningHistory : list HistoryEntry)
        (rec : Combined) :
  In rec (filterCompletedCourses recommendations learningHistory)
  <-> In rec recommendations
      /\ ~ completedIn learningHistory (m_courseId rec).
Proof.
  unfold filterCompletedCourses. rewrite filter_In.
  rewrite <- completedCourseIds_In, <- str_mem_In.
  destruct (str_mem (m_courseId rec) (completedCourseIds learningHistory));
    simpl; intuition congruence.
Qed.

Lemma findIndex_none {A} (p : A -> bool) (l : list A) :
  (forall x, In x l -> p x = false) -> findIndex p l = None.
Proof.
  induction l as [|x l IH]; simpl; intros H; [reflexivity|].
  rewrite (H x (or_introl eq_refl)). rewrite IH; [reflexivity|].
  intros y Hy. apply H. now right.
Qed.

(** C6.  [collaborativeFiltering] returns the empty list when the store
    holds fewer than 2 users or fewer than 2 courses, or no user with
    the requested id. *)
Theorem collaborativeFiltering_insufficient_data
        (rt : Runtime) (db : Database) (userId : string) :
  (List.length (users db) < 2)%nat
  \/ (List.length (courses db) < 2)%nat
  \/ (forall u, In u (users db) -> u_id u <> userId) ->
  collaborativeFiltering rt db userId = [].
Proof.
  intros H. unfold collaborativeFiltering.
  destruct (List.length (users db) <? 2)%nat eqn:U; [reflexivity|].
  destruct (List.length (courses db) <? 2)%nat eqn:C; [reflexivity|].
  apply Nat.ltb_ge in U, C. simpl.
  destruct H as [H|[H|H]]; [lia | lia |].
  rewrite findIndex_none; [reflexivity|].
  intros u Hu. apply String.eqb_neq. now apply H.
Qed.

(** One user in the store. *)
Lemma collaborativeFiltering_insufficient_data_witness :
  (List.length (users Sample.twoCourses) < 2)%nat
  /\ collaborativeFiltering Sample.runtime Sample.twoCourses "u1" = [].
Proof.
  split; [simpl; lia|].
  apply collaborativeFiltering_insufficient_data. left. simpl. lia.
Defined.

Lemma fold_sum_sq_ge (v : list Q) : forall acc,
  acc <= fold_left (fun acc x => acc + x * x) v acc.
Proof.
  induction v as [|x v IH]; intros acc; simpl.
  - apply Qle_refl.
  - eapply Qle_trans; [|apply IH]. nra.
Qed.

Lemma sum_sq_nonneg (v : list Q) : 0 <= sum_sq v.
Proof. apply fold_sum_sq_ge. Qed.

(** The sum of squares vanishes on the zero vectors only. *)
Lemma sum_sq_zero_iff (v : list Q) :
  sum_sq v == 0 <-> Forall (fun x => x == 0) v.
Proof.
  unfold sum_sq.
  assert (forall acc, 0 <= acc ->
            (fold_left (fun acc x => acc + x * x) v acc == 0
             <-> acc == 0 /\ Forall (fun x => x == 0) v)) as G.
  { induction v as [|x v IH]; intros acc A; simpl.
    - split; [intros E; split; [exact E | constructor] | tauto].
    - rewrite IH by nra. split.
      + intros [E F]. assert (x == 0) by nra.
        split; [nra | now constructor].
      + intros [E F]. inversion F; subst. split; [nra | assumption]. }
  rewrite G by apply Qle_refl. intuition reflexivity.
Qed.

(** C7.  [cosineSimilarity] returns 0 when the squared norm of either
    vector is 0, that is when either is a zero vector
    ([sum_sq_zero_iff]); and, the square root of a positive number
    being positive, the one division it performs has a divisor other
    than 0. *)
Theorem cosineSimilarity_zero_norm (rt : Runtime) (vecA vecB : list Q) :
  (sum_sq vecA == 0 \/ sum_sq vecB == 0 -> cosineSimilarity rt vecA vecB = 0)
  /\ ((forall x, 0 < x -> 0 < Math_sqrt rt x) ->
      forall n d, cosineDivision rt vecA vecB = Some (n, d) -> ~ d == 0).
Proof.
  split.
  - intros H. unfold cosineSimilarity, cosineDivision.
    destruct (negb (List.length vecA =? List.length vecB)%nat); [reflexivity|].
    replace (Qeq_bool (sum_sq vecA) 0 || Qeq_bool (sum_sq vecB) 0) with true;
      [reflexivity|].
    symmetry. apply orb_true_iff.
    destruct H as [H|H]; [left | right]; now apply Qeq_bool_iff.
  - intros S n d. unfold cosineDivision.
    destruct (negb (List.length vecA =? List.length vecB)%nat); [discriminate|].
    destruct (Qeq_bool (sum_sq vecA) 0) eqn:A; [discriminate|].
    destruct (Qeq_bool (sum_sq vecB) 0) eqn:B; [discriminate|].
    simpl. intros [= _ <-].
    apply Qeq_bool_neq in A, B.
    pose proof (sum_sq_nonneg vecA) as PA.
    pose proof (sum_sq_nonneg vecB) as PB.
    assert (0 < sum_sq vecA) as LA
        by (apply Qle_lt_or_eq in PA; destruct PA as [?|E];
            [assumption | symmetry in E; contradiction]).
    assert (0 < sum_sq vecB) as LB
        by (apply Qle_lt_or_eq in PB; destruct PB as [?|E];
            [assumption | symmetry in E; contradiction]).
    apply S in LA, LB. nra.
Qed.

Lemma sqrtUp_pos (x : Q) : 0 < x -> 0 < Sample.sqrtUp x.
Proof.
  destruct x as [n d]. unfold Sample.sqrtUp, Qlt. simpl.
  destruct n as [|p|p]; try lia.
  intros _. rewrite Z.mul_1_r.
  apply Z.sqrt_up_pos. lia.
Qed.

(** A zero vector against any vector, and the divisor for the vector
    (3, 4) against itself. *)
Lemma cosineSimilarity_zero_norm_witness :
  cosineSimilarity Sample.runtime [0; 0] [1; 2] = 0
  /\ ~ Sample.sqrtUp 25 * Sample.sqrtUp 25 == 0.
Proof.
  split.
  - apply (proj1 (cosineSimilarity_zero_norm Sample.runtime [0; 0] [1; 2])).
    left. reflexivity.
  - apply (proj2 (cosineSimilarity_zero_norm Sample.runtime [3; 4] [3; 4])
                 sqrtUp_pos 25).
    reflexivity.
Defined.

End EngineClaims.

Module RequestClaims.
Import JS Aux JSFacts Engine Spec.
Local Open Scope Q_scope.

Lemma enrichRecommendations_hasCourse db recs incl :
  Forall (fun r => r_course r <> None) (enrichRecommendations db recs incl).
Proof.
  unfold enrichRecommendations. apply Forall_forall.
  intros r H. apply filter_In in H. destruct H as [_ H].
  unfold hasCourse in H. destruct (r_course r); [discriminate | discriminate H].
Qed.

Lemma cacheEnriched_set cache key v :
  cacheEnriched cache -> Forall (fun r => r_course r <> None) v ->
  cacheEnriched (CacheManager_set cache key v).
Proof.
  intros C F k' v' H. apply In_set in H.
  destruct H as [[_ ->]|H]; [exact F | exact (C _ _ H)].
Qed.

Lemma generateRecommendations_keeps_enriched rt reads cache userId options :
  cacheEnriched cache ->
  cacheEnriched (snd (generateRecommendations rt reads cache userId options)).
Proof.
  intros C. unfold generateRecommendations.
  destruct (CacheManager_get cache (cacheKeyOf rt userId options)); [exact C|].
  destruct (User_findById (atLookup reads) userId); [|exact C].
  apply cacheEnriched_set; [exact C | apply enrichRecommendations_hasCourse].
Qed.

(** A cache filled by requests alone holds only enriched lists. *)
Lemma servedBy_enriched rt cache : servedBy rt cache -> cacheEnriched cache.
Proof.
  induction 1 as [|cache reads userId options _ IH].
  - intros k v [].
  - now apply generateRecommendations_keeps_enriched.
Qed.

(** C10.  On a cache that holds only lists produced by enrichment,
    every recommendation [generateRecommendations] returns carries a
    course record, and the cache it leaves is such a cache again.  On
    a cache miss the answer is the enrichment of the first [limit]
    surviving candidates, so a candidate whose course the store no
    longer holds is dropped after the cut: in the request
    [topCourseRemoved] two candidates survive the filters, the limit is
    1, and the answer is empty. *)
Theorem generateRecommendations_course_attached :
  (forall rt reads cache userId options recs cache',
      cacheEnriched cache ->
      generateRecommendations rt reads cache userId options = (Ok recs, cache') ->
      Forall (fun r => r_course r <> None) recs /\ cacheEnriched cache')
  /\ (forall rt reads cache userId options user,
         CacheManager_get cache (cacheKeyOf rt userId options) = None ->
         User_findById (atLookup reads) userId = Some user ->
         fst (generateRecommendations rt reads cache userId options)
         = Ok (enrichRecommendations
                 (atEnrichment reads)
                 (slice0 (survivingCandidates rt reads userId user options)
                         (default 10%Z (limit options)))
                 (default true (includeExplanations options))))
  /\ (User_findById (atLookup Sample.topCourseRemoved) "u1"
      = Some Sample.learner
      /\ List.length
           (survivingCandidates Sample.runtime Sample.topCourseRemoved "u1"
                                Sample.learner Sample.limitOne) = 2%nat
      /\ limit Sample.limitOne = Some 1%Z
      /\ fst (generateRecommendations Sample.runtime Sample.topCourseRemoved
                                      [] "u1" Sample.limitOne) = Ok []).
Proof.
  split; [|split].
  - intros rt reads cache userId options recs cache' C.
    unfold generateRecommendations.
    destruct (CacheManager_get cache (cacheKeyOf rt userId options))
      as [cached|] eqn:G.
    + intros [= <- <-]. split; [|exact C].
      apply get_Some_In in G. exact (C _ _ G).
    + destruct (User_findById (atLookup reads) userId) as [user|];
        [|discriminate].
      intros [= <- <-].
      split; [apply enrichRecommendations_hasCourse|].
      apply cacheEnriched_set; [exact C | apply enrichRecommendations_hasCourse].
  - intros rt reads cache userId options user G U.
    unfold generateRecommendations. now rewrite G, U.
  - repeat split; vm_compute; reflexivity.
Qed.

(** An empty cache and the store of two courses. *)
Lemma generateRecommendations_course_attached_witness :
  cacheEnriched []
  /\ Forall (fun r => r_course r <> None)
            (match fst (generateRecommendations
                          Sample.runtime (snapshot Sample.twoCourses) [] "u1"
                          Sample.limitOne) with
             | Ok recs => recs
             | Throw _ => []
             end).
Proof.
  split; [intros k v []|].
  destruct (generateRecommendations
              Sample.runtime (snapshot Sample.twoCourses) [] "u1"
              Sample.limitOne) as [[recs|e] cache'] eqn:E; [|constructor].
  exact (proj1 (proj1 generateRecommendations_course_attached
                      Sample.runtime (snapshot Sample.twoCourses) []
                      "u1"%string Sample.limitOne recs cache'
                      (fun k v (H : In (k, v) []) => match H with end) E)).
Defined.

End RequestClaims.

(** ** Candidates and the store within one snapshot *)

Module SnapshotFacts.
Import JS Aux JSFacts Engine Spec CombineFacts DiversityFacts.
Local Open Scope Q_scope.

Lemma flat_mapM_In {A B} (f : A -> result (list B)) (l : list A) :
  forall ys y, flat_mapM f l = Ok ys -> In y ys ->
               exists x zs, In x l /\ f x = Ok zs /\ In y zs.
Proof.
  induction l as [|x l IH]; simpl; intros ys y.
  - intros [= <-] [].
  - destruct (f x) as [zs|] eqn:F; simpl; [|discriminate].
    destruct (flat_mapM f l) as [ws|] eqn:M; simpl; [|discriminate].
    intros [= <-] H. apply in_app_or in H. destruct H as [H|H].
    + exists x, zs. repeat split; [now left | assumption..].
    + destruct (IH ws y eq_refl H) as (x' & zs' & Hx & Fx & Hy).
      exists x', zs'. repeat split; [now right | assumption..].
Qed.

Lemma find_by_skill_In rt db pattern cs c :
  Course_find_by_skill rt db pattern = Ok cs -> In c cs -> In c (courses db).
Proof.
  unfold Course_find_by_skill. destruct (RegExp_i rt pattern); [|discriminate].
  intros [= <-] H. apply filter_In in H. tauto.
Qed.

Lemma collaborativeFiltering_ids rt db userId r :
  In r (collaborativeFiltering rt db userId) ->
  In (courseId r) (map c_id (courses db)).
Proof.
  unfold collaborativeFiltering.
  destruct (_ || _); [intros []|].
  destruct (findIndex _ _) as [userIndex|]; [|intros []].
  unfold generateCollaborativeRecs. rewrite in_flat_map.
  intros (i & _ & H).
  destruct (Qgtb _ 0); [destruct H|].
  destruct (fold_left _ _ _) as [weightedSum similaritySum].
  destruct (Qgtb similaritySum 0); [|destruct H].
  destruct (Qgtb _ minSimilarityThreshold); [|destruct H].
  destruct (nth_error (courses db) i) as [c|] eqn:N; [|destruct H].
  destruct H as [<-|[]]. cbn [courseId]. apply in_map. eapply nth_error_In, N.
Qed.

Lemma contentBasedFiltering_ids rt db user r :
  In r (contentBasedFiltering rt db user) ->
  In (courseId r) (map c_id (courses db)).
Proof.
  unfold contentBasedFiltering.
  destruct (courses db) as [|c0 cs] eqn:C; [intros []|].
  intros H. apply slice0_incl in H. apply sort_desc_In in H.
  apply filter_In in H. destruct H as [H _].
  apply in_map_iff in H. destruct H as (c & <- & Hc). cbn [courseId].
  now apply in_map.
Qed.

Lemma skillGap_ids rt db user rs r :
  generateSkillGapRecommendations rt db user = Ok rs -> In r rs ->
  In (courseId r) (map c_id (courses db)).
Proof.
  unfold generateSkillGapRecommendations. intros M H.
  destruct (flat_mapM_In _ _ _ _ M H) as (goal & zs & _ & F & Hz).
  destruct (negb _); [injection F as <-; destruct Hz|].
  destruct (flat_mapM_In _ _ _ _ F Hz) as (skill & ws & _ & G & Hw).
  destruct (existsb _ _); [injection G as <-; destruct Hw|].
  destruct (Course_find_by_skill rt db skill) as [cs|] eqn:Q; [|discriminate].
  simpl in G. injection G as <-. apply in_map_iff in Hw.
  destruct Hw as (c & <- & Hc). cbn [courseId]. apply in_map.
  eapply find_by_skill_In; eassumption.
Qed.

Lemma marketDrivenRecommendations_ids rt db user r :
  In r (marketDrivenRecommendations rt db user) ->
  In (courseId r) (map c_id (courses db)).
Proof.
  unfold marketDrivenRecommendations.
  destruct (flat_mapM _ trendingSkills) as [recommendations|] eqn:M;
    [|intros []].
  cbn [bind].
  assert (forall x, In x recommendations ->
                    In (courseId x) (map c_id (courses db))) as T.
  { intros x Hx.
    destruct (flat_mapM_In _ _ _ _ M Hx) as (trend & zs & _ & F & Hz).
    destruct (find _ _); [injection F as <-; destruct Hz|].
    destruct (Course_find_by_skill rt db _) as [cs|] eqn:Q; [|discriminate].
    simpl in F. injection F as <-. apply in_map_iff in Hz.
    destruct Hz as (c & <- & Hc). cbn [courseId]. apply in_map.
    eapply find_by_skill_In; eassumption. }
  destruct (match careerGoals (profile user) with
            | [] => Ok []
            | _ => generateSkillGapRecommendations rt db user
            end) as [gap|] eqn:G; [|intros []].
  cbn [bind try_catch]. intros H.
  apply slice0_incl in H. apply sort_desc_In in H.
  apply in_app_or in H. destruct H as [H|H]; [now apply T|].
  destruct (careerGoals (profile user)).
  - injection G as <-. destruct H.
  - eapply skillGap_ids; eassumption.
Qed.

Lemma behavioralRecommendations_ids db user r :
  In r (behavioralRecommendations db user) ->
  In (courseId r) (map c_id (courses db)).
Proof.
  unfold behavioralRecommendations.
  destruct (learningHistory user) as [|h hs]; [intros []|].
  intros H. apply slice0_incl in H. apply sort_desc_In in H.
  apply in_flat_map in H. destruct H as (c & Hc & H).
  apply filter_In in Hc. destruct Hc as [Hc _].
  repeat match type of H with
         | context [let '(_, _) := (if ?b then _ else _) in _] => destruct b
         end;
    match type of H with
    | In _ (if ?b then _ else _) => destruct b
    end; try destruct H as [<-|[]]; try destruct H; cbn [courseId]; now apply in_map.
Qed.

Lemma applyDiversityFilter_incl db recs df x :
  In x (applyDiversityFilter db recs df) -> In x recs.
Proof.
  rewrite applyDiversityFilter_fold. destruct recs as [|top rest]; [tauto|].
  assert (forall acc, In x (fold_left (stepWith (courseOf db) df) rest acc) ->
                      In x acc \/ In x rest) as G.
  { induction rest as [|r rest IH]; intros acc; simpl; [tauto|].
    intros H. apply IH in H. destruct H as [H|H]; [|tauto].
    apply stepWith_incl in H. intuition. }
  intros H. apply G in H. simpl in *. intuition.
Qed.

(** Every candidate that survives the filters carries the id of a
    course the scorers read. *)
Lemma survivingCandidates_ids rt reads userId user options m :
  In m (survivingCandidates rt reads userId user options) ->
  In (m_courseId m) (map c_id (courses (atScoring reads))).
Proof.
  unfold survivingCandidates. intros H.
  assert (In m (combineRecommendations
                  (scorerSources rt (atScoring reads) userId user))) as C.
  { destruct (default true (filterCompleted options)).
    - apply filter_In in H. destruct H as [H _].
      eapply applyDiversityFilter_incl, H.
    - eapply applyDiversityFilter_incl, H. }
  assert (In (m_courseId m)
             (map m_courseId
                  (combineRecommendations
                     (scorerSources rt (atScoring reads) userId user)))) as I
      by now apply in_map.
  apply combine_ids in I. destruct I as (src & r & Hs & Hr & <-).
  unfold scorerSources, weightedSources in Hs. simpl in Hs.
  destruct Hs as [<-|[<-|[<-|[<-|[]]]]]; simpl in Hr.
  - eapply collaborativeFiltering_ids, Hr.
  - eapply contentBasedFiltering_ids, Hr.
  - eapply marketDrivenRecommendations_ids, Hr.
  - eapply behavioralRecommendations_ids, Hr.
Qed.

Lemma courseOf_found db id :
  In id (map c_id (courses db)) -> courseOf db id <> None.
Proof.
  unfold courseOf. intros H N. apply in_map_iff in H.
  destruct H as (c & <- & Hc).
  apply in_rev in Hc. pose proof (find_none _ _ N c Hc) as F.
  cbv beta in F. rewrite String.eqb_refl in F. discriminate F.
Qed.

Lemma enrichRecommendations_complete db recs incl :
  (forall m, In m recs -> In (m_courseId m) (map c_id (courses db))) ->
  map r_courseId (enrichRecommendations db recs incl) = map m_courseId recs.
Proof.
  intros H. unfold enrichRecommendations.
  set (cm := courseMapOf (Course_find_by_ids db (map m_courseId recs))).
  assert (forall m, In m recs -> get cm (m_courseId m) <> None) as G.
  { intros m Hm. unfold cm. rewrite courseMap_lookup by now apply in_map.
    apply courseOf_found. now apply H. }
  clearbody cm. clear H. induction recs as [|m recs IH]; [reflexivity|].
  simpl. unfold hasCourse at 1. simpl.
  destruct (get cm (m_courseId m)) eqn:E.
  - simpl. f_equal. apply IH. intros m' Hm'. apply G. now right.
  - exfalso. apply (G m (or_introl eq_refl) E).
Qed.

(** X4.  While the store does not change during a request that
    misses the cache, enrichment drops nothing: the answer lists the
    first [limit] surviving candidates, in order. *)
Lemma snapshot_nothing_dropped rt db cache userId options user :
  CacheManager_get cache (cacheKeyOf rt userId options) = None ->
  User_findById db userId = Some user ->
  exists recs,
    fst (generateRecommendations rt (snapshot db) cache userId options) = Ok recs
    /\ map r_courseId recs
       = map m_courseId
             (slice0 (survivingCandidates rt (snapshot db) userId user options)
                     (default 10%Z (limit options))).
Proof.
  intros G U. unfold generateRecommendations. rewrite G.
  change (atLookup (snapshot db)) with db. rewrite U.
  eexists. split; [reflexivity|].
  apply enrichRecommendations_complete.
  intros m Hm. apply slice0_incl in Hm.
  apply (survivingCandidates_ids rt (snapshot db)) in Hm. exact Hm.
Qed.

(** The learner over the store of two courses, limit 1. *)
Lemma snapshot_nothing_dropped_witness :
  CacheManager_get [] (cacheKeyOf Sample.runtime "u1" Sample.limitOne) = None
  /\ User_findById Sample.twoCourses "u1" = Some Sample.learner
  /\ exists recs,
      fst (generateRecommendations Sample.runtime (snapshot Sample.twoCourses)
                                   [] "u1" Sample.limitOne) = Ok recs
      /\ map r_courseId recs
         = map m_courseId
               (slice0 (survivingCandidates Sample.runtime
                                            (snapshot Sample.twoCourses)
                                            "u1" Sample.learner Sample.limitOne)
                       (default 10%Z (limit Sample.limitOne))).
Proof.
  split; [reflexivity|]. split; [reflexivity|].
  apply (snapshot_nothing_dropped Sample.runtime Sample.twoCourses []
                                  "u1" Sample.limitOne Sample.learner);
    reflexivity.
Defined.

End SnapshotFacts.

(** ** The loops over the matches of a pattern end *)

Module RegexFacts.
Import JS Regex Aux.

Lemma strip_length ci l : forall s s',
  strip ci l s = Some s' ->
  String.length s = (String.length l + String.length s')%nat.
Proof.
  induction l as [|a l IH]; intros s s'; simpl.
  - now intros [= ->].
  - destruct s as [|b s]; [discriminate|].
    destruct (if ci then _ else _); [|discriminate].
    intros H. simpl. f_equal. now apply IH.
Qed.

Lemma many_shorter {R} p (k : string -> option R) x : forall s,
  many p s k = Some x ->
  exists s', k s' = Some x /\ (String.length s' <= String.length s)%nat.
Proof.
  induction s as [|c s IH]; simpl.
  - intros H. now exists EmptyString.
  - destruct (p c).
    + destruct (many p s k) as [y|] eqn:M.
      * intros [= ->]. destruct (IH eq_refl) as (s' & K & L).
        exists s'. split; [exact K | lia].
      * intros H. exists (String c s). split; [exact H | simpl; lia].
    + intros H. exists (String c s). split; [exact H | simpl; lia].
Qed.

(** A match consumes at least [minLength] characters. *)
Lemma matchre_minLength {R} ci r : forall s cap (k : string -> option string -> option R) x,
  matchre ci r s cap k = Some x ->
  exists s' cap',
    k s' cap' = Some x
    /\ (String.length s' + minLength r <= String.length s)%nat.
Proof.
  induction r as [|l|p|p|p|a IHa b IHb|a IHa b IHb|a IHa|a IHa];
    intros s cap k x; simpl.
  - intros H. exists s, cap. split; [exact H | lia].
  - destruct (strip ci l s) as [s'|] eqn:S; [|discriminate].
    intros H. exists s', cap. split; [exact H|].
    apply strip_length in S. lia.
  - destruct s as [|c s]; [discriminate|].
    destruct (p c); [|discriminate].
    intros H. exists s, cap. split; [exact H | simpl; lia].
  - intros H. apply many_shorter in H. destruct H as (s' & K & L).
    exists s', cap. split; [exact K | lia].
  - destruct s as [|c s]; [discriminate|].
    destruct (p c); [|discriminate].
    intros H. apply many_shorter in H. destruct H as (s' & K & L).
    exists s', cap. split; [exact K | simpl; lia].
  - intros H. apply IHa in H. destruct H as (s1 & cap1 & H & L1).
    apply IHb in H. destruct H as (s2 & cap2 & H & L2).
    exists s2, cap2. split; [exact H | lia].
  - destruct (matchre ci a s cap k) as [y|] eqn:M.
    + intros [= ->]. apply IHa in M. destruct M as (s' & cap' & K & L).
      exists s', cap'. split; [exact K | lia].
    + intros H. apply IHb in H. destruct H as (s' & cap' & K & L).
      exists s', cap'. split; [exact K | lia].
  - destruct (matchre ci a s cap k) as [y|] eqn:M.
    + intros [= ->]. apply IHa in M. destruct M as (s' & cap' & K & L).
      exists s', cap'. split; [exact K | lia].
    + intros H. exists s, cap. split; [exact H | lia].
  - intros H. apply IHa in H. destruct H as (s' & cap' & K & L).
    eexists s', _. split; [exact K | exact L].
Qed.

Lemma reMatcher_minLength ci r prev s n cap :
  reMatcher ci r prev s = Some (n, cap) -> (minLength r <= n)%nat.
Proof.
  unfold reMatcher. intros H. apply matchre_minLength in H.
  destruct H as (s' & cap' & [= <- _] & L). lia.
Qed.

Lemma reMatcher_productive ci r :
  (1 <= minLength r)%nat -> productive (reMatcher ci r).
Proof.
  intros L prev s cap H. apply reMatcher_minLength in H. lia.
Qed.

Lemma execLoopFrom_total m : productive m ->
  forall s prev idx skip, exists l, execLoopFrom m prev s idx skip = Some l.
Proof.
  intros P. induction s as [|c s IH]; intros prev idx skip.
  - destruct skip as [|skip]; simpl; [|now eexists].
    destruct (m prev EmptyString) as [[[|n] cap]|] eqn:M; try now eexists.
    exfalso. exact (P _ _ _ M).
  - destruct skip as [|skip]; simpl; [|apply IH].
    destruct (m prev (String c s)) as [[[|n] cap]|] eqn:M.
    + exfalso. exact (P _ _ _ M).
    + destruct (IH (Some c) (S idx) n) as (l & ->). now eexists.
    + apply IH.
Qed.

Lemma execLoop_total m text :
  productive m -> exists l, execLoop m text = Some l.
Proof. intros P. now apply execLoopFrom_total. Qed.

End RegexFacts.

(** ** The extraction pipeline *)

Module ExtractorClaims.
Import JS Regex Aux RegexFacts Extractor.
Local Open Scope string_scope.
Local Open Scope Q_scope.

Lemma omap_list_returns {A B} (f : A -> outcome B) (l : list A) :
  (forall x, In x l -> exists y, f x = Return y) ->
  exists ys, omap_list f l = Return ys.
Proof.
  induction l as [|x l IH]; simpl; intros H.
  - now eexists.
  - destruct (H x (or_introl eq_refl)) as (y & ->).
    destruct IH as (ys & ->); [intros z Hz; apply H; now right|].
    simpl. now eexists.
Qed.

Lemma oflat_map_returns {A B} (f : A -> outcome (list B)) (l : list A) :
  (forall x, In x l -> exists y, f x = Return y) ->
  exists ys, oflat_map f l = Return ys.
Proof.
  intros H. unfold oflat_map.
  destruct (omap_list_returns f l H) as (ys & ->). simpl. now eexists.
Qed.

Lemma skillPatterns_productive :
  forall p, In p skillPatterns -> productive (reMatcher true (snd p)).
Proof.
  assert (forallb (fun p => (1 <=? minLength (snd p))%nat) skillPatterns = true)
    as H by reflexivity.
  rewrite forallb_forall in H. intros p Hp.
  apply reMatcher_productive. apply Nat.leb_le. now apply H.
Qed.

Lemma sectionHeaders_productive :
  forall r, In r sectionHeaders -> productive (reMatcher true r).
Proof.
  assert (forallb (fun r => (1 <=? minLength r)%nat) sectionHeaders = true)
    as H by reflexivity.
  rewrite forallb_forall in H. intros r Hr.
  apply reMatcher_productive. apply Nat.leb_le. now apply H.
Qed.

(** The loops of the pattern method end on every text. *)
Lemma extractWithPatterns_returns text :
  exists l, extractWithPatterns text = Return l.
Proof.
  unfold extractWithPatterns. apply oflat_map_returns.
  intros [source pattern] H.
  destruct (execLoop_total (reMatcher true pattern) text
                           (skillPatterns_productive _ H)) as (ms & ->).
  simpl. now eexists.
Qed.

Lemma identifySkillSections_returns text :
  exists l, identifySkillSections text = Return l.
Proof.
  unfold identifySkillSections. apply oflat_map_returns.
  intros r H.
  destruct (execLoop_total (reMatcher true r) text
                           (sectionHeaders_productive _ H)) as (ms & ->).
  simpl. now eexists.
Qed.

(** The loops of the section method end on every text. *)
Lemma extractWithContext_returns text :
  exists l, extractWithContext text = Return l.
Proof.
  unfold extractWithContext.
  destruct (identifySkillSections_returns text) as (secs & ->).
  simpl. now eexists.
Qed.

(** Handed candidate objects, [combineAndDeduplicateSkills] throws at
    the first of them. *)
Lemma combineAndDeduplicateSkills_objects (c : Candidate) (l : list Candidate) :
  combineAndDeduplicateSkills (map AnObject (c :: l))
  = Raise "TypeError: skills.forEach is not a function".
Proof. reflexivity. Qed.

(** Whatever the text and the options, the answer of [extractSkills]
    is the empty list: with no candidate there is nothing to return,
    and with one the deduplication throws into the handler. *)
Lemma extractSkills_empty compromise text options :
  extractSkills compromise text options = Return [].
Proof.
  unfold extractSkills. destruct text as [s|]; [|reflexivity].
  unfold preprocessText. cbn [obind].
  set (cleanedText := trim (collapseSpaces (replaceNoise s))).
  destruct (extractWithPatterns_returns cleanedText) as (pm & ->).
  cbn [obind].
  destruct (extractWithContext_returns cleanedText) as (cm & ->).
  cbn [obind].
  destruct (extractDirectMatches cleanedText ++ pm
            ++ extractWithNLP compromise cleanedText ++ cm)%list
    as [|c l].
  - simpl. destruct (default true (includeConfidence options)); simpl;
      now rewrite JSFacts.slice0_nil.
  - rewrite combineAndDeduplicateSkills_objects. reflexivity.
Qed.

Lemma forEachElement_arrays (arrays : list (list Candidate)) : forall skillMap,
  forEachElement skillMap (map AnArray arrays)
  = Return (fold_left mergeSkill (List.concat arrays) skillMap).
Proof.
  induction arrays as [|a arrays IH]; intros skillMap; simpl.
  - reflexivity.
  - rewrite IH. now rewrite fold_left_app.
Qed.

Lemma candidatesOf_snoc key seen c :
  candidatesOf key (seen ++ [c])%list
  = (candidatesOf key seen
     ++ if String.eqb (keyOfCandidate c) key then [c] else [])%list.
Proof.
  unfold candidatesOf. rewrite filter_app. simpl.
  now destruct (String.eqb (keyOfCandidate c) key).
Qed.

Lemma mergeSkill_mergedFrom skillMap seen c :
  (forall key, mergedFrom seen key (get skillMap key)) ->
  forall key, mergedFrom (seen ++ [c])%list key (get (mergeSkill skillMap c) key).
Proof.
  intros I key. unfold mergeSkill. fold (keyOfCandidate c).
  destruct (String.eqb (keyOfCandidate c) key) eqn:E.
  - apply String.eqb_eq in E. subst key. specialize (I (keyOfCandidate c)).
    destruct (get skillMap (keyOfCandidate c)) as [existing|] eqn:G;
      rewrite JSFacts.get_set_same; unfold mergedFrom in *;
      rewrite candidatesOf_snoc, String.eqb_refl; cbn [first m_confidence methods].
    + destruct I as (K & M & F & X). split; [exact K|]. split.
      * rewrite map_app. now rewrite M.
      * destruct (Qle_bool (confidence c) (m_confidence existing)) eqn:L.
        -- apply Qle_bool_iff in L. split.
           ++ apply Forall_app. split; [exact F | now repeat constructor].
           ++ apply Exists_app. now left.
        -- apply JSFacts.Qle_bool_false in L. split.
           ++ apply Forall_app. split; [|repeat constructor; apply Qle_refl].
              eapply Forall_impl; [|exact F]. intros a Ha. simpl in Ha.
              apply Qlt_le_weak. eapply Qle_lt_trans; eassumption.
           ++ apply Exists_app. right. now constructor.
    + rewrite I. simpl. repeat split.
      * repeat constructor. apply Qle_refl.
      * now constructor.
  - pose proof E as N. apply String.eqb_neq in N.
    replace (get (match get skillMap (keyOfCandidate c) with
                  | Some existing => _
                  | None => _
                  end) key) with (get skillMap key).
    + specialize (I key). unfold mergedFrom in *.
      rewrite candidatesOf_snoc, E, app_nil_r. exact I.
    + destruct (get skillMap (keyOfCandidate c));
        now rewrite JSFacts.get_set_other.
Qed.

Lemma mergeSkill_NoDup skillMap c :
  NoDup (keys skillMap) -> NoDup (keys (mergeSkill skillMap c)).
Proof.
  intros ND. unfold mergeSkill.
  destruct (get skillMap (toLowerCase (name c)));
    now apply JSFacts.NoDup_keys_set.
Qed.

Lemma fold_mergeSkill_inv rest : forall skillMap seen,
  NoDup (keys skillMap) ->
  (forall key, mergedFrom seen key (get skillMap key)) ->
  let skillMap' := fold_left mergeSkill rest skillMap in
  NoDup (keys skillMap')
  /\ forall key, mergedFrom (seen ++ rest)%list key (get skillMap' key).
Proof.
  induction rest as [|c rest IH]; intros skillMap seen ND I; simpl.
  - rewrite app_nil_r. now split.
  - destruct (IH (mergeSkill skillMap c) (seen ++ [c])%list
                 (mergeSkill_NoDup _ c ND)
                 (mergeSkill_mergedFrom _ _ c I)) as (ND' & I').
    split; [exact ND'|]. intros key.
    rewrite <- app_assoc in I'. exact (I' key).
Qed.

(** Handed arrays of candidates, [combineAndDeduplicateSkills] does
    what C1 describes: one entry per lowercase name, for exactly the
    names the arrays hold; the confidence of an entry is the greatest
    of the confidences of its name, and [methods] lists the method of
    every candidate of the name, in order. *)
Lemma combineAndDeduplicateSkills_arrays (arrays : list (list Candidate)) :
  exists merged,
    combineAndDeduplicateSkills (map AnArray arrays) = Return merged
    /\ NoDup (map keyOf merged)
    /\ (forall c, In c (List.concat arrays) ->
                   In (keyOfCandidate c) (map keyOf merged))
    /\ (forall m, In m merged ->
           let same := candidatesOf (keyOf m) (List.concat arrays) in
           methods m = map method same
           /\ Forall (fun c => confidence c <= m_confidence m) same
           /\ Exists (fun c => m_confidence m = confidence c) same).
Proof.
  unfold combineAndDeduplicateSkills. rewrite forEachElement_arrays.
  cbn [obind]. eexists. split; [reflexivity|].
  destruct (fold_mergeSkill_inv (List.concat arrays) [] []
              ltac:(constructor) ltac:(intros key; reflexivity))
    as (ND & I).
  cbn [app] in I.
  set (skillMap := fold_left mergeSkill (List.concat arrays) []) in *.
  assert (forall k m, In (k, m) skillMap -> keyOf m = k) as K.
  { intros k m H. apply (JSFacts.In_get _ _ _ ND) in H.
    specialize (I k). rewrite H in I. apply I. }
  assert (map keyOf (values skillMap) = keys skillMap) as KS.
  { unfold values, keys. rewrite map_map. apply map_ext_in.
    intros [k m] H. simpl. now apply K. }
  split; [now rewrite KS|]. split.
  - intros c Hc. rewrite KS.
    specialize (I (keyOfCandidate c)).
    destruct (get skillMap (keyOfCandidate c)) as [m|] eqn:G.
    + apply JSFacts.get_Some_In in G.
      change (keyOfCandidate c) with (fst (keyOfCandidate c, m)).
      now apply in_map.
    + exfalso. unfold mergedFrom in I.
      assert (In c (candidatesOf (keyOfCandidate c) (List.concat arrays))) as H.
      { apply filter_In. split; [exact Hc | apply String.eqb_refl]. }
      rewrite I in H. destruct H.
  - intros m Hm. unfold values in Hm. apply in_map_iff in Hm.
    destruct Hm as ([k m'] & E & H). simpl in E. subst m'.
    pose proof (K _ _ H) as Ek.
    apply (JSFacts.In_get _ _ _ ND) in H.
    specialize (I k). rewrite H in I. rewrite Ek.
    destruct I as (_ & M & F & X). now repeat split.
Qed.

(** C1 (the code departs from it).  On the text "Skills: python" the
    direct match finds python with confidence 0.9 and the section
    method finds it with confidence 0.8.  Handed the four arrays of the
    methods, as the implementation guide of the repository calls it,
    [combineAndDeduplicateSkills] merges them into one entry of
    confidence 0.9 with both methods; [extractSkills] hands it the
    candidates themselves, the deduplication throws, and the answer is
    the empty list, with no entry for python at all. *)
Theorem extractSkills_merged_skill_lost :
  let text := "Skills: python" in
  let direct := extractDirectMatches text in
  preprocessText (Str text) = Return text
  /\ map (fun c => (name c, method c)) direct = [("python", "direct_match")]
  /\ Forall (fun c => confidence c == 0.9) direct
  /\ extractWithPatterns text = Return []
  /\ (exists section,
         extractWithContext text = Return section
         /\ map (fun c => (name c, method c)) section
            = [("python", "section_extraction")]
         /\ Forall (fun c => confidence c == 0.8) section
         /\ exists merged,
             combineAndDeduplicateSkills
               [AnArray direct; AnArray []; AnArray []; AnArray section]
             = Return merged
             /\ map (fun m => (name (first m), methods m)) merged
                = [("python", ["direct_match"; "section_extraction"])]
             /\ Forall (fun m => m_confidence m == 0.9) merged)
  /\ extractSkills Sample.noNLP (Str text) Sample.defaults = Return [].
Proof.
  cbv zeta. split; [reflexivity|]. split; [reflexivity|].
  split; [repeat constructor|]. split; [reflexivity|]. split.
  - eexists. split; [vm_compute; reflexivity|].
    split; [reflexivity|]. split; [repeat constructor|].
    eexists. split; [vm_compute; reflexivity|].
    split; [reflexivity | repeat constructor].
  - apply extractSkills_empty.
Qed.

(** C2 (the code departs from it).  [extractSkills] never throws and
    never loops, and answers the empty list to a value that is no
    string and to the empty text; but it answers the empty list to
    every text.  When the NLP library fails on the text "python", the
    NLP method yields no candidate and the direct match still finds
    python, yet nothing is returned. *)
Theorem extractSkills_other_methods_lost :
  (forall compromise text options,
      extractSkills compromise text options = Return [])
  /\ extractWithNLP Sample.failingNLP "python" = []
  /\ map (fun c => (name c, method c)) (extractDirectMatches "python")
     = [("python", "direct_match")]
  /\ extractSkills Sample.failingNLP (Str "python") Sample.defaults = Return [].
Proof.
  split; [apply extractSkills_empty|]. split; [reflexivity|].
  split; [reflexivity | apply extractSkills_empty].
Qed.

End ExtractorClaims.

(** ** Level inference *)

Module LevelClaims.
Import JS Regex Aux Extractor Spec.
Local Open Scope string_scope.
Local Open Scope Q_scope.








(** *** Texts that state a whole number of years *)
































(** A number with a decimal point is read from the digits before
    "years": half a year counts as five years. *)
Lemma analyzeSkillLevel_decimal_years :
  analyzeSkillLevel "0.5 years of python" "python" = Return Expert
  /\ analyzeSkillLevel "3 years of python" "python" = Return Advanced
  /\ ~ Level_le Expert Advanced.
Proof.
  split; [reflexivity|]. split; [reflexivity|].
  unfold Level_le. simpl. lia.
Qed.

End LevelClaims.

(** ** Confidences of the candidates *)

Module ConfidenceFacts.
Import JS Regex Aux Extractor ExtractorClaims.
Local Open Scope string_scope.
Local Open Scope Q_scope.

Lemma Qnat_nonneg n : 0 <= Qnat n.
Proof.
  unfold Qnat, Qle. simpl. lia.
Qed.

Lemma Qnat_le m n : (m <= n)%nat -> Qnat m <= Qnat n.
Proof.
  intros L. unfold Qnat, Qle. simpl. lia.
Qed.

(** A part of a count over the whole count. *)
Lemma Qnat_ratio m n : (m <= n)%nat -> unitRange (Qnat m / Qnat n).
Proof.
  intros L. destruct n as [|n].
  - assert (m = O) as -> by lia. split; discriminate.
  - assert (0 < Qnat (S n)) as P by (unfold Qnat, Qlt; simpl; lia).
    split.
    + apply Qle_shift_div_l; [exact P|]. rewrite Qmult_0_l. apply Qnat_nonneg.
    + apply Qle_shift_div_r; [exact P|]. rewrite Qmult_1_l. now apply Qnat_le.
Qed.

Lemma uniqueChars_app_length a b : forall seen,
  (List.length (uniqueChars seen a)
   <= List.length (uniqueChars seen (a ++ b)))%nat.
Proof.
  induction a as [|c a IH]; intros seen; simpl; [lia|].
  destruct (existsb (Ascii.eqb c) seen); simpl; [apply IH|].
  apply le_n_S, IH.
Qed.

Lemma calculateStringSimilarity_range a b :
  unitRange (calculateStringSimilarity a b).
Proof.
  unfold calculateStringSimilarity. apply Qnat_ratio.
  eapply Nat.le_trans; [apply filter_length_le|].
  apply uniqueChars_app_length.
Qed.

Lemma findBestSkillMatch_range term skill similarity :
  findBestSkillMatch term = Some (skill, similarity) -> unitRange similarity.
Proof.
  unfold findBestSkillMatch.
  assert (forall l st,
             (forall s q, fst st = Some (s, q) -> unitRange q) ->
             forall s q,
               fst (fold_left
                      (fun '(bestMatch, bestSimilarity) skill =>
                         let similarity :=
                           calculateStringSimilarity term (toLowerCase skill) in
                         if Qgtb similarity bestSimilarity && Qgtb similarity 0.7
                         then (Some (skill, similarity), similarity)
                         else (bestMatch, bestSimilarity))
                      l st) = Some (s, q) -> unitRange q) as G.
  { induction l as [|x l IH]; intros [best sim] I s q; simpl.
    - apply I.
    - apply IH. destruct (_ && _); simpl; [|exact I].
      intros s' q' [= _ <-]. apply calculateStringSimilarity_range. }
  apply (G allSkills (None, 0)). simpl. discriminate.
Qed.

Lemma unitRange_scale w q :
  unitRange w -> unitRange q -> unitRange (w * q).
Proof.
  unfold unitRange. intros [W0 W1] [Q0 Q1]. split; nra.
Qed.

Lemma Forall_flat_map {A B} (P : B -> Prop) (f : A -> list B) (l : list A) :
  (forall x, In x l -> Forall P (f x)) -> Forall P (flat_map f l).
Proof.
  intros H. apply Forall_forall. intros y Hy. apply in_flat_map in Hy.
  destruct Hy as (x & Hx & Hy). specialize (H x Hx).
  rewrite Forall_forall in H. now apply H.
Qed.

Lemma extractDirectMatches_range text :
  Forall (fun c => unitRange (confidence c)) (extractDirectMatches text).
Proof.
  unfold extractDirectMatches. apply Forall_flat_map. intros skill _.
  apply Forall_app. split.
  - destruct (includes _ _); [|constructor].
    destruct (countMatches _ _); repeat constructor; discriminate.
  - destruct (includes skill " "); [|constructor].
    destruct (Qle_bool _ _); repeat constructor; cbn [confidence].
    + apply Qmult_le_0_compat; [discriminate|].
      apply (Qnat_ratio _ _ (filter_length_le _ _)).
    + destruct (Qnat_ratio _ _ (filter_length_le
                   (fun word => includes (toLowerCase text) (toLowerCase word))
                   (splitOn (Ascii.eqb " ") skill))) as [_ H].
      nra.
Qed.

Lemma omap_list_Forall {A B} (P : B -> Prop) (f : A -> outcome B) (l : list A) :
  (forall x y, In x l -> f x = Return y -> P y) ->
  forall ys, omap_list f l = Return ys -> Forall P ys.
Proof.
  induction l as [|x l IH]; simpl; intros H ys.
  - intros [= <-]. constructor.
  - destruct (f x) as [y| |] eqn:F; simpl; try discriminate.
    destruct (omap_list f l) as [zs| |] eqn:M; simpl; try discriminate.
    intros [= <-]. constructor.
    + eapply H; [now left | exact F].
    + apply IH; [|reflexivity]. intros x' y' Hx'. apply H. now right.
Qed.

Lemma Forall_concat {B} (P : B -> Prop) (ls : list (list B)) :
  Forall (Forall P) ls -> Forall P (List.concat ls).
Proof.
  induction 1; simpl; [constructor | now apply Forall_app].
Qed.

Lemma extractWithPatterns_range text l :
  extractWithPatterns text = Return l ->
  Forall (fun c => unitRange (confidence c)) l.
Proof.
  unfold extractWithPatterns, oflat_map.
  destruct (omap_list _ skillPatterns) as [ls| |] eqn:M; simpl; try discriminate.
  intros [= <-]. apply Forall_concat.
  refine (omap_list_Forall _ _ _ _ _ M).
  intros [source pattern] y _.
  destruct (ofLoop (execLoop (reMatcher true pattern) text)) as [ms| |];
    simpl; try discriminate.
  intros [= <-]. apply Forall_flat_map. intros m _.
  apply Forall_forall. intros c Hc. apply in_map_iff in Hc.
  destruct Hc as (s & <- & _). cbn [confidence]. split; discriminate.
Qed.

Lemma extractWithNLP_range compromise text :
  Forall (fun c => unitRange (confidence c)) (extractWithNLP compromise text).
Proof.
  unfold extractWithNLP. destruct (compromise text); [|constructor].
  apply Forall_flat_map. intros term _.
  destruct (findBestSkillMatch _) as [[skill similarity]|] eqn:F;
    [|constructor].
  repeat constructor; cbn [confidence];
    destruct (findBestSkillMatch_range _ _ _ F); nra.
Qed.

Lemma extractFromSection_range section :
  unitRange (s_confidence section) ->
  Forall (fun c => unitRange (confidence c)) (extractFromSection section).
Proof.
  intros S. unfold extractFromSection. apply Forall_flat_map. intros item _.
  destruct (isValidSkill _); [|constructor].
  destruct (findBestSkillMatch _) as [[skill similarity]|] eqn:F;
    [|constructor].
  constructor; [|constructor]. cbn [confidence].
  apply unitRange_scale;
    [exact S | exact (findBestSkillMatch_range _ _ _ F)].
Qed.

Lemma extractWithContext_range text l :
  extractWithContext text = Return l ->
  Forall (fun c => unitRange (confidence c)) l.
Proof.
  unfold extractWithContext, identifySkillSections, oflat_map.
  destruct (omap_list _ sectionHeaders) as [ls| |] eqn:M; simpl; try discriminate.
  intros [= <-]. apply Forall_flat_map. intros section Hs.
  apply extractFromSection_range.
  assert (Forall (fun s => s_confidence s = 0.8) (List.concat ls)) as C.
  { apply Forall_concat. refine (omap_list_Forall _ _ _ _ _ M).
    intros r y _. cbv beta.
    destruct (ofLoop (execLoop (reMatcher true r) text)) as [ms| |];
      simpl; try discriminate.
    intros [= <-]. apply Forall_flat_map. intros m _.
    destruct (_ <? _)%nat; repeat constructor. }
  rewrite Forall_forall in C. rewrite (C _ Hs). split; discriminate.
Qed.

(** What C1 describes holds of the deduplication handed the arrays of
    the four methods: it returns one entry per lowercase name, each
    with a confidence in [0,1]. *)
Lemma combineAndDeduplicateSkills_of_methods compromise text :
  exists patternMatches contextMatches merged,
    extractWithPatterns text = Return patternMatches
    /\ extractWithContext text = Return contextMatches
    /\ combineAndDeduplicateSkills
         [ AnArray (extractDirectMatches text); AnArray patternMatches;
           AnArray (extractWithNLP compromise text); AnArray contextMatches ]
       = Return merged
    /\ NoDup (map keyOf merged)
    /\ Forall (fun m => unitRange (m_confidence m)) merged.
Proof.
  destruct (extractWithPatterns_returns text) as (pm & P).
  destruct (extractWithContext_returns text) as (cm & C).
  destruct (combineAndDeduplicateSkills_arrays
              [ extractDirectMatches text; pm;
                extractWithNLP compromise text; cm ])
    as (merged & E & ND & _ & M).
  exists pm, cm, merged. repeat split; try assumption.
  apply Forall_forall. intros m Hm.
  destruct (M m Hm) as (_ & _ & X). apply Exists_exists in X.
  destruct X as (c & Hc & ->). unfold candidatesOf in Hc.
  apply filter_In in Hc. destruct Hc as [Hc _].
  assert (Forall (fun c => unitRange (confidence c))
                 (List.concat [ extractDirectMatches text; pm;
                                extractWithNLP compromise text; cm ])) as F.
  { apply Forall_concat. repeat constructor.
    - apply extractDirectMatches_range.
    - now apply extractWithPatterns_range with (text := text).
    - apply extractWithNLP_range.
    - now apply extractWithContext_range with (text := text). }
  rewrite Forall_forall in F. now apply F.
Qed.

End ConfidenceFacts.

(** ** Further properties of the recommendation engine *)

Module EngineExtras.
Import JS Aux JSFacts Engine Spec CombineFacts DiversityFacts.
Local Open Scope Q_scope.

Lemma insert_desc_descending {A} (key : A -> Q) (x : A) (l : list A) :
  descending key l -> descending key (insert_desc key x l).
Proof.
  unfold descending. induction l as [|y l IH]; simpl; intros S.
  - repeat constructor.
  - apply StronglySorted_inv in S. destruct S as [S F].
    destruct (Qle_bool (key y) (key x)) eqn:E.
    + apply Qle_bool_iff in E. constructor.
      * now constructor.
      * constructor; [exact E|].
        eapply Forall_impl; [|exact F]. intros z Hz. simpl in Hz.
        eapply Qle_trans; eassumption.
    + apply Qle_bool_false in E. constructor; [now apply IH|].
      apply Forall_forall. intros z Hz.
      apply (Permutation_in _ (insert_desc_perm key x l)) in Hz.
      destruct Hz as [<-|Hz]; [now apply Qlt_le_weak|].
      rewrite Forall_forall in F. now apply F.
Qed.

Lemma sort_desc_descending {A} (key : A -> Q) (l : list A) :
  descending key (sort_desc key l).
Proof.
  induction l as [|x l IH]; simpl; [constructor|].
  now apply insert_desc_descending.
Qed.

Lemma combineStep_sources src m r id :
  sourcesOf (combineStep src m r) id
  = sourcesOf m id
    ++ (if String.eqb (courseId r) id then [sourceEntry src r] else []).
Proof.
  unfold sourcesOf, combineStep.
  destruct (String.eqb (courseId r) id) eqn:E.
  - apply String.eqb_eq in E. subst id.
    destruct (get m (courseId r)); now rewrite get_set_same.
  - apply String.eqb_neq in E.
    destruct (get m (courseId r)); rewrite (get_set_other _ _ _ _ E);
      now rewrite app_nil_r.
Qed.

Lemma foldOccurrences_sources occ : forall m id,
  sourcesOf (foldOccurrences occ m) id = sourcesOf m id ++ entriesOf id occ.
Proof.
  induction occ as [|[src r] occ IH]; intros m id; simpl.
  - unfold entriesOf. simpl. now rewrite app_nil_r.
  - unfold foldOccurrences in *. simpl. rewrite IH, combineStep_sources.
    unfold entriesOf. simpl.
    destruct (String.eqb (courseId r) id); simpl;
      now rewrite <- app_assoc.
Qed.

(** X1.  The list [combineRecommendations] returns is in descending
    order of score, and the sources of each entry are the records
    (source type, score, reason) of every candidate of that course,
    in the order the sources and their candidates were given. *)
Theorem combineRecommendations_sorted_with_sources (sources : list Source) :
  descending m_score (combineRecommendations sources)
  /\ forall m, In m (combineRecommendations sources) ->
               m_sources m = entriesOf (m_courseId m) (occurrences sources).
Proof.
  rewrite combineRecommendations_unfold. split.
  - apply sort_desc_descending.
  - intros m Hm. apply sort_desc_In in Hm.
    destruct (combinedMap_inv sources) as (K & ND & _).
    unfold values in Hm. apply in_map_iff in Hm.
    destruct Hm as ([k v] & <- & H). simpl.
    assert (m_courseId v = k) as E
        by (unfold keyed in K; rewrite Forall_forall in K; exact (K _ H)).
    pose proof (foldOccurrences_sources (occurrences sources) [] k) as S.
    unfold sourcesOf in S. fold (combinedMap sources) in S.
    rewrite (In_get _ _ _ ND H) in S. simpl in S. now rewrite E.
Qed.

Lemma subseq_refl {A} (l : list A) : subseq l l.
Proof. induction l; constructor; assumption. Qed.

Lemma subseq_snoc {A} (l1 l2 : list A) (x : A) :
  subseq l1 l2 -> subseq l1 (l2 ++ [x]) /\ subseq (l1 ++ [x]) (l2 ++ [x]).
Proof.
  induction 1 as [|y l1 l2 _ [IH1 IH2]|y l1 l2 _ [IH1 IH2]]; simpl.
  - split; [apply subseq_skip, subseq_nil | apply subseq_keep, subseq_nil].
  - split; now apply subseq_skip.
  - split; now apply subseq_keep.
Qed.

Lemma ForallOrdPairs_snoc {A} (R : A -> A -> Prop) (l : list A) (c : A) :
  ForallOrdPairs R l -> (forall s, In s l -> R s c) ->
  ForallOrdPairs R (l ++ [c]).
Proof.
  induction 1 as [|a l F _ IH]; simpl; intros H.
  - repeat constructor.
  - constructor.
    + apply Forall_app. split; [exact F|].
      constructor; [|constructor]. apply H. now left.
    + apply IH. intros s Hs. apply H. now right.
Qed.

Lemma stepWith_cases db df acc c :
  stepWith (courseOf db) df acc c = acc
  \/ (stepWith (courseOf db) df acc c = acc ++ [c]
      /\ found db (m_courseId c) = true
      /\ forall s, In s acc -> withinBound db df s c).
Proof.
  unfold stepWith, found.
  destruct (courseOf db (m_courseId c)) as [cc|] eqn:C; [|now left].
  match goal with |- context [if ?b then _ else _] => destruct b eqn:F end;
    [right | now left].
  repeat split. intros s Hs ce cl Es Ec.
  rewrite C in Ec. injection Ec as Ec. subst cl.
  rewrite forallb_forall in F. specialize (F s Hs). rewrite Es in F.
  now apply Qle_bool_iff.
Qed.

Lemma fold_stepWith_inv db df rest : forall top t pre,
  subseq (top :: t) pre ->
  ForallOrdPairs (withinBound db df) (top :: t) ->
  Forall (fun m => found db (m_courseId m) = true) t ->
  let out := fold_left (stepWith (courseOf db) df) rest (top :: t) in
  subseq out (pre ++ rest)
  /\ ForallOrdPairs (withinBound db df) out
  /\ Forall (fun m => found db (m_courseId m) = true) (tl out).
Proof.
  induction rest as [|c rest IH]; intros top t pre S P F; simpl.
  - rewrite app_nil_r. now repeat split.
  - destruct (stepWith_cases db df (top :: t) c) as [->|(-> & Fc & W)].
    + destruct (IH top t (pre ++ [c]) (proj1 (subseq_snoc _ _ c S)) P F)
        as (S' & P' & F').
      rewrite <- app_assoc in S'. now repeat split.
    + destruct (IH top (t ++ [c]) (pre ++ [c])
                   (proj2 (subseq_snoc _ _ c S))
                   (ForallOrdPairs_snoc _ _ _ P W)
                   ltac:(apply Forall_app; split; [exact F | now repeat constructor]))
        as (S' & P' & F').
      rewrite <- app_assoc in S'. now repeat split.
Qed.

(** X2.  What the diversity filter returns is its input with some
    candidates left out, the order kept.  Of any two candidates it
    returns whose course records are found, the later has a course
    similarity to the earlier of at most 1 - diversityFactor; and
    every candidate it returns after the first has its course record
    in the store. *)
Theorem applyDiversityFilter_pairwise
        (db : Database) (recs : list Combined) (diversityFactor : Q) :
  let out := applyDiversityFilter db recs diversityFactor in
  subseq out recs
  /\ ForallOrdPairs (withinBound db diversityFactor) out
  /\ Forall (fun m => found db (m_courseId m) = true) (tl out).
Proof.
  cbv zeta. rewrite applyDiversityFilter_fold.
  destruct recs as [|top rest].
  - repeat constructor.
  - apply (fold_stepWith_inv db diversityFactor rest top [] [top]).
    + apply subseq_refl.
    + repeat constructor.
    + constructor.
Qed.

Lemma Qmin_le_l a b : Qmin a b <= a.
Proof.
  unfold Qmin. destruct (Qle_bool a b) eqn:E; [apply Qle_refl|].
  apply Qle_bool_false in E. now apply Qlt_le_weak.
Qed.

Lemma Qmin_le_r a b : Qmin a b <= b.
Proof.
  unfold Qmin. destruct (Qle_bool a b) eqn:E; [|apply Qle_refl].
  now apply Qle_bool_iff.
Qed.

Lemma courseOf_id db id c : courseOf db id = Some c -> c_id c = id.
Proof.
  unfold courseOf. intros H. apply find_some in H.
  now apply String.eqb_eq.
Qed.

(** X3.  Enrichment keeps the order of the candidates and returns
    exactly those whose course record is found; each recommendation
    has the courseId and score of its candidate and a course record
    with that id.  The explanation is there exactly when
    [includeExplanations] holds, with the sources of the candidate and
    a confidence that is at most 1 and at most the score. *)
Theorem enrichRecommendations_attaches
        (db : Database) (recs : list Combined) (includeExplanations : bool) :
  let out := enrichRecommendations db recs includeExplanations in
  map r_courseId out = filter (found db) (map m_courseId recs)
  /\ Forall (fun r =>
               exists m c,
                 In m recs /\ r_courseId r = m_courseId m
                 /\ r_score r = m_score m
                 /\ r_course r = Some c /\ c_id c = r_courseId r
                 /\ match r_explanation r with
                    | Some e => includeExplanations = true
                                /\ e_sources e = m_sources m
                                /\ confidence e <= 1
                                /\ confidence e <= r_score r
                    | None => includeExplanations = false
                    end)
            out.
Proof.
  cbv zeta. unfold enrichRecommendations.
  set (cm := courseMapOf (Course_find_by_ids db (map m_courseId recs))).
  assert (forall m, In m recs -> get cm (m_courseId m) = courseOf db (m_courseId m))
    as G.
  { intros m Hm. unfold cm. apply courseMap_lookup. now apply in_map. }
  clearbody cm. split.
  - induction recs as [|m recs IH]; [reflexivity|].
    simpl. unfold hasCourse at 1, found at 1. cbn [r_course enrich].
    rewrite (G m (or_introl eq_refl)).
    destruct (courseOf db (m_courseId m)); simpl;
      [f_equal|]; apply IH; intros m' Hm'; apply G; now right.
  - apply Forall_forall. intros r Hr. apply filter_In in Hr.
    destruct Hr as [Hr C]. apply in_map_iff in Hr.
    destruct Hr as (m & <- & Hm). unfold hasCourse in C. cbn [r_course enrich] in *.
    rewrite (G m Hm) in *.
    destruct (courseOf db (m_courseId m)) as [c|] eqn:E; [|discriminate].
    exists m, c. repeat split; try assumption.
    + now apply courseOf_id with (db := db).
    + destruct includeExplanations; cbn; [|reflexivity].
      repeat split; [apply Qmin_le_r | apply Qmin_le_l].
Qed.



(** X6.  On a cache miss for a known user the answer holds at most
    [limit] recommendations when [limit] is not negative; a negative
    [limit] of -k does not empty the answer but cuts the last k of the
    surviving candidates off before enrichment. *)
Theorem generateRecommendations_respects_limit
        (rt : Runtime) (reads : Reads) (cache : Cache) (userId : string)
        (options : Options) (user : User) (recs : list Recommendation) :
  CacheManager_get cache (cacheKeyOf rt userId options) = None ->
  User_findById (atLookup reads) userId = Some user ->
  fst (generateRecommendations rt reads cache userId options) = Ok recs ->
  let limit := default 10%Z (limit options) in
  let survivors := survivingCandidates rt reads userId user options in
  ((0 <= limit)%Z -> (Z.of_nat (List.length recs) <= limit)%Z)
  /\ ((limit < 0)%Z ->
      recs = enrichRecommendations
               (atEnrichment reads)
               (firstn (List.length survivors - Z.to_nat (- limit)) survivors)
               (default true (includeExplanations options))).
Proof.
  intros G U. unfold generateRecommendations. rewrite G, U. cbn [fst].
  intros [= <-]. cbv zeta. split; intros L.
  - unfold enrichRecommendations.
    eapply Z.le_trans; [apply Nat2Z.inj_le, filter_length_le|].
    rewrite length_map. unfold slice0.
    replace (0 <=? default 10%Z (limit options))%Z with true
      by (symmetry; now apply Z.leb_le).
    eapply Z.le_trans; [apply Nat2Z.inj_le, firstn_le_length|].
    rewrite Z2Nat.id by exact L. apply Z.le_refl.
  - unfold slice0.
    replace (0 <=? default 10%Z (limit options))%Z with false
      by (symmetry; apply Z.leb_gt; exact L).
    do 2 f_equal. lia.
Qed.

(** The learner over the store of two courses, limit 1. *)
Lemma generateRecommendations_respects_limit_witness :
  exists recs,
    fst (generateRecommendations Sample.runtime (snapshot Sample.twoCourses)
                                 [] "u1" Sample.limitOne) = Ok recs
    /\ (Z.of_nat (List.length recs) <= 1)%Z.
Proof.
  destruct (fst (generateRecommendations
                   Sample.runtime (snapshot Sample.twoCourses)
                   [] "u1" Sample.limitOne)) as [recs|e] eqn:E;
    [|vm_compute in E; discriminate E].
  exists recs. split; [reflexivity|].
  apply (proj1 (generateRecommendations_respects_limit
                  Sample.runtime (snapshot Sample.twoCourses) [] "u1"
                  Sample.limitOne Sample.learner recs
                  eq_refl eq_refl E)).
  simpl. lia.
Defined.

End EngineExtras.
(** ** Further properties of the four scorers *)

Module ScorerFacts.
Import JS Aux JSFacts Engine SnapshotFacts ConfidenceFacts.
Local Open Scope Q_scope.

Lemma Qgtb_true a b : Qgtb a b = true -> b < a.
Proof.
  unfold Qgtb. intros H. apply negb_true_iff in H.
  now apply Qle_bool_false.
Qed.

Lemma Qgtb_false a b : Qgtb a b = false -> a <= b.
Proof.
  unfold Qgtb. intros H. apply negb_false_iff in H.
  now apply Qle_bool_iff.
Qed.

Lemma descending_firstn {A} (key : A -> Q) (l : list A) : forall n,
  descending key l -> descending key (firstn n l).
Proof.
  unfold descending. induction l as [|x l IH]; intros [|n] S; simpl;
    try constructor.
  - apply IH. now apply StronglySorted_inv in S.
  - apply StronglySorted_inv in S. destruct S as [_ F].
    rewrite Forall_forall in *. intros y Hy. apply F.
    now apply (firstn_incl n).
Qed.

Lemma descending_slice0 {A} (key : A -> Q) (l : list A) (e : Z) :
  descending key l -> descending key (slice0 l e).
Proof. unfold slice0. destruct (0 <=? e)%Z; apply descending_firstn. Qed.

Lemma slice0_length {A} (l : list A) (e : Z) :
  (0 <= e)%Z -> (List.length (slice0 l e) <= Z.to_nat e)%nat.
Proof.
  intros H. unfold slice0.
  replace (0 <=? e)%Z with true by (symmetry; now apply Z.leb_le).
  apply firstn_le_length.
Qed.

Lemma NoDup_firstn {A} (l : list A) (n : nat) :
  NoDup l -> NoDup (firstn n l).
Proof.
  intros H. rewrite <- (firstn_skipn n l) in H.
  now apply NoDup_app_remove_r in H.
Qed.

Lemma NoDup_slice0 {A} (l : list A) (e : Z) : NoDup l -> NoDup (slice0 l e).
Proof. unfold slice0. destruct (0 <=? e)%Z; apply NoDup_firstn. Qed.

Lemma map_slice0 {A B} (f : A -> B) (l : list A) (e : Z) :
  map f (slice0 l e) = slice0 (map f l) e.
Proof.
  unfold slice0. rewrite length_map.
  destruct (0 <=? e)%Z; symmetry; apply firstn_map.
Qed.

(** A stable sort leaves a list of equal keys as it is. *)
Lemma sort_desc_flat {A} (key : A -> Q) (k : Q) (l : list A) :
  Forall (fun x => key x == k) l -> sort_desc key l = l.
Proof.
  induction 1 as [|x l Hx F IH]; simpl; [reflexivity|].
  rewrite IH. destruct F as [|y l Hy F]; simpl; [reflexivity|].
  replace (Qle_bool (key y) (key x)) with true; [reflexivity|].
  symmetry. apply Qle_bool_iff. rewrite Hx, Hy. apply Qle_refl.
Qed.

Lemma findIndex_Some {A} (p : A -> bool) (l : list A) : forall i,
  findIndex p l = Some i ->
  exists x, nth_error l i = Some x /\ p x = true.
Proof.
  induction l as [|x l IH]; simpl; intros i H; [discriminate|].
  destruct (p x) eqn:P.
  - injection H as <-. now exists x.
  - destruct (findIndex p l) as [j|]; [|discriminate].
    injection H as <-. now apply IH.
Qed.

Lemma set_nth_length row : forall i v,
  List.length (set_nth row i v) = List.length row.
Proof.
  induction row as [|x row IH]; intros [|i] v; simpl; auto.
Qed.

Lemma set_nth_Forall (P : Q -> Prop) row : forall i v,
  P v -> Forall P row -> Forall P (set_nth row i v).
Proof.
  induction row as [|x row IH]; intros [|i] v Pv F; simpl; auto;
    inversion F; subst; constructor; auto.
Qed.

Lemma set_nth_other row : forall i j v,
  i <> j -> nth j (set_nth row i v) 0 = nth j row 0.
Proof.
  induction row as [|x row IH]; intros [|i] [|j] v N; simpl; auto;
    try congruence.
Qed.

Lemma interactionWeight_cap h : interactionWeight h <= 2.
Proof.
  unfold interactionWeight, Qmin.
  match goal with |- (if Qle_bool ?a ?b then _ else _) <= _ =>
    destruct (Qle_bool a b) eqn:E end; [|apply Qle_refl].
  now apply Qle_bool_iff.
Qed.

Lemma fillRow_inv courses (P : list Q -> Prop) history :
  (forall row h i, P row ->
                   findIndex (fun c => String.eqb (c_id c) (h_courseId h))
                             courses = Some i ->
                   In h history ->
                   P (set_nth row i (interactionWeight h))) ->
  forall row, P row -> P (fold_left (fillRow courses) history row).
Proof.
  induction history as [|h history IH]; intros step row Prow; simpl;
    [exact Prow|].
  apply IH.
  - intros row' h' i Prow' F I. apply step; auto. now right.
  - unfold fillRow.
    destruct (findIndex _ courses) as [i|] eqn:F; [|exact Prow].
    apply step; auto. now left.
Qed.

Lemma buildInteractionMatrix_unfold users courses :
  buildInteractionMatrix users courses
  = map (fun user => fold_left (fillRow courses) (learningHistory user)
                               (repeat 0 (List.length courses)))
        users.
Proof. reflexivity. Qed.

Lemma nth_repeat_zero n j : nth j (repeat 0 n) 0 = 0.
Proof.
  revert j. induction n as [|n IH]; intros [|j]; simpl; auto.
Qed.

Lemma buildInteractionMatrix_rows users courses row :
  In row (buildInteractionMatrix users courses) ->
  List.length row = List.length courses /\ Forall (fun w => w <= 2) row.
Proof.
  rewrite buildInteractionMatrix_unfold. intros I.
  apply in_map_iff in I. destruct I as (u & <- & _).
  apply (fillRow_inv courses
           (fun row => List.length row = List.length courses
                       /\ Forall (fun w => w <= 2) row)).
  - intros row h i [L F] _ _. split.
    + now rewrite set_nth_length.
    + apply set_nth_Forall; [apply interactionWeight_cap|exact F].
  - split; [apply repeat_length|].
    apply Forall_forall. intros w Hw. apply repeat_spec in Hw. subst w.
    discriminate.
Qed.

Lemma mget_cap users courses i j :
  mget (buildInteractionMatrix users courses) i j <= 2.
Proof.
  unfold mget, getRow.
  destruct (nth_in_or_default i (buildInteractionMatrix users courses) [])
    as [I|E].
  - apply buildInteractionMatrix_rows in I. destruct I as [_ F].
    destruct (nth_in_or_default
                j (nth i (buildInteractionMatrix users courses) []) 0)
      as [I|E].
    + rewrite Forall_forall in F. now apply F.
    + rewrite E. discriminate.
  - rewrite E. destruct j; discriminate.
Qed.

Lemma candidates_neighbours rt matrix userIndex (l : list nat) :
  NoDup l ->
  let sims :=
    flat_map
      (fun i =>
         if Nat.eqb i userIndex then []
         else
           let similarity :=
             cosineSimilarity rt (getRow matrix userIndex) (getRow matrix i) in
           if Qgtb similarity minSimilarityThreshold
           then [(i, similarity)] else [])
      l in
  NoDup (map fst sims)
  /\ forall p, In p sims ->
               In (fst p) l /\ fst p <> userIndex /\ 0.1 < snd p
               /\ snd p = cosineSimilarity rt (getRow matrix userIndex)
                                           (getRow matrix (fst p)).
Proof.
  cbv zeta. induction 1 as [|i l Ni N IH]; simpl.
  - split; [constructor|]. intros p [].
  - destruct IH as [IH1 IH2].
    destruct (Nat.eqb i userIndex) eqn:E.
    + simpl. split; [exact IH1|]. intros p Hp.
      destruct (IH2 p Hp) as (a & b). split; [now right|exact b].
    + destruct (Qgtb _ minSimilarityThreshold) eqn:G; simpl.
      * split.
        -- constructor; [|exact IH1]. intros I.
           apply in_map_iff in I. destruct I as (p & <- & Hp).
           apply Ni. now apply IH2.
        -- intros p [<-|Hp]; simpl.
           ++ split; [now left|]. split; [now apply Nat.eqb_neq|].
              split; [now apply Qgtb_true in G|reflexivity].
           ++ destruct (IH2 p Hp) as (a & b). split; [now right|exact b].
      * split; [exact IH1|]. intros p Hp.
        destruct (IH2 p Hp) as (a & b). split; [now right|exact b].
Qed.

Lemma calculateUserSimilarities_facts rt matrix userIndex :
  let sims := calculateUserSimilarities rt matrix userIndex in
  (List.length sims <= 20)%nat
  /\ descending snd sims
  /\ NoDup (map fst sims)
  /\ Forall (isNeighbour rt matrix userIndex) sims.
Proof.
  cbv zeta. unfold calculateUserSimilarities.
  destruct (candidates_neighbours rt matrix userIndex
              (seq 0 (List.length matrix)) (seq_NoDup _ _)) as [N F].
  cbv zeta in N, F.
  split; [apply (slice0_length _ 20); discriminate|].
  split; [apply descending_slice0, EngineExtras.sort_desc_descending|].
  split.
  - rewrite map_slice0. apply NoDup_slice0.
    eapply Permutation_NoDup; [|exact N].
    apply Permutation_map, Permutation_sym, sort_desc_perm.
  - apply Forall_forall. intros p Hp.
    apply slice0_incl, sort_desc_In in Hp.
    destruct (F p Hp) as (a & b & c & d).
    apply in_seq in a. repeat split; auto. apply a.
Qed.

(** The weighted average [generateCollaborativeRecs] forms for one
    course stays within the cap of the ratings it averages. *)
Lemma weighted_average_cap (rating : nat -> Q) (cap : Q)
      (similarities : list (nat * Q)) :
  (forall i, rating i <= cap) ->
  Forall (fun p => 0 < snd p) similarities ->
  forall ws ss,
    ws <= cap * ss -> 0 <= ss ->
    let out :=
      fold_left
        (fun '(ws, ss) '(simUserIndex, similarity) =>
           if Qgtb (rating simUserIndex) 0
           then (ws + similarity * rating simUserIndex, ss + similarity)
           else (ws, ss))
        similarities (ws, ss) in
    fst out <= cap * snd out /\ 0 <= snd out.
Proof.
  intros C. induction 1 as [|[i s] l Hs F IH]; intros ws ss H1 H2; simpl.
  - now split.
  - simpl in Hs. destruct (Qgtb (rating i) 0) eqn:G.
    + apply IH.
      * specialize (C i). nra.
      * lra.
    + now apply IH.
Qed.

Lemma flat_mapM_throws {A B} (f : A -> result (list B)) (l : list A)
      (x : A) (e : string) :
  In x l -> f x = Throw e -> exists e', flat_mapM f l = Throw e'.
Proof.
  induction l as [|y l IH]; simpl; intros I F; [destruct I|].
  destruct (f y) as [zs|e0] eqn:Fy; simpl; [|now exists e0].
  destruct I as [->|I]; [congruence|].
  destruct (IH I F) as (e' & ->). simpl. now exists e'.
Qed.

Lemma calculateMarketScore_range trend userProfile :
  In trend trendingSkills ->
  0.38 <= calculateMarketScore trend userProfile
  /\ calculateMarketScore trend userProfile <= 1.
Proof.
  intros I. split; [|apply EngineExtras.Qmin_le_r].
  unfold calculateMarketScore.
  destruct (existsb _ (skills userProfile));
    repeat (destruct I as [<-|I]; [vm_compute; discriminate|]);
    destruct I.
Qed.

Lemma unique_from_In (l : list string) : forall seen x,
  In x (unique_from seen l) <-> In x l /\ ~ In x seen.
Proof.
  induction l as [|y l IH]; intros seen x; simpl; [tauto|].
  destruct (str_mem y seen) eqn:M.
  - apply str_mem_In in M. rewrite IH. split.
    + intros [H1 H2]. tauto.
    + intros [[->|H1] H2]; tauto.
  - assert (N : ~ In y seen).
    { intros H. apply str_mem_In in H. congruence. }
    simpl. rewrite IH. simpl. split.
    + intros [->|[H1 H2]]; tauto.
    + intros [[->|H1] H2]; [now left|].
      destruct (string_dec y x) as [->|D]; [now left|right]. tauto.
Qed.

Lemma unique_from_NoDup (l : list string) : forall seen,
  NoDup (unique_from seen l).
Proof.
  induction l as [|y l IH]; intros seen; simpl; [constructor|].
  destruct (str_mem y seen); [apply IH|].
  constructor; [|apply IH]. rewrite unique_from_In. simpl. tauto.
Qed.

Lemma unique_In (l : list string) (x : string) : In x (unique l) <-> In x l.
Proof. unfold unique. rewrite unique_from_In. simpl. tauto. Qed.

Lemma unique_NoDup (l : list string) : NoDup (unique l).
Proof. apply unique_from_NoDup. Qed.

Lemma Qnat_pos n : (0 < n)%nat -> 0 < Qnat n.
Proof.
  intros H. unfold Qnat, Qlt. simpl. lia.
Qed.

Lemma calculateSkillSimilarity_nonneg userSkills courseSkills :
  0 <= calculateSkillSimilarity userSkills courseSkills.
Proof.
  unfold calculateSkillSimilarity.
  destruct userSkills as [|u us]; [apply Qle_refl|].
  destruct courseSkills as [|c cs]; [apply Qle_refl|].
  cbv zeta.
  set (n := List.length (filter _ _)). set (m := List.length (unique _)).
  destruct m as [|m].
  - unfold Qdiv. change (/ Qnat 0) with 0. rewrite Qmult_0_r. apply Qle_refl.
  - apply Qle_shift_div_l; [apply Qnat_pos; lia|].
    rewrite Qmult_0_l. apply Qnat_nonneg.
Qed.

Lemma calculateSkillSimilarity_le_1 userSkills courseSkills :
  NoDup (map toLowerCase userSkills) ->
  calculateSkillSimilarity userSkills courseSkills <= 1.
Proof.
  intros N. unfold calculateSkillSimilarity.
  destruct userSkills as [|u us]; [discriminate|].
  destruct courseSkills as [|c cs]; [discriminate|].
  cbv zeta.
  set (lu := map toLowerCase (u :: us)) in *.
  set (lc := map toLowerCase (c :: cs)).
  set (inter := filter _ lu).
  assert (L : (List.length inter <= List.length (unique (lu ++ lc)))%nat).
  { apply NoDup_incl_length.
    - now apply NoDup_filter.
    - intros x Hx. apply unique_In, in_or_app. left.
      apply filter_In in Hx. tauto. }
  assert (P : (0 < List.length (unique (lu ++ lc)))%nat).
  { destruct (unique (lu ++ lc)) eqn:E; [|simpl; lia].
    exfalso. assert (I : In (toLowerCase u) (unique (lu ++ lc))).
    { apply unique_In. now left. }
    rewrite E in I. destruct I. }
  apply Qle_shift_div_r; [now apply Qnat_pos|].
  rewrite Qmult_1_l. now apply Qnat_le.
Qed.

Lemma dot_from_comm (l : list (Q * Q)) : forall acc acc',
  acc == acc' ->
  fold_left (fun a xy => a + fst xy * snd xy) l acc
  == fold_left (fun a xy => a + fst xy * snd xy)
               (map (fun xy => (snd xy, fst xy)) l) acc'.
Proof.
  induction l as [|[x y] l IH]; intros acc acc' E; simpl; [exact E|].
  apply IH. rewrite E. ring.
Qed.

Lemma combine_swap {A B} (a : list A) : forall (b : list B),
  combine b a = map (fun xy => (snd xy, fst xy)) (combine a b).
Proof.
  induction a as [|x a IH]; intros [|y b]; simpl; auto.
  now rewrite IH.
Qed.

Lemma dot_comm a b : dot a b == dot b a.
Proof.
  unfold dot. rewrite (combine_swap a b). apply dot_from_comm.
  reflexivity.
Qed.

Lemma behavioral_score_range db user r :
  In r (behavioralRecommendations db user) ->
  0.3 <= score r /\ score r <= 1.
Proof.
  unfold behavioralRecommendations.
  destruct (learningHistory user) as [|h0 hs]; [intros []|].
  intros I. apply slice0_incl, sort_desc_In, in_flat_map in I.
  destruct I as (c & _ & I).
  destruct (str_mem (category c) _), (str_mem (provider c) _),
    (String.eqb (difficulty c) _); cbv beta iota zeta in I;
    match type of I with
    | In _ (if ?b then _ else _) =>
        let v := eval vm_compute in b in
        change b with v in I; cbv iota in I
    end;
    try destruct I as [<-|[]]; try destruct I;
    cbn [score]; split; vm_compute; discriminate.
Qed.

Lemma flat_map_filter_map {A B} (f : A -> list B) (p q : A -> bool)
      (g : A -> B) (l : list A) :
  (forall x, p x = q x) ->
  (forall x, q x = true -> f x = [g x]) ->
  flat_map f (filter p l) = map g (filter q l).
Proof.
  intros PQ FG. induction l as [|x l IH]; simpl; [reflexivity|].
  rewrite PQ. destruct (q x) eqn:Q; [|exact IH].
  simpl. now rewrite (FG x Q), IH.
Qed.

End ScorerFacts.
(** ** Properties of the scorers *)

Module ScorerExtras.
Import JS Aux JSFacts Engine SnapshotFacts ScorerFacts.
Local Open Scope Q_scope.

(** X7.  The interaction matrix has one row per user and one column
    per course; no weight exceeds the cap 2; and a cell is 0 when no
    entry of the user's learning history names the course of its
    column. *)
Theorem buildInteractionMatrix_shape (users : list User)
        (courses : list Course) :
  let matrix := buildInteractionMatrix users courses in
  List.length matrix = List.length users
  /\ Forall (fun row => List.length row = List.length courses
                        /\ Forall (fun w => w <= 2) row) matrix
  /\ forall i u j c,
       nth_error users i = Some u ->
       nth_error courses j = Some c ->
       (forall h, In h (learningHistory u) -> h_courseId h <> c_id c) ->
       mget matrix i j = 0.
Proof.
  cbv zeta. split; [|split].
  - rewrite buildInteractionMatrix_unfold. apply length_map.
  - apply Forall_forall. intros row.
    apply buildInteractionMatrix_rows.
  - intros i u j c U C H. unfold mget, getRow.
    rewrite buildInteractionMatrix_unfold.
    rewrite (nth_indep _ []
               (fold_left (fillRow courses) (learningHistory u)
                          (repeat 0 (List.length courses))))
      by (rewrite length_map; apply nth_error_Some; congruence).
    rewrite (map_nth (fun user =>
                        fold_left (fillRow courses) (learningHistory user)
                                  (repeat 0 (List.length courses)))).
    rewrite (nth_error_nth _ _ _ U).
    apply (fillRow_inv courses (fun row => nth j row 0 = 0)).
    + intros row h k R F I. rewrite set_nth_other; [exact R|].
      intros <-. apply findIndex_Some in F. destruct F as (c' & C' & E).
      rewrite C in C'. injection C' as <-.
      apply String.eqb_eq in E. now apply (H h I).
    + apply nth_repeat_zero.
Qed.

(** X8.  [calculateUserSimilarities] returns at most 20 neighbours, in
    descending order of similarity, no user twice; each neighbour is a
    row of the matrix other than the user's own, listed with its
    cosine similarity to the user's row, which exceeds the threshold
    0.1. *)
Theorem calculateUserSimilarities_neighbours (rt : Runtime)
        (matrix : list (list Q)) (userIndex : nat) :
  let sims := calculateUserSimilarities rt matrix userIndex in
  (List.length sims <= 20)%nat
  /\ descending snd sims
  /\ NoDup (map fst sims)
  /\ Forall (fun p =>
               fst p <> userIndex /\ (fst p < List.length matrix)%nat
               /\ 0.1 < snd p
               /\ snd p = cosineSimilarity rt (getRow matrix userIndex)
                                           (getRow matrix (fst p)))
            sims.
Proof. exact (calculateUserSimilarities_facts rt matrix userIndex). Qed.

(** X9.  Every collaborative recommendation has a score above 0.1 and
    at most 2, the cap of the interaction weights, so it can exceed 1;
    it names a course of the store, and one the user has no positive
    interaction weight for. *)
Theorem collaborativeFiltering_score_range (rt : Runtime) (db : Database)
        (userId : string) :
  Forall (fun r =>
            0.1 < score r /\ score r <= 2
            /\ exists i j c,
                findIndex (fun u => String.eqb (u_id u) userId) (users db)
                = Some i
                /\ nth_error (courses db) j = Some c
                /\ courseId r = c_id c
                /\ mget (buildInteractionMatrix (users db) (courses db)) i j
                   <= 0)
         (collaborativeFiltering rt db userId).
Proof.
  apply Forall_forall. intros r. unfold collaborativeFiltering.
  destruct ((List.length (users db) <? 2)%nat
            || (List.length (courses db) <? 2)%nat); [intros []|].
  destruct (findIndex _ (users db)) as [i|] eqn:FI; [|intros []].
  set (matrix := buildInteractionMatrix (users db) (courses db)).
  destruct (calculateUserSimilarities_facts rt matrix i)
    as (_ & _ & _ & NB). cbv zeta in NB.
  unfold generateCollaborativeRecs. intros I.
  apply in_flat_map in I. destruct I as (j & _ & I).
  change (nth j (getRow matrix i) 0) with (mget matrix i j) in I.
  destruct (Qgtb (mget matrix i j) 0) eqn:G; [destruct I|].
  apply Qgtb_false in G.
  pose proof (weighted_average_cap
                (fun k => mget matrix k j) 2
                (calculateUserSimilarities rt matrix i)
                (fun k => mget_cap (users db) (courses db) k j)) as W.
  assert (P : Forall (fun p : nat * Q => 0 < snd p)
                     (calculateUserSimilarities rt matrix i)).
  { eapply Forall_impl; [|exact NB]. intros p (_ & _ & H & _). lra. }
  specialize (W P 0 0 ltac:(lra) ltac:(lra)). cbv zeta in W.
  destruct (fold_left _ (calculateUserSimilarities rt matrix i) (0, 0))
    as [ws ss] eqn:F.
  cbn [fst snd] in W. destruct W as [W1 W2].
  destruct (Qgtb ss 0) eqn:S; [|destruct I]. apply Qgtb_true in S.
  destruct (Qgtb (ws / ss) minSimilarityThreshold) eqn:T; [|destruct I].
  apply Qgtb_true in T.
  destruct (nth_error (courses db) j) as [c|] eqn:C; [|destruct I].
  destruct I as [<-|[]]. cbn [score courseId].
  split; [exact T|]. split.
  - apply Qle_shift_div_r; [exact S|]. lra.
  - exists i, j, c. auto.
Qed.

(** X10.  Content-based filtering returns at most 50 candidates, in
    descending order of score; each scores above the threshold 0.1
    and names a course of the store. *)
Theorem contentBasedFiltering_ranked (rt : Runtime) (db : Database)
        (user : User) :
  let out := contentBasedFiltering rt db user in
  (List.length out <= 50)%nat
  /\ descending score out
  /\ Forall (fun r =>
               0.1 < score r
               /\ exists course,
                   In course (courses db) /\ courseId r = c_id course)
            out.
Proof.
  cbv zeta. unfold contentBasedFiltering.
  destruct (courses db) as [|c0 cs] eqn:C.
  - split; [simpl; lia|]. split; constructor.
  - split; [apply (slice0_length _ 50); discriminate|].
    split; [apply descending_slice0, EngineExtras.sort_desc_descending|].
    apply Forall_forall. intros r I.
    apply slice0_incl, sort_desc_In, filter_In in I. destruct I as [I G].
    apply Qgtb_true in G. split; [exact G|].
    apply in_map_iff in I. destruct I as (course & <- & I).
    exists course. split; [exact I|reflexivity].
Qed.

(** X11.  A career goal can silence the market-driven scorer: when an
    active goal requires a skill the user does not have and the
    skill's name is not a valid regular expression, the scorer returns
    no recommendation at all, also none for the trending skills. *)
Theorem marketDrivenRecommendations_bad_pattern
        (rt : Runtime) (db : Database) (user : User)
        (goal : CareerGoal) (requiredSkill : string) :
  In goal (careerGoals (profile user)) ->
  g_status goal = "active"%string ->
  In requiredSkill (g_requiredSkills goal) ->
  existsb (fun userSkill =>
             includes userSkill (toLowerCase requiredSkill)
             || includes (toLowerCase requiredSkill) userSkill)
          (map (fun s => toLowerCase (s_name s)) (skills (profile user)))
  = false ->
  RegExp_i rt requiredSkill = None ->
  marketDrivenRecommendations rt db user = [].
Proof.
  intros G A R H X. unfold marketDrivenRecommendations.
  destruct (flat_mapM _ trendingSkills) as [recommendations|e];
    [|reflexivity].
  cbn [bind].
  destruct (careerGoals (profile user)) as [|g0 gs] eqn:CG; [destruct G|].
  rewrite <- CG in *.
  assert (T : exists e, generateSkillGapRecommendations rt db user = Throw e).
  { unfold generateSkillGapRecommendations.
    match goal with
    | |- exists e, flat_mapM ?f _ = _ =>
        assert (I : exists e', f goal = Throw e')
    end.
    { cbv beta. rewrite A.
      change (negb (String.eqb "active" "active")) with false. cbv iota.
      eapply flat_mapM_throws; [exact R|].
      rewrite H. unfold Course_find_by_skill. rewrite X. reflexivity. }
    destruct I as (e' & I). eapply flat_mapM_throws; [exact G|exact I]. }
  destruct T as (e & ->). reflexivity.
Qed.

(** The store holds a course of the trending skill machine learning:
    the learner is offered it, and is offered nothing once the goal
    that requires "c++" is added. *)
Lemma marketDrivenRecommendations_bad_pattern_witness :
  map courseId
      (marketDrivenRecommendations Sample.runtime Sample.marketStore
                                   Sample.learner)
  = ["c4"%string]
  /\ marketDrivenRecommendations Sample.runtime Sample.marketStore
                                 Sample.learnerWithGoal = [].
Proof.
  split; [reflexivity|].
  apply (marketDrivenRecommendations_bad_pattern
           Sample.runtime Sample.marketStore Sample.learnerWithGoal
           Sample.cppGoal "c++");
    [now left | reflexivity | now left | reflexivity | reflexivity].
Defined.

(** X12.  The market-driven scorer returns at most 50 candidates, in
    descending order of score; every score lies between 0.38 and 1,
    and every candidate names a course of the store. *)
Theorem marketDrivenRecommendations_ranked (rt : Runtime) (db : Database)
        (user : User) :
  let out := marketDrivenRecommendations rt db user in
  (List.length out <= 50)%nat
  /\ descending score out
  /\ Forall (fun r => 0.38 <= score r /\ score r <= 1
                      /\ In (courseId r) (map c_id (courses db))) out.
Proof.
  cbv zeta.
  assert (IDS : forall r, In r (marketDrivenRecommendations rt db user) ->
                          In (courseId r) (map c_id (courses db))).
  { intros r. apply marketDrivenRecommendations_ids. }
  revert IDS. unfold marketDrivenRecommendations.
  destruct (flat_mapM _ trendingSkills) as [recommendations|e] eqn:T;
    [|intros _; split; [simpl; lia|split; constructor]].
  cbn [bind].
  destruct (match careerGoals (profile user) with
            | [] => Ok []
            | _ => generateSkillGapRecommendations rt db user
            end) as [gapRecommendations|e] eqn:GAP;
    [|intros _; split; [simpl; lia|split; constructor]].
  cbn [bind try_catch]. intros IDS.
  split; [apply (slice0_length _ 50); discriminate|].
  split; [apply descending_slice0, EngineExtras.sort_desc_descending|].
  apply Forall_forall. intros r I.
  enough (S : 0.38 <= score r /\ score r <= 1)
    by (destruct S; repeat split; auto).
  apply slice0_incl, sort_desc_In, in_app_or in I. destruct I as [I|I].
  - destruct (flat_mapM_In _ _ _ _ T I) as (trend & rs & Ht & F & Hr).
    destruct (find _ (skills (profile user))); [injection F as <-; destruct Hr|].
    destruct (Course_find_by_skill rt db _) as [cs|]; [|discriminate F].
    cbn [bind] in F. injection F as <-.
    apply in_map_iff in Hr. destruct Hr as (c & <- & _). cbn [score].
    now apply calculateMarketScore_range.
  - destruct (careerGoals (profile user)) as [|g0 gs] eqn:CG;
      [injection GAP as <-; destruct I|].
    unfold generateSkillGapRecommendations in GAP.
    destruct (flat_mapM_In _ _ _ _ GAP I) as (goal & rs & _ & F & Hr).
    destruct (negb _); [injection F as <-; destruct Hr|].
    destruct (flat_mapM_In _ _ _ _ F Hr) as (rq & rs' & _ & F' & Hr').
    destruct (existsb _ _); [injection F' as <-; destruct Hr'|].
    destruct (Course_find_by_skill rt db rq) as [cs|]; [|discriminate F'].
    cbn [bind] in F'. injection F' as <-.
    apply in_map_iff in Hr'. destruct Hr' as (c & <- & _). cbn [score].
    split; vm_compute; discriminate.
Qed.

(** X13.  The behavioural scorer returns at most 50 candidates, in
    descending order of score, each scoring between 0.3 and 1 and
    naming a course of the store. *)
Theorem behavioralRecommendations_ranked (db : Database) (user : User) :
  let out := behavioralRecommendations db user in
  (List.length out <= 50)%nat
  /\ descending score out
  /\ Forall (fun r => 0.3 <= score r /\ score r <= 1
                      /\ In (courseId r) (map c_id (courses db))) out.
Proof.
  cbv zeta. split; [|split].
  - unfold behavioralRecommendations.
    destruct (learningHistory user); [simpl; lia|].
    apply (slice0_length _ 50); discriminate.
  - unfold behavioralRecommendations.
    destruct (learningHistory user); [constructor|].
    apply descending_slice0, EngineExtras.sort_desc_descending.
  - apply Forall_forall. intros r I.
    destruct (behavioral_score_range db user r I). repeat split; auto.
    now apply (behavioralRecommendations_ids db user).
Qed.

(** X14.  A user whose learning history is not empty but holds no
    completed course is taken to prefer the difficulty
    "intermediate": the behavioural scorer then proposes the
    intermediate courses of the store, in store order, the first 50 of
    them, each with score 0.3. *)
Theorem behavioralRecommendations_nothing_completed (db : Database)
        (user : User) :
  learningHistory user <> [] ->
  Forall (fun h => h_status h <> Completed) (learningHistory user) ->
  let out := behavioralRecommendations db user in
  map courseId out
  = slice0 (map c_id
                (filter (fun c => String.eqb (difficulty c) "intermediate")
                        (courses db)))
           50
  /\ Forall (fun r => score r == 0.3) out.
Proof.
  intros NE NC. cbv zeta. unfold behavioralRecommendations.
  destruct (learningHistory user) as [|h0 hs] eqn:LH; [congruence|].
  assert (E : filter (fun h => Status_eqb (h_status h) Completed) (h0 :: hs)
              = []).
  { clear LH NE. induction NC as [|h l Hh F IH]; [reflexivity|].
    simpl. destruct (h_status h); try exact IH. congruence. }
  rewrite E.
  change (analyzePreferredCategories []) with (@nil string).
  change (analyzePreferredProviders []) with (@nil string).
  change (analyzePreferredDifficulty []) with "intermediate"%string.
  set (recs := flat_map _ _).
  assert (R : map courseId recs
              = map c_id
                    (filter (fun c => String.eqb (difficulty c) "intermediate")
                            (courses db))
              /\ Forall (fun r => score r == 0.3) recs).
  { subst recs.
    rewrite (flat_map_filter_map
               _ _ (fun c => String.eqb (difficulty c) "intermediate")
               (fun c =>
                  {| courseId := c_id c;
                     score := 0 + 0.3;
                     reason :=
                       "Based on your learning patterns: matches your preferred difficulty level" |})).
    - rewrite map_map. split; [reflexivity|].
      apply Forall_forall. intros r I. apply in_map_iff in I.
      destruct I as (c & <- & _). reflexivity.
    - reflexivity.
    - intros c D. cbv beta.
      change (str_mem (category c) []) with false.
      change (str_mem (provider c) []) with false.
      rewrite D. reflexivity. }
  destruct R as [R1 R2].
  rewrite (sort_desc_flat score 0.3 recs R2). split.
  - now rewrite map_slice0, R1.
  - apply Forall_forall. intros r I. apply slice0_incl in I.
    rewrite Forall_forall in R2. now apply R2.
Qed.

(** A learner who started one course and completed none. *)
Lemma behavioralRecommendations_nothing_completed_witness :
  map courseId
      (behavioralRecommendations
         Sample.threeCourses
         (Sample.learnerWith "u1" [Sample.startedEntry "c1"]))
  = ["c3"%string]
  /\ Forall (fun r => score r == 0.3)
            (behavioralRecommendations
               Sample.threeCourses
               (Sample.learnerWith "u1" [Sample.startedEntry "c1"])).
Proof.
  apply (behavioralRecommendations_nothing_completed
           Sample.threeCourses
           (Sample.learnerWith "u1" [Sample.startedEntry "c1"])).
  - discriminate.
  - repeat constructor. discriminate.
Defined.

(** X15.  The cosine similarity is symmetric. *)
Theorem cosineSimilarity_symmetric (rt : Runtime) (vecA vecB : list Q) :
  cosineSimilarity rt vecA vecB == cosineSimilarity rt vecB vecA.
Proof.
  unfold cosineSimilarity, cosineDivision.
  rewrite (Nat.eqb_sym (List.length vecB)).
  destruct (Nat.eqb (List.length vecA) (List.length vecB)); cbn [negb];
    [|reflexivity].
  rewrite (orb_comm (Qeq_bool (sum_sq vecB) 0)).
  destruct (Qeq_bool (sum_sq vecA) 0 || Qeq_bool (sum_sq vecB) 0);
    [reflexivity|].
  rewrite (dot_comm vecA vecB).
  rewrite (Qmult_comm (Math_sqrt rt (sum_sq vecA))). reflexivity.
Qed.

(** X16.  The skill similarity is never negative; it is at most 1
    when the user's skills are pairwise different once lowercased
    (the intersection counts a repeated skill each time, the union
    once). *)
Theorem calculateSkillSimilarity_range (userSkills courseSkills : list string) :
  0 <= calculateSkillSimilarity userSkills courseSkills
  /\ (NoDup (map toLowerCase userSkills) ->
      calculateSkillSimilarity userSkills courseSkills <= 1).
Proof.
  split.
  - apply calculateSkillSimilarity_nonneg.
  - apply calculateSkillSimilarity_le_1.
Qed.

Lemma calculateSkillSimilarity_range_witness :
  NoDup (map toLowerCase ["Python"; "Java"]%string)
  /\ calculateSkillSimilarity ["Python"; "Java"]%string ["python"%string]
     <= 1.
Proof.
  assert (N : NoDup (map toLowerCase ["Python"; "Java"]%string))
    by (repeat constructor; simpl; intuition discriminate).
  split; [exact N|].
  exact (proj2 (calculateSkillSimilarity_range
                  ["Python"; "Java"]%string ["python"%string]) N).
Defined.

(** X17.  The similarity of two courses is never negative and is at
    least 0.6 for two courses of the same category and difficulty; it
    is at most 1 when the skills of the first course are pairwise
    different once lowercased. *)
Theorem calculateCourseSimilarity_range (course1 course2 : Course) :
  0 <= calculateCourseSimilarity course1 course2
  /\ (category course1 = category course2 ->
      difficulty course1 = difficulty course2 ->
      0.6 <= calculateCourseSimilarity course1 course2)
  /\ (NoDup (map toLowerCase (c_skills course1)) ->
      calculateCourseSimilarity course1 course2 <= 1).
Proof.
  pose proof (calculateSkillSimilarity_nonneg
                (c_skills course1) (c_skills course2)) as L.
  pose proof (calculateSkillSimilarity_le_1
                (c_skills course1) (c_skills course2)) as U.
  unfold calculateCourseSimilarity.
  set (s := calculateSkillSimilarity _ _) in *.
  split; [|split].
  - destruct (String.eqb (category course1) (category course2)),
      (String.eqb (difficulty course1) (difficulty course2)); lra.
  - intros -> ->. rewrite !String.eqb_refl. lra.
  - intros N. specialize (U N).
    destruct (String.eqb (category course1) (category course2)),
      (String.eqb (difficulty course1) (difficulty course2)); lra.
Qed.

(** Two beginner courses of programming whose skills overlap. *)
Lemma calculateCourseSimilarity_range_witness :
  category Sample.c5 = category Sample.c1
  /\ difficulty Sample.c5 = difficulty Sample.c1
  /\ NoDup (map toLowerCase (c_skills Sample.c5))
  /\ 0.6 <= calculateCourseSimilarity Sample.c5 Sample.c1
  /\ calculateCourseSimilarity Sample.c5 Sample.c1 <= 1.
Proof.
  assert (N : NoDup (map toLowerCase (c_skills Sample.c5)))
    by (repeat constructor; simpl; intuition discriminate).
  split; [reflexivity|]. split; [reflexivity|]. split; [exact N|].
  destruct (calculateCourseSimilarity_range Sample.c5 Sample.c1)
    as (_ & A & B).
  split; [exact (A eq_refl eq_refl)|exact (B N)].
Defined.

End ScorerExtras.

(** ** Further facts about the skill extractor *)

Module ExtractorFacts.
Import JS Regex Aux JSFacts RegexFacts Extractor ExtractorClaims
       ConfidenceFacts.
Local Open Scope string_scope.
Local Open Scope Q_scope.

(** *** Preprocessing *)

Lemma replaceNoise_clean s : all_chars clean (replaceNoise s) = true.
Proof.
  unfold all_chars. induction s as [|c s IH]; simpl; [reflexivity|].
  rewrite IH, andb_true_r. unfold clean.
  destruct (isNoise c) eqn:N; [reflexivity|now rewrite N].
Qed.

Lemma replaceNoise_fix s : all_chars clean s = true -> replaceNoise s = s.
Proof.
  unfold all_chars. induction s as [|c s IH]; simpl; [reflexivity|].
  intros H. apply andb_true_iff in H. destruct H as [C H].
  unfold clean in C. apply negb_true_iff in C. rewrite C.
  now rewrite IH.
Qed.

Lemma collapseFrom_clean s : forall b,
  all_chars clean s = true -> all_chars clean (collapseFrom b s) = true.
Proof.
  unfold all_chars. induction s as [|c s IH]; intros b; simpl;
    [reflexivity|].
  intros H. apply andb_true_iff in H. destruct H as [C H].
  destruct (is_space c); [destruct b|]; simpl; auto.
  rewrite C. simpl. auto.
Qed.

Lemma collapseFrom_collapsed s : forall b,
  collapsed b (collapseFrom b s) = true.
Proof.
  induction s as [|c s IH]; intros b; simpl; [reflexivity|].
  destruct (is_space c) eqn:S.
  - destruct b; [apply IH|]. simpl. apply IH.
  - simpl. rewrite S. apply IH.
Qed.

Lemma collapsed_fix s : forall b,
  collapsed b s = true -> collapseFrom b s = s.
Proof.
  induction s as [|c s IH]; intros b; simpl; [reflexivity|].
  destruct (is_space c) eqn:S.
  - intros H. apply andb_true_iff in H. destruct H as [H H3].
    apply andb_true_iff in H. destruct H as [H1 H2].
    apply Ascii.eqb_eq in H1. apply negb_true_iff in H2. subst.
    now rewrite (IH true H3).
  - intros H. now rewrite (IH false H).
Qed.

Lemma trimStart_clean p s :
  all_chars p s = true -> all_chars p (trimStart s) = true.
Proof.
  unfold all_chars. induction s as [|c s IH]; simpl; [reflexivity|].
  intros H. destruct (is_space c); [|exact H].
  apply andb_true_iff in H. now apply IH.
Qed.

Lemma trimStart_collapsed s : forall b,
  collapsed b s = true -> collapsed false (trimStart s) = true.
Proof.
  induction s as [|c s IH]; intros b; simpl; [reflexivity|].
  destruct (is_space c) eqn:S.
  - intros H. apply andb_true_iff in H. destruct H as [_ H].
    now apply (IH true).
  - intros H. simpl. now rewrite S.
Qed.

Lemma trimStart_start s : startsWithSpace (trimStart s) = false.
Proof.
  induction s as [|c s IH]; simpl; [reflexivity|].
  destruct (is_space c) eqn:S; [exact IH|]. simpl. exact S.
Qed.

Lemma trimStart_fix s : startsWithSpace s = false -> trimStart s = s.
Proof.
  destruct s as [|c s]; simpl; [reflexivity|]. now intros ->.
Qed.

Lemma trimEnd_clean p s :
  all_chars p s = true -> all_chars p (trimEnd s) = true.
Proof.
  unfold all_chars. induction s as [|c s IH]; simpl; [reflexivity|].
  intros H. apply andb_true_iff in H. destruct H as [C H].
  specialize (IH H). destruct (trimEnd s) as [|d t].
  - destruct (is_space c); simpl; [reflexivity|now rewrite C].
  - simpl in *. now rewrite C, IH.
Qed.

Lemma trimEnd_collapsed s : forall b,
  collapsed b s = true -> collapsed b (trimEnd s) = true.
Proof.
  induction s as [|c s IH]; intros b; simpl; [reflexivity|].
  destruct (is_space c) eqn:S.
  - intros H. apply andb_true_iff in H. destruct H as [H H3].
    specialize (IH true H3). destruct (trimEnd s) as [|d t];
      [reflexivity|].
    cbn [collapsed]. rewrite S, H. exact IH.
  - intros H. specialize (IH false H). destruct (trimEnd s) as [|d t].
    + simpl. now rewrite S.
    + cbn [collapsed]. rewrite S. exact IH.
Qed.

Lemma trimEnd_start s :
  startsWithSpace s = false -> startsWithSpace (trimEnd s) = false.
Proof.
  destruct s as [|c s]; simpl; [reflexivity|]. intros S.
  destruct (trimEnd s); rewrite ?S; simpl; auto.
Qed.

Lemma trimEnd_end s : endsWithSpace (trimEnd s) = false.
Proof.
  induction s as [|c s IH]; simpl; [reflexivity|].
  destruct (trimEnd s) as [|d t].
  - destruct (is_space c) eqn:S; simpl; auto.
  - exact IH.
Qed.

Lemma trimEnd_fix s : endsWithSpace s = false -> trimEnd s = s.
Proof.
  induction s as [|c s IH]; [reflexivity|].
  destruct s as [|d s].
  - simpl. now intros ->.
  - intros H. change (endsWithSpace (String d s) = false) in H.
    specialize (IH H). cbn [trimEnd] in *. now rewrite IH.
Qed.

Lemma preprocessed_normalForm s :
  normalForm (trim (collapseSpaces (replaceNoise s))).
Proof.
  unfold normalForm, trim, collapseSpaces. repeat split.
  - apply trimEnd_clean, trimStart_clean, collapseFrom_clean,
      replaceNoise_clean.
  - apply trimEnd_collapsed, (trimStart_collapsed _ false),
      collapseFrom_collapsed.
  - apply trimEnd_start, trimStart_start.
  - apply trimEnd_end.
Qed.

Lemma normalForm_fix s :
  normalForm s -> trim (collapseSpaces (replaceNoise s)) = s.
Proof.
  intros (C & K & S & E). unfold trim, collapseSpaces.
  rewrite (replaceNoise_fix _ C), (collapsed_fix _ _ K),
    (trimStart_fix _ S).
  now apply trimEnd_fix.
Qed.

Lemma collapsed_no_newline s : forall b,
  collapsed b s = true -> all_chars notNewline s = true.
Proof.
  unfold all_chars. induction s as [|c s IH]; intros b; simpl;
    [reflexivity|].
  destruct (is_space c) eqn:S.
  - intros H. apply andb_true_iff in H. destruct H as [H H3].
    apply andb_true_iff in H. destruct H as [H1 _].
    apply Ascii.eqb_eq in H1. subst c. rewrite (IH true H3). reflexivity.
  - intros H. rewrite (IH false H), andb_true_r. unfold notNewline.
    destruct (Ascii.eqb c nl) eqn:E; [|reflexivity].
    apply Ascii.eqb_eq in E. subst c. discriminate S.
Qed.

Lemma nextSection_none prev s :
  match s with String c _ => notNewline c = true | EmptyString => True end ->
  reMatcher false nextSectionRegex prev s = None.
Proof.
  destruct s as [|c s]; [reflexivity|].
  unfold notNewline. intros H. apply negb_true_iff in H.
  unfold reMatcher, nextSectionRegex, seqs.
  cbn [fold_right matchre]. rewrite Ascii.eqb_sym in H. now rewrite H.
Qed.

Lemma execFrom_no_newline s : forall prev idx start,
  all_chars notNewline s = true ->
  execFrom (reMatcher false nextSectionRegex) prev s idx start = None.
Proof.
  unfold all_chars. induction s as [|c s IH]; intros prev idx start H.
  - destruct start; [|reflexivity]. cbn [execFrom].
    now rewrite nextSection_none.
  - simpl in H. apply andb_true_iff in H. destruct H as [C H].
    destruct start; cbn [execFrom]; [|now apply IH].
    rewrite nextSection_none by exact C. now apply IH.
Qed.

(** *** String similarity *)

Lemma existsb_ascii_In (c : ascii) (l : list ascii) :
  existsb (Ascii.eqb c) l = true <-> In c l.
Proof.
  rewrite existsb_exists. split.
  - intros (y & Hy & E). apply Ascii.eqb_eq in E. now subst.
  - intros H. exists c. split; [exact H|apply Ascii.eqb_refl].
Qed.

Lemma uniqueChars_In s : forall seen c,
  In c (uniqueChars seen s)
  <-> In c (list_ascii_of_string s) /\ ~ In c seen.
Proof.
  induction s as [|d s IH]; intros seen c; simpl; [tauto|].
  destruct (existsb (Ascii.eqb d) seen) eqn:M.
  - apply existsb_ascii_In in M. rewrite IH. split.
    + tauto.
    + intros [[->|H1] H2]; tauto.
  - assert (N : ~ In d seen).
    { intros H. apply existsb_ascii_In in H. congruence. }
    simpl. rewrite IH. simpl. split.
    + intros [->|[H1 H2]]; tauto.
    + intros [[->|H1] H2]; [now left|].
      destruct (ascii_dec d c) as [->|D]; [now left|right]. tauto.
Qed.

Lemma uniqueChars_NoDup s : forall seen, NoDup (uniqueChars seen s).
Proof.
  induction s as [|d s IH]; intros seen; simpl; [constructor|].
  destruct (existsb (Ascii.eqb d) seen); [apply IH|].
  constructor; [|apply IH]. rewrite uniqueChars_In. simpl. tauto.
Qed.

Lemma list_ascii_of_string_app a b :
  list_ascii_of_string (a ++ b)
  = (list_ascii_of_string a ++ list_ascii_of_string b)%list.
Proof. induction a as [|c a IH]; simpl; [reflexivity|now rewrite IH]. Qed.

Lemma NoDup_same_length {A} (l1 l2 : list A) :
  NoDup l1 -> NoDup l2 -> (forall x, In x l1 <-> In x l2) ->
  List.length l1 = List.length l2.
Proof.
  intros N1 N2 H. apply Nat.le_antisymm; apply NoDup_incl_length; auto;
    intros x Hx; now apply H.
Qed.

Lemma intersection_length_comm a b :
  List.length (filter (fun x => existsb (Ascii.eqb x) (uniqueChars [] b))
                      (uniqueChars [] a))
  = List.length (filter (fun x => existsb (Ascii.eqb x) (uniqueChars [] a))
                        (uniqueChars [] b)).
Proof.
  apply NoDup_same_length;
    try (apply NoDup_filter, uniqueChars_NoDup).
  intros x. rewrite !filter_In, !existsb_ascii_In. tauto.
Qed.

Lemma union_length_comm a b :
  List.length (uniqueChars [] (a ++ b))
  = List.length (uniqueChars [] (b ++ a)).
Proof.
  apply NoDup_same_length; try apply uniqueChars_NoDup.
  intros x. rewrite !uniqueChars_In, !list_ascii_of_string_app, !in_app_iff.
  tauto.
Qed.

(** *** The best match *)

Lemma bestStep_inv term seen st skill :
  bestOver term seen st ->
  bestOver term (seen ++ [skill]) (bestStep term st skill).
Proof.
  destruct st as [bm bs]. intros [A B]. unfold bestStep.
  fold (simOf term skill).
  destruct (Qgtb (simOf term skill) bs) eqn:G1;
    [destruct (Qgtb (simOf term skill) 0.7) eqn:G2|]; cbn [andb].
  - apply ScorerFacts.Qgtb_true in G1, G2. split; cbn [fst snd].
    + intros s Hs. apply in_app_or in Hs. destruct Hs as [Hs|[<-|[]]].
      * destruct (A s Hs) as [H|H]; [left|right; exact H].
        cbn [snd] in H. lra.
      * left. apply Qle_refl.
    + repeat split; auto. apply in_or_app. right. now left.
  - apply ScorerFacts.Qgtb_false in G2. split; cbn [fst snd] in *.
    + intros s Hs. apply in_app_or in Hs. destruct Hs as [Hs|[<-|[]]];
        [now apply A|now right].
    + destruct bm as [[k q]|]; [|exact B].
      destruct B as (B1 & B2 & B3 & B4). repeat split; auto.
      apply in_or_app. now left.
  - apply ScorerFacts.Qgtb_false in G1. split; cbn [fst snd] in *.
    + intros s Hs. apply in_app_or in Hs. destruct Hs as [Hs|[<-|[]]];
        [now apply A|now left].
    + destruct bm as [[k q]|]; [|exact B].
      destruct B as (B1 & B2 & B3 & B4). repeat split; auto.
      apply in_or_app. now left.
Qed.

Lemma fold_bestStep_inv term l : forall seen st,
  bestOver term seen st ->
  bestOver term (seen ++ l) (fold_left (bestStep term) l st).
Proof.
  induction l as [|x l IH]; intros seen st H; simpl.
  - now rewrite app_nil_r.
  - replace (seen ++ x :: l)%list with ((seen ++ [x]) ++ l)%list
      by now rewrite <- app_assoc.
    apply IH. now apply bestStep_inv.
Qed.

Lemma findBestSkillMatch_unfold term :
  findBestSkillMatch term
  = fst (fold_left (bestStep term) allSkills (None, 0)).
Proof. reflexivity. Qed.

Lemma splitOn_nonempty p s : splitOn p s <> [].
Proof.
  destruct s as [|c s]; simpl; [discriminate|].
  destruct (p c); [discriminate|].
  destruct (splitOn p s); discriminate.
Qed.

(** *** Contexts and levels *)

Lemma wordBounded_productive name :
  name <> "" -> productive (wordBounded name).
Proof.
  intros N prev s cap. unfold wordBounded.
  destruct (boundary prev (headOf s)); [|discriminate].
  destruct (strip true name s) as [s'|]; [|discriminate].
  destruct (boundary _ _); [|discriminate].
  intros [= L _]. destruct name; [congruence|discriminate L].
Qed.

Lemma yearRegex_productive : productive (reMatcher true yearRegex).
Proof. apply reMatcher_productive. vm_compute. lia. Qed.

Lemma extractSkillContext_returns text skillName :
  skillName <> "" -> exists c, extractSkillContext text skillName = Return c.
Proof.
  intros N. unfold extractSkillContext.
  destruct (execLoop_total (wordBounded skillName) text
                           (wordBounded_productive _ N)) as (ms & ->).
  simpl. now eexists.
Qed.

Lemma levelScore_returns level indicators contextLower :
  exists q, levelScore level indicators contextLower = Return q.
Proof.
  unfold levelScore, yearMentions.
  destruct (execLoop_total (reMatcher true yearRegex) contextLower
                           yearRegex_productive) as (ms & ->).
  simpl. now eexists.
Qed.

Lemma strip_prefix l : forall s s',
  strip true l s = Some s' ->
  String.prefix (toLowerCase l) (toLowerCase s) = true.
Proof.
  induction l as [|a l IH]; intros s s'.
  - intros _. destruct s; reflexivity.
  - destruct s as [|b s]; simpl; [discriminate|].
    destruct (Ascii.eqb (lower_char a) (lower_char b)) eqn:E;
      [|discriminate].
    apply Ascii.eqb_eq in E. intros H. apply IH in H.
    destruct (ascii_dec (lower_char a) (lower_char b)); [exact H|contradiction].
Qed.

Lemma wordBounded_prefix name prev s x :
  wordBounded name prev s = Some x ->
  String.prefix (toLowerCase name) (toLowerCase s) = true.
Proof.
  unfold wordBounded. destruct (boundary prev (headOf s)); [|discriminate].
  destruct (strip true name s) as [s'|] eqn:S; [|discriminate].
  intros _. exact (strip_prefix _ _ _ S).
Qed.

Lemma execLoopFrom_not_mentioned name s : forall prev idx skip,
  includes (toLowerCase s) (toLowerCase name) = false ->
  execLoopFrom (wordBounded name) prev s idx skip = Some [].
Proof.
  induction s as [|c s IH]; intros prev idx skip H.
  - destruct skip; [|reflexivity]. cbn [execLoopFrom].
    destruct (wordBounded name prev "") as [x|] eqn:W; [|reflexivity].
    apply wordBounded_prefix in W. simpl in H, W. now rewrite W in H.
  - cbn [toLowerCase includes] in H. apply orb_false_iff in H.
    destruct H as [P H]. destruct skip; cbn [execLoopFrom]; [|now apply IH].
    destruct (wordBounded name prev (String c s)) as [x|] eqn:W;
      [|now apply IH].
    apply wordBounded_prefix in W. cbn [toLowerCase] in W. congruence.
Qed.

Lemma execLoopFrom_empty_name s : forall prev idx,
  match prev with Some c => is_word c | None => false end = false ->
  existsb is_word (list_ascii_of_string s) = true ->
  execLoopFrom (wordBounded "") prev s idx 0 = None.
Proof.
  induction s as [|c s IH]; intros prev idx P H; [discriminate H|].
  cbn [list_ascii_of_string existsb] in H. cbn [execLoopFrom].
  unfold wordBounded at 1. cbn [headOf strip String.length take lastOf].
  unfold boundary. rewrite P. destruct (is_word c) eqn:W; cbn.
  - reflexivity.
  - apply IH; [exact W|exact H].
Qed.

End ExtractorFacts.

(** ** Properties of the skill extractor *)

Module ExtractorExtras.
Import JS Regex Aux JSFacts RegexFacts Extractor ExtractorClaims
       ConfidenceFacts ExtractorFacts.
Local Open Scope string_scope.
Local Open Scope Q_scope.

(** X18.  [preprocessText] returns, for every string, a text in normal
    form: no character outside the kept classes, white space only as
    single blanks, none at the ends.  The text is a fixed point:
    preprocessing it again returns it unchanged. *)
Theorem preprocessText_idempotent (s : string) :
  exists t,
    preprocessText (Str s) = Return t
    /\ normalForm t
    /\ preprocessText (Str t) = Return t.
Proof.
  exists (trim (collapseSpaces (replaceNoise s))).
  split; [reflexivity|]. split; [apply preprocessed_normalForm|].
  cbn [preprocessText]. f_equal.
  apply normalForm_fix, preprocessed_normalForm.
Qed.

(** X19.  A preprocessed text holds no line break, so the search for
    the start of the next section in it never succeeds: the end of a
    skill section is 500 characters after its start, or the end of
    the text. *)
Theorem findSectionEnd_after_preprocessText (text : TextArg) :
  match preprocessText text with
  | Return t =>
      forall start,
        findSectionEnd t start = Nat.min (start + 500) (String.length t)
  | _ => text = NotAString
  end.
Proof.
  destruct text as [s|]; cbn [preprocessText]; [|reflexivity].
  intros start. unfold findSectionEnd.
  rewrite execFrom_no_newline; [reflexivity|].
  destruct (preprocessed_normalForm s) as (_ & K & _).
  exact (collapsed_no_newline _ _ K).
Qed.

(** X20.  For two strings that are not both empty, the string
    similarity lies between 0 and 1 and does not depend on the order
    of its two arguments.  (For two empty strings the source divides
    0 by 0.) *)
Theorem calculateStringSimilarity_symmetric (str1 str2 : string) :
  str1 <> "" \/ str2 <> "" ->
  calculateStringSimilarity str1 str2 = calculateStringSimilarity str2 str1
  /\ 0 <= calculateStringSimilarity str1 str2
  /\ calculateStringSimilarity str1 str2 <= 1.
Proof.
  intros _.
  split; [|exact (calculateStringSimilarity_range str1 str2)].
  unfold calculateStringSimilarity.
  now rewrite intersection_length_comm, union_length_comm.
Qed.

Lemma calculateStringSimilarity_symmetric_witness :
  calculateStringSimilarity "python" "typo"
  = calculateStringSimilarity "typo" "python"
  /\ 0 <= calculateStringSimilarity "python" "typo"
  /\ calculateStringSimilarity "python" "typo" <= 1.
Proof.
  apply (calculateStringSimilarity_symmetric "python" "typo").
  left. discriminate.
Defined.

(** X21.  [findBestSkillMatch] returns a catalogue skill of greatest
    similarity to the term, with that similarity, when the greatest
    similarity exceeds 0.7, and nothing when no similarity does. *)
Theorem findBestSkillMatch_best (term : string) :
  match findBestSkillMatch term with
  | Some (skill, similarity) =>
      In skill allSkills
      /\ similarity = calculateStringSimilarity term (toLowerCase skill)
      /\ 0.7 < similarity
      /\ forall s, In s allSkills ->
                   calculateStringSimilarity term (toLowerCase s)
                   <= similarity
  | None =>
      forall s, In s allSkills ->
                calculateStringSimilarity term (toLowerCase s) <= 0.7
  end.
Proof.
  rewrite findBestSkillMatch_unfold.
  assert (B : bestOver term [] (None, 0)).
  { split; [intros s []|reflexivity]. }
  apply (fold_bestStep_inv term allSkills) in B.
  rewrite app_nil_l in B. destruct B as [A B].
  destruct (fold_left (bestStep term) allSkills (None, 0)) as [bm bs].
  cbn [fst snd] in *. destruct bm as [[k q]|].
  - destruct B as (-> & B2 & B3 & B4). repeat split; auto.
    intros s Hs. destruct (A s Hs) as [H|H]; [exact H|].
    unfold simOf in H. lra.
  - subst bs. intros s Hs. destruct (A s Hs) as [H|H]; unfold simOf in H; lra.
Qed.

(** X22.  Every candidate of the direct method names a catalogue
    skill.  A direct match has confidence 0.9, counts at least one
    occurrence and its name occurs in the text, letter case ignored; a
    partial match is for a name of several words and has a confidence
    between 0.49 and 0.7, so it never outranks a direct match. *)
Theorem extractDirectMatches_candidates (text : string) :
  Forall (fun c =>
            In (name c) allSkills
            /\ ((method c = "direct_match"
                 /\ confidence c = 0.9
                 /\ (exists n, detail c = Occurrences (S n))
                 /\ includes (toLowerCase text) (toLowerCase (name c)) = true)
                \/ (method c = "partial_match"
                    /\ 0.49 <= confidence c /\ confidence c <= 0.7
                    /\ includes (name c) " " = true)))
         (extractDirectMatches text).
Proof.
  apply Forall_forall. intros c I. unfold extractDirectMatches in I.
  apply in_flat_map in I. destruct I as (skill & S & I).
  apply in_app_or in I. destruct I as [I|I].
  - destruct (includes (toLowerCase text) (toLowerCase skill)) eqn:E;
      [|destruct I].
    destruct (countMatches _ _) as [|n]; [destruct I|].
    destruct I as [<-|[]]. cbn [name method confidence detail].
    split; [exact S|]. left. repeat split; auto. now exists n.
  - destruct (includes skill " ") eqn:E; [|destruct I].
    set (skillWords := splitOn (Ascii.eqb " ") skill) in *.
    set (matchedWords := filter _ skillWords) in *.
    destruct (Qle_bool _ _) eqn:L; [|destruct I].
    destruct I as [<-|[]]. cbn [name method confidence detail].
    split; [exact S|]. right. split; [reflexivity|].
    apply Qle_bool_iff in L.
    assert (P : 0 < Qnat (List.length skillWords)).
    { apply ScorerFacts.Qnat_pos.
      pose proof (splitOn_nonempty (Ascii.eqb " ") skill) as N.
      fold skillWords in N. destruct skillWords; [congruence|simpl; lia]. }
    assert (U : unitRange (Qnat (List.length matchedWords)
                           / Qnat (List.length skillWords))).
    { apply Qnat_ratio. apply filter_length_le. }
    assert (D : 0.7 <= Qnat (List.length matchedWords)
                       / Qnat (List.length skillWords)).
    { apply Qle_shift_div_l; [exact P|].
      rewrite Qmult_comm. exact L. }
    destruct U as [_ U].
    set (q := Qnat (List.length matchedWords)
              / Qnat (List.length skillWords)) in *.
    repeat split; [lra|lra|exact E].
Qed.

(** X23.  For a skill name that is not empty, [analyzeSkillLevel]
    returns a level on every text: none of its loops runs for ever
    and nothing is thrown. *)
Theorem analyzeSkillLevel_returns (text skillName : string) :
  skillName <> "" ->
  exists level, analyzeSkillLevel text skillName = Return level.
Proof.
  intros N. unfold analyzeSkillLevel.
  destruct (extractSkillContext_returns text skillName N) as (c & ->).
  cbn [obind].
  destruct (omap_list_returns
              (fun '(level, indicators) =>
                 obind (levelScore level indicators (toLowerCase c))
                       (fun score => Return (level, score)))
              levelIndicators) as (ys & ->).
  - intros [level indicators] _.
    destruct (levelScore_returns level indicators (toLowerCase c))
      as (q & ->).
    simpl. now eexists.
  - simpl. now eexists.
Qed.

Lemma analyzeSkillLevel_returns_witness :
  exists level,
    analyzeSkillLevel "Senior Python developer" "python" = Return level.
Proof.
  apply (analyzeSkillLevel_returns "Senior Python developer" "python").
  discriminate.
Defined.

(** X24.  A skill whose name does not occur in the text, letter case
    ignored, has an empty context and is given the level
    intermediate. *)
Theorem analyzeSkillLevel_not_mentioned (text skillName : string) :
  includes (toLowerCase text) (toLowerCase skillName) = false ->
  extractSkillContext text skillName = Return ""
  /\ analyzeSkillLevel text skillName = Return Intermediate.
Proof.
  intros H.
  assert (C : extractSkillContext text skillName = Return "").
  { unfold extractSkillContext, execLoop.
    now rewrite (execLoopFrom_not_mentioned skillName text None 0 0 H). }
  split; [exact C|].
  unfold analyzeSkillLevel. rewrite C. reflexivity.
Qed.

Lemma analyzeSkillLevel_not_mentioned_witness :
  extractSkillContext "Expert in Java and SQL" "python" = Return ""
  /\ analyzeSkillLevel "Expert in Java and SQL" "python"
     = Return Intermediate.
Proof.
  apply (analyzeSkillLevel_not_mentioned "Expert in Java and SQL" "python").
  reflexivity.
Defined.

(** X25.  With the empty skill name the loop of [extractSkillContext]
    never leaves the first word boundary of a text that holds a
    letter, a digit or an underscore: the pattern matches the empty
    string there on every turn, every turn pushes a context, and the
    call ends with the RangeError of the push that finds the array
    full.  [analyzeSkillLevel] throws the same error. *)
Theorem extractSkillContext_empty_name_throws (text : string) :
  existsb is_word (list_ascii_of_string text) = true ->
  extractSkillContext text "" = Raise "RangeError: Invalid array length"
  /\ analyzeSkillLevel text "" = Raise "RangeError: Invalid array length".
Proof.
  intros H.
  assert (C : extractSkillContext text ""
              = Raise "RangeError: Invalid array length").
  { unfold extractSkillContext, execLoop.
    now rewrite (execLoopFrom_empty_name text None 0 eq_refl H). }
  split; [exact C|].
  unfold analyzeSkillLevel. now rewrite C.
Qed.

Lemma extractSkillContext_empty_name_throws_witness :
  extractSkillContext "Python" "" = Raise "RangeError: Invalid array length"
  /\ analyzeSkillLevel "Python" "" = Raise "RangeError: Invalid array length".
Proof.
  apply (extractSkillContext_empty_name_throws "Python"). reflexivity.
Defined.

End ExtractorExtras.

(** ** Facts about the skill suggestions *)

Module SuggestionFacts.
Import JS Aux JSFacts Extractor Suggestions SnapshotFacts ScorerFacts.
Local Open Scope string_scope.
Local Open Scope Q_scope.

Lemma prefix_refl s : String.prefix s s = true.
Proof.
  induction s as [|c s IH]; simpl; [reflexivity|].
  destruct (ascii_dec c c); [exact IH|contradiction].
Qed.

Lemma includes_refl s : includes s s = true.
Proof.
  destruct s as [|c s]; [reflexivity|].
  cbn [includes]. now rewrite prefix_refl.
Qed.

Lemma flat_mapM_throw_inv {A B} (f : A -> result (list B)) (l : list A)
      (e : string) :
  flat_mapM f l = Throw e -> exists x e', In x l /\ f x = Throw e'.
Proof.
  induction l as [|x l IH]; simpl; [discriminate|].
  destruct (f x) as [zs|e0] eqn:F; simpl.
  - destruct (flat_mapM f l) as [ws|e1]; simpl; [discriminate|].
    intros E. destruct (IH E) as (y & e' & I & Fy).
    exists y, e'. split; [now right|exact Fy].
  - intros _. exists x, e0. split; [now left|exact F].
Qed.

Lemma relatedTo_throws userSkill e :
  relatedTo userSkill = Throw e ->
  userSkill = "constructor" \/ userSkill = "__proto__".
Proof.
  unfold relatedTo. destruct (find _ skillRelationships); [discriminate|].
  destruct (String.eqb userSkill "constructor") eqn:C.
  - apply String.eqb_eq in C. intros _. now left.
  - destruct (String.eqb userSkill "__proto__") eqn:P; [|discriminate].
    apply String.eqb_eq in P. intros _. now right.
Qed.

Lemma findComplementarySkills_throws userSkills s :
  In s userSkills ->
  toLowerCase s = "constructor" \/ toLowerCase s = "__proto__" ->
  exists e, findComplementarySkills userSkills = Throw e.
Proof.
  intros I H. unfold findComplementarySkills.
  eapply flat_mapM_throws with (x := toLowerCase s).
  - now apply in_map.
  - destruct H as [-> | ->]; reflexivity.
Qed.

Lemma findComplementarySkills_throw_inv userSkills e :
  findComplementarySkills userSkills = Throw e ->
  exists s, In s userSkills
            /\ (toLowerCase s = "constructor" \/ toLowerCase s = "__proto__").
Proof.
  unfold findComplementarySkills. intros H.
  apply flat_mapM_throw_inv in H. destruct H as (x & e' & I & F).
  apply in_map_iff in I. destruct I as (s & <- & I).
  exists s. split; [exact I|].
  destruct (relatedTo (toLowerCase s)) as [[related|]|e0] eqn:R;
    try discriminate F.
  now apply relatedTo_throws in R.
Qed.

Lemma findComplementarySkills_new userSkills l sg :
  findComplementarySkills userSkills = Ok l -> In sg l ->
  priority sg = Medium
  /\ ~ In (toLowerCase (s_skill sg)) (map toLowerCase userSkills).
Proof.
  unfold findComplementarySkills. intros H I.
  destruct (flat_mapM_In _ _ _ _ H I) as (x & zs & _ & F & Hz).
  destruct (relatedTo x) as [[related|]|e0]; cbn [bind] in F;
    try discriminate F; injection F as <-; [|destruct Hz].
  apply in_flat_map in Hz. destruct Hz as (r & _ & Hz).
  destruct (str_mem (toLowerCase r) (map toLowerCase userSkills)) eqn:M;
    [destruct Hz|].
  destruct Hz as [<-|[]]. cbn [priority s_skill]. split; [reflexivity|].
  intros C. apply str_mem_In in C. congruence.
Qed.

Lemma allSkills_flat : allSkills = flat_map snd skillsDatabase.
Proof. reflexivity. Qed.

Lemma categories_named :
  forall e, In e skillsDatabase -> fst e <> "other".
Proof.
  assert (H : forallb (fun e => negb (String.eqb (fst e) "other"))
                      skillsDatabase = true) by reflexivity.
  rewrite forallb_forall in H. intros e I E.
  specialize (H e I). rewrite E in H. discriminate H.
Qed.

End SuggestionFacts.

(** ** Properties of the skill suggestions and of the user model *)

Module SuggestionExtras.
Import JS Aux JSFacts Extractor ExtractorClaims Suggestions SnapshotFacts
       ScorerFacts SuggestionFacts.
Local Open Scope string_scope.
Local Open Scope Q_scope.

(** X26.  Handed arrays of candidates, [combineAndDeduplicateSkills]
    returns one entry per lowercase name, for exactly the names the
    arrays hold; the confidence of an entry is the greatest of the
    confidences of the candidates of its name, and its methods are
    the methods of these candidates, in order. *)
Theorem combineAndDeduplicateSkills_deduplicates
        (arrays : list (list Candidate)) :
  exists merged,
    combineAndDeduplicateSkills (map AnArray arrays) = Return merged
    /\ NoDup (map keyOf merged)
    /\ (forall c, In c (List.concat arrays) ->
                  In (keyOfCandidate c) (map keyOf merged))
    /\ (forall m, In m merged ->
           let same := candidatesOf (keyOf m) (List.concat arrays) in
           methods m = map method same
           /\ Forall (fun c => confidence c <= m_confidence m) same
           /\ Exists (fun c => m_confidence m = confidence c) same).
Proof. exact (combineAndDeduplicateSkills_arrays arrays). Qed.

(** X27.  When [suggestSkillImprovements] returns, it returns at most
    20 suggestions, in descending order of priority weight, and none
    for a skill whose lowercase name is among the user's; when it
    throws, a skill of the user is named like a property every object
    inherits. *)
Theorem suggestSkillImprovements_sound
        (Number_toString : Q -> string) (userSkills : list string)
        (marketTrends : list MarketTrend) (careerGoals : list Goal) :
  match suggestSkillImprovements Number_toString userSkills
                                 marketTrends careerGoals with
  | Ok out =>
      (List.length out <= 20)%nat
      /\ descending (fun s => Qnat (priorityWeight (priority s))) out
      /\ Forall (fun sg =>
                   ~ In (toLowerCase (s_skill sg))
                        (map toLowerCase userSkills)) out
  | Throw _ =>
      exists s, In s userSkills
                /\ (toLowerCase s = "constructor"
                    \/ toLowerCase s = "__proto__")
  end.
Proof.
  unfold suggestSkillImprovements.
  destruct (findComplementarySkills userSkills) as [compl|e] eqn:F;
    cbn [bind]; [|now apply findComplementarySkills_throw_inv in F].
  split; [apply (slice0_length _ 20); discriminate|].
  split; [apply descending_slice0, EngineExtras.sort_desc_descending|].
  apply Forall_forall. intros sg I.
  apply slice0_incl, sort_desc_In in I.
  apply in_app_or in I. destruct I as [I|I];
    [|apply in_app_or in I; destruct I as [I|I]].
  - apply in_flat_map in I. destruct I as (trend & _ & I).
    destruct (existsb _ (map toLowerCase userSkills)) eqn:E;
      [destruct I|].
    destruct I as [<-|[]]. cbn [s_skill]. intros C.
    assert (X : existsb (fun skill =>
                           includes skill (toLowerCase (t_skill trend)))
                        (map toLowerCase userSkills) = true).
    { apply existsb_exists. eexists. split; [exact C|].
      apply includes_refl. }
    congruence.
  - apply in_flat_map in I. destruct I as (goal & _ & I).
    apply in_flat_map in I. destruct I as (rq & _ & I).
    destruct (existsb _ (map toLowerCase userSkills)) eqn:E;
      [destruct I|].
    destruct I as [<-|[]]. cbn [s_skill]. intros C.
    assert (X : existsb (fun skill =>
                           includes skill (toLowerCase rq)
                           || includes (toLowerCase rq) skill)
                        (map toLowerCase userSkills) = true).
    { apply existsb_exists. eexists. split; [exact C|].
      now rewrite includes_refl. }
    congruence.
  - now apply (findComplementarySkills_new userSkills compl sg F).
Qed.

(** X28.  A user skill whose lowercase name is constructor or
    __proto__ makes [suggestSkillImprovements] throw, whatever the
    trends and goals: the table of related skills is an object, and
    the value it inherits under that name has no [forEach]. *)
Theorem suggestSkillImprovements_inherited_name
        (Number_toString : Q -> string) (userSkills : list string)
        (marketTrends : list MarketTrend) (careerGoals : list Goal)
        (s : string) :
  In s userSkills ->
  toLowerCase s = "constructor" \/ toLowerCase s = "__proto__" ->
  exists e,
    suggestSkillImprovements Number_toString userSkills
                             marketTrends careerGoals = Throw e.
Proof.
  intros I H. unfold suggestSkillImprovements.
  destruct (findComplementarySkills_throws userSkills s I H) as (e & ->).
  now exists e.
Qed.

Lemma suggestSkillImprovements_inherited_name_witness :
  exists e,
    suggestSkillImprovements (fun _ => "") ["Python"; "Constructor"] [] []
    = Throw e.
Proof.
  apply (suggestSkillImprovements_inherited_name
           (fun _ => "") ["Python"; "Constructor"] [] [] "Constructor").
  - right. now left.
  - now left.
Defined.

(** X29.  [getSkillCategory] answers other exactly for the names that
    are not in the catalogue, letter case ignored; a name with any
    other category is a valid skill for [isValidSkill]. *)
Theorem getSkillCategory_other (skillName : string) :
  (getSkillCategory skillName <> "other"
   <-> exists s, In s allSkills /\ toLowerCase s = toLowerCase skillName)
  /\ (getSkillCategory skillName <> "other" ->
      isValidSkill skillName = true).
Proof.
  assert (A : getSkillCategory skillName <> "other"
              <-> exists s, In s allSkills
                            /\ toLowerCase s = toLowerCase skillName).
  { unfold getSkillCategory. rewrite allSkills_flat.
    destruct (find _ skillsDatabase) as [entry|] eqn:F.
    - apply find_some in F. destruct F as [I E].
      apply existsb_exists in E. destruct E as (s & Hs & E).
      apply String.eqb_eq in E. split.
      + intros _. exists s. split; [|exact E].
        apply in_flat_map. now exists entry.
      + intros _. now apply categories_named.
    - split; [congruence|]. intros (s & I & E). exfalso.
      apply in_flat_map in I. destruct I as (entry & I & Hs).
      pose proof (find_none _ _ F entry I) as N. cbv beta in N.
      assert (X : existsb (fun skill =>
                             String.eqb (toLowerCase skill)
                                        (toLowerCase skillName))
                          (snd entry) = true).
      { apply existsb_exists. exists s. split; [exact Hs|].
        now apply String.eqb_eq. }
      congruence. }
  split; [exact A|]. intros H. apply A in H. destruct H as (s & I & E).
  unfold isValidSkill.
  replace (existsb _ allSkills) with true; [reflexivity|].
  symmetry. apply existsb_exists. exists s. split; [exact I|].
  now apply String.eqb_eq.
Qed.

(** X30.  The completion rate of a learning history lies between 0
    and 100; it is 0 for the empty history. *)
Theorem completionRate_range (learningHistory : list Engine.HistoryEntry) :
  0 <= UserModel.completionRate learningHistory
  /\ UserModel.completionRate learningHistory <= 100
  /\ UserModel.completionRate [] = 0.
Proof.
  split; [|split]; [| |reflexivity].
  - unfold UserModel.completionRate.
    destruct (Nat.eqb (List.length learningHistory) 0); [apply Qle_refl|].
    destruct (ConfidenceFacts.Qnat_ratio
                (List.length
                   (filter (fun course =>
                              Engine.Status_eqb (Engine.h_status course)
                                                Engine.Completed)
                           learningHistory))
                (List.length learningHistory)
                (filter_length_le _ _)) as [L U].
    lra.
  - unfold UserModel.completionRate.
    destruct (Nat.eqb (List.length learningHistory) 0); [discriminate|].
    destruct (ConfidenceFacts.Qnat_ratio
                (List.length
                   (filter (fun course =>
                              Engine.Status_eqb (Engine.h_status course)
                                                Engine.Completed)
                           learningHistory))
                (List.length learningHistory)
                (filter_length_le _ _)) as [L U].
    lra.
Qed.

End SuggestionExtras.

(** ** The model at work *)

Module Examples.
Import JS Regex Engine Extractor.
Local Open Scope string_scope.
Local Open Scope Q_scope.

(** Noise is replaced, white space collapsed, the ends trimmed. *)
Example preprocessText_example :
  preprocessText (Str "  React/Redux &   Node.js (5+ yrs)!  ")
  = Return "React Redux Node.js (5+ yrs)".
Proof. reflexivity. Qed.

(** [\b] after "c++" asks for a word character: the skill is found in
    "c++x" and not before a space or at the end. *)
Example wordBounded_example :
  countMatches (wordBounded "c++") "c++ and java" = O
  /\ countMatches (wordBounded "c++") "c++x c++" = 1%nat
  /\ countMatches (wordBounded "java") "java javascript java" = 2%nat.
Proof. repeat split. Qed.

(** The first pattern backtracks from "experience" to "experienced"
    and captures up to the comma. *)
Example skillPattern_example :
  option_map (map (fun m => (index m, mlength m, group1 m)))
             (execLoop (reMatcher true (snd (nth 0 skillPatterns ("", Eps))))
                       "Experienced with Python, worked on APIs")
  = Some [ (0%nat, 23%nat, Some "Python"); (25%nat, 14%nat, Some "APIs") ].
Proof. reflexivity. Qed.

(** The ninth pattern gives back the tail of its greedy capture. *)
Example greedy_capture_example :
  option_map (map group1)
             (execLoop (reMatcher true (snd (nth 8 skillPatterns ("", Eps))))
                       "contributed to payment gateway projects and more")
  = Some [Some "payment gateway"].
Proof. reflexivity. Qed.

Example cleanExtractedText_example :
  cleanExtractedText "and Django; the  React , a, an apple,or,12"
  = ["Django"; "React"; "apple"; "or"; "12"].
Proof. reflexivity. Qed.

(** The scenario of the specification: the character sets of "pythn"
    and "python" share 5 of 6 characters, above the threshold 0.7. *)
Example calculateStringSimilarity_example :
  calculateStringSimilarity "pythn" "python" == 5 # 6
  /\ option_map fst (findBestSkillMatch "pythn") = Some "python".
Proof. split; reflexivity. Qed.

(** A section ends at the next header line. *)
Example findSectionEnd_example :
  findSectionEnd ("Skills: a, b" ++ String nl "Work history: x") 8 = 12%nat
  /\ findSectionEnd "Skills: a, b" 8 = 12%nat.
Proof. split; reflexivity. Qed.

Example extractWithContext_example :
  option_map (map name)
             (match extractWithContext
                      ("Technical Skills: pythn, Reactt; - docker"
                       ++ String nl "Work: none") with
              | Return l => Some l
              | _ => None
              end)
  = Some ["python"; "react"; "docker"].
Proof. reflexivity. Qed.

(** The level of a single numeric mention; "1 year" is also a phrase
    of the beginner level, which scores 0.24 against 0.8. *)
Example analyzeSkillLevel_example :
  analyzeSkillLevel "0 years of python" "python" = Return Beginner
  /\ analyzeSkillLevel "1 year of python" "python" = Return Intermediate
  /\ analyzeSkillLevel "4 years of python" "python" = Return Advanced
  /\ analyzeSkillLevel "I write python daily" "python" = Return Intermediate.
Proof. repeat split. Qed.

(** An empty skill name makes the loop of [extractSkillContext] stay
    on its first empty match until the array of contexts is full. *)
Example extractSkillContext_empty_name :
  extractSkillContext "a" "" = Raise "RangeError: Invalid array length".
Proof. reflexivity. Qed.

Example calculateSkillSimilarity_example :
  calculateSkillSimilarity ["Python"; "SQL"] ["python 3"; "go"] == 1 # 4.
Proof. reflexivity. Qed.

(** The learner who completed c1 is offered c2, which the similar user
    completed as well. *)
Example collaborativeFiltering_example :
  buildInteractionMatrix (users Sample.twoUsers) (courses Sample.twoUsers)
  = [[1; 0]; [1; 1]]
  /\ map (fun r => (courseId r, Qeq_bool (score r) 1))
         (collaborativeFiltering Sample.runtime Sample.twoUsers "u1")
     = [("c2", true)].
Proof. split; reflexivity. Qed.

(** The market-driven scorer lists a course once for each trending
    skill it teaches. *)
Example marketDrivenRecommendations_example :
  map courseId
      (marketDrivenRecommendations
         Sample.runtime
         {| users := [];
            courses := [ Sample.course "ml" ["Machine Learning"; "Data Science"]
                                       "data" "advanced" ] |}
         Sample.learner)
  = ["ml"; "ml"].
Proof. reflexivity. Qed.

(** Case mapping reaches the Latin-1 letters: the capital I with
    diaeresis, code unit 207, and the small one, 239. *)
Example toLowerCase_latin1_example :
  toLowerCase ("NA" ++ String (ascii_of_nat 207) "VE")
  = "na" ++ String (ascii_of_nat 239) "ve".
Proof. reflexivity. Qed.

Example analyzeSkillLevel_latin1_example :
  analyzeSkillLevel ("Expert in NA" ++ String (ascii_of_nat 207) "VE BAYES")
                    ("na" ++ String (ascii_of_nat 239) "ve bayes")
  = Return Expert.
Proof. reflexivity. Qed.

(** A skill listed twice, in two spellings, counts twice in the
    intersection and once in the union. *)
Example calculateSkillSimilarity_repeated_example :
  calculateSkillSimilarity ["SQL"; "sql"] ["sql"] == 2.
Proof. reflexivity. Qed.

(** Of three categories completed once each, the one whose name is
    an array index comes first. *)
Example analyzePreferredCategories_example :
  analyzePreferredCategories
    [ {| h_courseId := "x"; h_status := Completed; h_progress := 100;
         h_timeSpent := 0; h_rating := None; h_category := Some "web";
         h_provider := None; h_difficulty := None |};
      {| h_courseId := "y"; h_status := Completed; h_progress := 100;
         h_timeSpent := 0; h_rating := None; h_category := Some "10";
         h_provider := None; h_difficulty := None |};
      {| h_courseId := "z"; h_status := Completed; h_progress := 100;
         h_timeSpent := 0; h_rating := None; h_category := Some "9";
         h_provider := None; h_difficulty := None |} ]
  = ["9"; "10"; "web"].
Proof. reflexivity. Qed.

End Examples.
